(** * Real Time Stock Dashboard (streamlit_app.py): a shallow embedding

    The script is a thin layer of glue around four libraries (yfinance,
    pandas, ta, streamlit).  The embedding keeps the two halves apart:

    - the _library boundary_: pandas frames and the handful of pandas
      operations the script calls, modelled as pure functions on frame
      values; the market-data provider, the clock and the indicator
      library, which are oracles collected in the record [Externals];
    - the _script_ itself: every function of streamlit_app.py and the
      top-level render pass, written statement by statement in a small
      state-and-exception monad over a store of frame objects, because the
      script mutates the frames it is handed ([inplace=True]) and relies on
      [try]/[except] and on [None] checks for its control flow. *)

From Stdlib Require Import Floats ZArith Ascii String Sorted.
From stdpp Require Import gmap strings list pretty.

Local Open Scope string_scope.
Local Open Scope list_scope.
Local Open Scope Z_scope.

(** ** Python exceptions and results *)

(** An exception is its class name and its message ([str(e)]).  Every
    exception of the model is a subclass of [Exception]: interpreter-level
    [BaseException]s (KeyboardInterrupt, SystemExit, streamlit's own
    script-control signals) are outside the model. *)
Record Exc := mkExc { exc_type : string; exc_msg : string }.

Inductive Result (A : Type) : Type :=
| Ok (a : A)
| Raise (e : Exc).
Arguments Ok {A} a.
Arguments Raise {A} e.

Definition TypeError (msg : string) : Exc := mkExc "TypeError" msg.
Definition KeyError (msg : string) : Exc := mkExc "KeyError" msg.
Definition ValueError (msg : string) : Exc := mkExc "ValueError" msg.
Definition IndexError (msg : string) : Exc := mkExc "IndexError" msg.
Definition AttributeError (msg : string) : Exc := mkExc "AttributeError" msg.
Definition OverflowError (msg : string) : Exc := mkExc "OverflowError" msg.

Definition rbind {A B} (r : Result A) (k : A -> Result B) : Result B :=
  match r with
  | Ok a => k a
  | Raise e => Raise e
  end.

(** ** Numbers: binary64 floats and 64-bit integers *)

Definition nan : float := PrimFloat.nan.

(** numpy's int64: two's complement wrap-around. *)
Definition wrap64 (z : Z) : Z := (z + 2 ^ 63) mod 2 ^ 64 - 2 ^ 63.

Definition in_int64 (z : Z) : bool := (- 2 ^ 63 <=? z) && (z <? 2 ^ 63).

(** int64 -> float64 conversion, rounding to nearest even. *)
Definition float_of_Z (z : Z) : float :=
  SF2Prim (binary_normalize prec emax z 0 false).

(** Python's [int(x)] on a float: truncation toward zero; NaN and the
    infinities raise. *)
Definition py_int (x : float) : Result Z :=
  match Prim2SF x with
  | S754_zero _ => Ok 0
  | S754_finite s m e =>
      let a := if (0 <=? e) then Z.shiftl (Z.pos m) e
               else Z.shiftr (Z.pos m) (- e) in
      Ok (if s then - a else a)
  | S754_infinity _ => Raise (OverflowError "cannot convert float infinity to integer")
  | S754_nan => Raise (ValueError "cannot convert float NaN to integer")
  end.

(** ** pandas values *)

(** A scalar read out of a column, or produced by a reduction.  Timestamps
    are nanoseconds since the epoch (pandas' int64 representation) with the
    zone they are displayed in; [None] is a zone-less ("naive") timestamp. *)
Inductive Scalar :=
| SFloat (x : float)
| SInt (z : Z)
| STime (tz : option string) (ns : Z)
| STimedelta (ns : Z)
| SNaT.

(** The dtypes of the provider's frames: float64 (prices, indicators),
    int64 (volume) and datetime64 (the timestamps once they are a column). *)
Inductive Column :=
| FloatCol (vs : list float)
| IntCol (vs : list Z)
| DatetimeCol (tz : option string) (vs : list Z).

Inductive Index :=
| DatetimeIndex (name : option string) (tz : option string) (values : list Z)
| RangeIndex (stop : nat).

(** A frame is its index and its columns, left to right.  Column labels
    are taken to be distinct, as the provider's are: [df[name]] is then one
    column. *)
Record DataFrame := mkDF {
  df_index : Index;
  df_columns : list (string * Column)
}.

Definition col_len (c : Column) : nat :=
  match c with
  | FloatCol vs => length vs
  | IntCol vs => length vs
  | DatetimeCol _ vs => length vs
  end.

Definition index_len (i : Index) : nat :=
  match i with
  | DatetimeIndex _ _ vs => length vs
  | RangeIndex n => n
  end.

Definition nrows (df : DataFrame) : nat := index_len (df_index df).

(** [DataFrame.empty]: true when either axis has length 0. *)
Definition df_empty (df : DataFrame) : bool :=
  (nrows df =? 0)%nat || (length (df_columns df) =? 0)%nat.

(** *** Column access *)

Fixpoint lookup_col (name : string) (cols : list (string * Column)) : option Column :=
  match cols with
  | [] => None
  | (n, c) :: rest => if String.eqb n name then Some c else lookup_col name rest
  end.

(** [df[name]] *)
Definition df_getitem (df : DataFrame) (name : string) : Result Column :=
  match lookup_col name (df_columns df) with
  | Some c => Ok c
  | None => Raise (KeyError name)
  end.

(** [df[[n1, n2, ...]]]: a new frame with the listed columns, in the listed
    order, over the same index. *)
Fixpoint select_cols (names : list string) (cols : list (string * Column))
  : Result (list (string * Column)) :=
  match names with
  | [] => Ok []
  | n :: rest =>
      match lookup_col n cols with
      | None => Raise (KeyError n)
      | Some c => rbind (select_cols rest cols) (fun cs => Ok ((n, c) :: cs))
      end
  end.

Definition df_select (df : DataFrame) (names : list string) : Result DataFrame :=
  rbind (select_cols names (df_columns df)) (fun cs => Ok (mkDF (df_index df) cs)).

(** *** Positional access: [s.iloc[0]] and [s.iloc[-1]] *)

Definition out_of_bounds : Exc := IndexError "single positional indexer is out-of-bounds".

Definition col_at (c : Column) (i : nat) : Result Scalar :=
  match c with
  | FloatCol vs => match vs !! i with Some x => Ok (SFloat x) | None => Raise out_of_bounds end
  | IntCol vs => match vs !! i with Some z => Ok (SInt z) | None => Raise out_of_bounds end
  | DatetimeCol tz vs => match vs !! i with Some t => Ok (STime tz t) | None => Raise out_of_bounds end
  end.

Definition iloc_first (c : Column) : Result Scalar := col_at c 0.

Definition iloc_last (c : Column) : Result Scalar :=
  match col_len c with
  | O => Raise out_of_bounds
  | S n => col_at c n
  end.

(** *** Scalar arithmetic, as numpy and pandas perform it *)

Definition unsupported (op : string) : Exc :=
  TypeError ("unsupported operand type(s) for " +:+ op).

(** [a - b].  float64 and int64 operands follow numpy (an int64 operand
    is converted when the other one is a float, int64 - int64 wraps); the
    difference of two timestamps is a Timedelta, provided both are
    zone-aware or both naive and the result fits in 64 bits. *)
Definition py_sub (a b : Scalar) : Result Scalar :=
  match a, b with
  | SFloat x, SFloat y => Ok (SFloat (x - y)%float)
  | SFloat x, SInt z => Ok (SFloat (x - float_of_Z z)%float)
  | SInt z, SFloat y => Ok (SFloat (float_of_Z z - y)%float)
  | SInt x, SInt y => Ok (SInt (wrap64 (x - y)))
  | STime (Some _) x, STime (Some _) y
  | STime None x, STime None y =>
      if in_int64 (x - y) then Ok (STimedelta (x - y))
      else Raise (mkExc "OutOfBoundsTimedelta" "Result is too large for pandas.Timedelta")
  | STime _ _, STime _ _ =>
      Raise (TypeError "Cannot subtract tz-naive and tz-aware datetime-like objects")
  | _, _ => Raise (unsupported "-")
  end.

(** [a / b], true division.  The dividend of the script is always the
    result of a subtraction whose right operand is the divisor itself, so
    it is a number divided by a number (a float64 result, division by zero
    giving an infinity or NaN, not an exception) or a Timedelta divided by
    a timestamp (a TypeError); no other combination can arise. *)
Definition py_truediv (a b : Scalar) : Result float :=
  match a, b with
  | SFloat x, SFloat y => Ok (x / y)%float
  | SFloat x, SInt z => Ok (x / float_of_Z z)%float
  | SInt z, SFloat y => Ok (float_of_Z z / y)%float
  | SInt x, SInt y => Ok (float_of_Z x / float_of_Z y)%float
  | _, _ => Raise (unsupported "/")
  end.

(** *** Reductions: [s.max()], [s.min()], [s.sum()] (skipna, the default) *)

Definition fmax (a b : float) : float := if (a <? b)%float then b else a.
Definition fmin (a b : float) : float := if (b <? a)%float then b else a.

Definition not_nan (x : float) : bool := negb (is_nan x).

Definition reduce {A} (f : A -> A -> A) (vs : list A) : option A :=
  match vs with
  | [] => None
  | x :: rest => Some (fold_left f rest x)
  end.

Definition series_max (c : Column) : Scalar :=
  match c with
  | FloatCol vs => SFloat (default nan (reduce fmax (List.filter not_nan vs)))
  | IntCol vs => from_option SInt (SFloat nan) (reduce Z.max vs)
  | DatetimeCol tz vs => from_option (STime tz) SNaT (reduce Z.max vs)
  end.

Definition series_min (c : Column) : Scalar :=
  match c with
  | FloatCol vs => SFloat (default nan (reduce fmin (List.filter not_nan vs)))
  | IntCol vs => from_option SInt (SFloat nan) (reduce Z.min vs)
  | DatetimeCol tz vs => from_option (STime tz) SNaT (reduce Z.min vs)
  end.

(** int64 sum: wrap-around at every addition. *)
Definition int64_sum (vs : list Z) : Z :=
  fold_left (fun acc v => wrap64 (acc + v)) vs 0.

(** The sum of a float64 column is numpy's reduction over the values with
    the NaNs replaced by zero; numpy's order of additions is the library's
    business, so the reduction itself is a parameter [np_sum]. *)
Definition series_sum (np_sum : list float -> float) (c : Column) : Result Scalar :=
  match c with
  | FloatCol vs => Ok (SFloat (np_sum (map (fun x => if is_nan x then 0%float else x) vs)))
  | IntCol vs => Ok (SInt (int64_sum vs))
  | DatetimeCol _ _ =>
      Raise (TypeError "'DatetimeArray' with dtype datetime64[ns] does not support reduction 'sum'")
  end.

(** *** The timestamp index *)

(** [idx.tzinfo]: only a DatetimeIndex has the attribute. *)
Definition index_tzinfo (i : Index) : Result (option string) :=
  match i with
  | DatetimeIndex _ tz _ => Ok tz
  | RangeIndex _ => Raise (AttributeError "'RangeIndex' object has no attribute 'tzinfo'")
  end.

(** [idx.tz_localize('UTC')]: the naive wall-clock readings are taken to
    be UTC, so the stored values stay as they are. *)
Definition tz_localize_UTC (i : Index) : Result Index :=
  match i with
  | DatetimeIndex name None vs => Ok (DatetimeIndex name (Some "UTC") vs)
  | DatetimeIndex _ (Some _) _ =>
      Raise (TypeError "Already tz-aware, use tz_convert to convert.")
  | RangeIndex _ => Raise (AttributeError "'RangeIndex' object has no attribute 'tz_localize'")
  end.

(** [idx.tz_convert(tz)]: the instants stay, the display zone changes. *)
Definition tz_convert (tz : string) (i : Index) : Result Index :=
  match i with
  | DatetimeIndex name (Some _) vs => Ok (DatetimeIndex name (Some tz) vs)
  | DatetimeIndex _ None _ =>
      Raise (TypeError "Cannot convert tz-naive timestamps, use tz_localize to localize")
  | RangeIndex _ => Raise (AttributeError "'RangeIndex' object has no attribute 'tz_convert'")
  end.

(** [df.index = idx] *)
Definition df_set_index (df : DataFrame) (i : Index) : Result DataFrame :=
  if (index_len i =? nrows df)%nat then Ok (mkDF i (df_columns df))
  else Raise (ValueError "Length mismatch").

Definition has_col (name : string) (cols : list (string * Column)) : bool :=
  match lookup_col name cols with Some _ => true | None => false end.

Definition range_values (n : nat) : list Z := map Z.of_nat (seq 0 n).

(** [df.reset_index()]: the index becomes the first column, named after
    the index (or "index", or "level_0" when "index" is taken), and the
    frame gets a fresh RangeIndex.  A column of that name already present
    is an error. *)
Definition df_reset_index (df : DataFrame) : Result DataFrame :=
  let cols := df_columns df in
  let fallback := if has_col "index" cols then "level_0" else "index" in
  let '(name, col) :=
    match df_index df with
    | DatetimeIndex name tz vs => (default fallback name, DatetimeCol tz vs)
    | RangeIndex n => (fallback, IntCol (range_values n))
    end in
  if has_col name cols
  then Raise (ValueError ("cannot insert " +:+ name +:+ ", already exists"))
  else Ok (mkDF (RangeIndex (nrows df)) ((name, col) :: cols)).

(** [df.rename(columns={old: new})] *)
Definition df_rename (old new : string) (df : DataFrame) : DataFrame :=
  mkDF (df_index df)
       (map (fun '(n, c) => (if String.eqb n old then new else n, c)) (df_columns df)).

(** Aligning a computed float64 series with a frame of [n] rows: the
    series carries the labels 0, 1, ... of the column it was computed from;
    a label of the frame that the series lacks gets NaN, a label the frame
    lacks is dropped. *)
Definition reindex (n : nat) (vs : list float) : list float :=
  take n vs ++ replicate (n - length vs) nan.

Fixpoint replace_col (name : string) (c : Column) (cols : list (string * Column))
  : list (string * Column) :=
  match cols with
  | [] => []
  | (n, c') :: rest =>
      (n, if String.eqb n name then c else c') :: replace_col name c rest
  end.

(** [df[name] = series]: an existing column is overwritten where it
    stands, a new one is appended on the right. *)
Definition df_setitem (df : DataFrame) (name : string) (vs : list float) : DataFrame :=
  let c := FloatCol (reindex (nrows df) vs) in
  mkDF (df_index df)
       (if has_col name (df_columns df) then replace_col name c (df_columns df)
        else df_columns df ++ [(name, c)]).

(** ** The market-data provider and the clock *)

(** What [yf.download] is asked: a period token, or an explicit range. *)
Inductive Request :=
| ReqPeriod (ticker period interval : string)
| ReqRange (ticker : string) (start end_ : Z) (interval : string).

Inductive Response :=
| RespFrame (df : DataFrame)
| RespRaise (e : Exc).

(** A naive [datetime] is the number of microseconds since
    0001-01-01T00:00:00 ([datetime.min]); arithmetic that leaves
    [datetime.min .. datetime.max] raises OverflowError. *)
Definition us_per_day : Z := 86400 * 1000000.
Definition datetime_max : Z := 3652059 * us_per_day - 1.
Definition timedelta_days (d : Z) : Z := d * us_per_day.

Definition datetime_sub (t delta : Z) : Result Z :=
  let r := t - delta in
  if (0 <=? r) && (r <=? datetime_max) then Ok r
  else Raise (OverflowError "date value out of range").

(** The external collaborators of the script: the provider, the two clock
    functions, the indicator library and numpy's float reduction.  The
    provider and the clock may answer differently every time they are
    asked, so they are indexed by the number of earlier calls. *)
Record Externals := mkExternals {
  yf_download : nat -> Request -> Response;
  time_time : nat -> float;
  datetime_now : nat -> Z;
  sma_indicator : Column -> nat -> list float;
  ema_indicator : Column -> nat -> list float;
  rsi : Column -> nat -> list float;
  macd : Column -> nat -> nat -> list float;
  macd_signal : Column -> nat -> nat -> nat -> list float;
  np_sum : list float -> float
}.

(** Modelled from the spec: the default windows of [ta.trend.macd] and
    [ta.trend.macd_signal], which the script leaves implicit; the constants
    live in the ta library, the spec fixes them at 12/26/9. *)
Definition macd_window_slow : nat := 26.
Definition macd_window_fast : nat := 12.
Definition macd_window_sign : nat := 9.

(** ** What the page shows *)

(** An f-string with numeric fields, kept symbolic: [{x:.2f}] and [{x:,}]. *)
Inductive Piece :=
| Lit (s : string)
| Fix2 (x : Scalar)
| Thousands (x : Scalar).

Inductive Trace :=
| Candlestick (x open high low close : Column)
| Scatter (x y : Column) (mode name : option string).

Record Figure := mkFigure {
  fig_traces : list Trace;
  fig_title : string;
  fig_xaxis_title : string;
  fig_yaxis_title : string;
  fig_height : Z
}.

Inductive Place := MainArea | Sidebar | InColumn (i : nat).

Inductive Widget :=
| StPageConfig (layout : string)
| StTitle (s : string)
| StHeader (p : Place) (s : string)
| StSubheader (p : Place) (s : string)
| StSelectbox (label : string) (options : list string)
| StMultiselect (label : string) (options : list string)
| StAutorefresh (interval_ms : Z) (key : string)
| StWrite (p : Place) (s : string)
| StWarning (s : string)
| StError (s : string)
| StMetric (p : Place) (label : string) (value : list Piece) (delta : option (list Piece))
| StColumns (n : nat)
| StLineChart (series : list (string * Column))
| StPlotlyChart (fig : Figure)
| StDataframe (df : DataFrame)
| StDownloadButton (label : string) (csv_of : DataFrame) (file_name mime : string)
| StInfo (p : Place) (s : string).

(** ** The state of a render pass *)

(** Frames are objects: the script holds references to them and updates
    them in place.  [heap] is the object store, [ui] what has been put on
    the page so far (oldest first), [requests] the provider calls made so
    far and [clock_reads] the number of clock readings taken. *)
Record World := mkWorld {
  heap : gmap nat DataFrame;
  next_loc : nat;
  ui : list Widget;
  requests : list Request;
  clock_reads : nat
}.

Definition M (A : Type) : Type := World -> Result A * World.

Definition ret {A} (a : A) : M A := fun w => (Ok a, w).

Definition bind {A B} (m : M A) (k : A -> M B) : M B :=
  fun w => match m w with
           | (Ok a, w') => k a w'
           | (Raise e, w') => (Raise e, w')
           end.

Definition raise {A} (e : Exc) : M A := fun w => (Raise e, w).

Definition lift {A} (r : Result A) : M A := fun w => (r, w).

(** [try: body / except Exception as e: handler e]: effects of the body up
    to the exception persist. *)
Definition try_except {A} (body : M A) (handler : Exc -> M A) : M A :=
  fun w => match body w with
           | (Ok a, w') => (Ok a, w')
           | (Raise e, w') => handler e w'
           end.

Declare Scope py_scope.
Delimit Scope py_scope with py.
Notation "x <- c1 ;; c2" := (bind c1 (fun x => c2))
  (at level 100, c1 at next level, right associativity) : py_scope.
Notation "c1 ;; c2" := (bind c1 (fun _ => c2))
  (at level 100, right associativity) : py_scope.
Local Open Scope py_scope.

(** Statement-level loop: [for x in xs: body x]. *)
Fixpoint for_each {A} (xs : list A) (body : A -> M unit) : M unit :=
  match xs with
  | [] => ret tt
  | x :: rest => body x ;; for_each rest body
  end.

Definition emit (e : Widget) : M unit :=
  fun w => (Ok tt, mkWorld (heap w) (next_loc w) (ui w ++ [e]) (requests w) (clock_reads w)).

Definition alloc (df : DataFrame) : M nat :=
  fun w => (Ok (next_loc w),
            mkWorld (<[next_loc w := df]> (heap w)) (S (next_loc w))
                    (ui w) (requests w) (clock_reads w)).

(** Reading through a reference.  A reference always comes from [alloc],
    so the failure branch is never taken by the script. *)
Definition load (r : nat) : M DataFrame :=
  fun w => match heap w !! r with
           | Some df => (Ok df, w)
           | None => (Raise (mkExc "SystemError" "dangling reference"), w)
           end.

Definition store (r : nat) (df : DataFrame) : M unit :=
  fun w => (Ok tt, mkWorld (<[r := df]> (heap w)) (next_loc w)
                           (ui w) (requests w) (clock_reads w)).

(** Subscripting [None] is a TypeError. *)
Definition subscript (data : option nat) (name : string) : M Column :=
  match data with
  | None => raise (TypeError "'NoneType' object is not subscriptable")
  | Some r => df <- load r ;; lift (df_getitem df name)
  end.

Definition getitem (data : nat) (name : string) : M Column :=
  subscript (Some data) name.

(** ** The script *)

(** Mapping of stock tickers to names; a dict iterates in insertion order. *)
Definition stock_names : list (string * string) :=
  [ ("AAPL", "Apple Inc.");
    ("GOOGL", "Alphabet Inc.");
    ("MSFT", "Microsoft Corporation");
    ("AMZN", "Amazon.com Inc.");
    ("TSLA", "Tesla Inc.");
    ("NFLX", "Netflix Inc.");
    ("NVDA", "NVIDIA Corporation");
    ("META", "Meta Platforms, Inc.");
    ("BABA", "Alibaba Group Holding Ltd.");
    ("ADBE", "Adobe Inc.");
    ("INTC", "Intel Corporation");
    ("RELIANCE.NS", "Reliance Industries Limited");
    ("TCS.NS", "Tata Consultancy Services") ].

Definition keys (d : list (string * string)) : list string := d.*1.

(** [d[k]] *)
Fixpoint dict_get (d : list (string * string)) (k : string) : Result string :=
  match d with
  | [] => Raise (KeyError k)
  | (k', v) :: rest => if String.eqb k' k then Ok v else dict_get rest k
  end.

(** [s.upper()], for the ASCII letters the period tokens are made of. *)
Definition upper_ascii (c : ascii) : ascii :=
  let n := nat_of_ascii c in
  if ((97 <=? n) && (n <=? 122))%nat then ascii_of_nat (n - 32) else c.

Fixpoint upper (s : string) : string :=
  match s with
  | EmptyString => EmptyString
  | String c rest => String (upper_ascii c) (upper rest)
  end.

(** The user's current choices in the sidebar. *)
Record Selection := mkSelection {
  ticker : string;
  time_period : string;
  interval : string;
  chart_type : string;
  indicators : list string;
  compare_ticker : string
}.

Definition refresh_interval : Z := 20.

Section Script.
Context (ext : Externals).

(** *** Calls across the boundary *)

Definition tick (w : World) : World :=
  mkWorld (heap w) (next_loc w) (ui w) (requests w) (S (clock_reads w)).

(** [datetime.now()] *)
Definition now : M Z :=
  fun w => (Ok (datetime_now ext (clock_reads w)), tick w).

(** [time.time()] *)
Definition clock : M float :=
  fun w => (Ok (time_time ext (clock_reads w)), tick w).

(** [yf.download(...)]: the answer is a freshly allocated frame, or an
    exception. *)
Definition download (req : Request) : M nat :=
  fun w =>
    let w' := mkWorld (heap w) (next_loc w) (ui w) (requests w ++ [req]) (clock_reads w) in
    match yf_download ext (length (requests w)) req with
    | RespFrame df => alloc df w'
    | RespRaise e => (Raise e, w')
    end.

Definition is_empty (data : nat) : M bool :=
  df <- load data ;; ret (df_empty df).

(** *** fetch_stock_data (lines 27-43) *)

Definition fetch_stock_data (ticker period interval : string) : M (option nat) :=
  try_except
    (end_date <- now ;;
     data <- (if String.eqb period "1wk" then
                start_date <- lift (datetime_sub end_date (timedelta_days 7)) ;;
                download (ReqRange ticker start_date end_date interval)
              else if String.eqb period "1d" then
                download (ReqPeriod ticker "1d" interval)
              else
                download (ReqPeriod ticker period interval)) ;;
     empty <- is_empty data ;;
     if empty then
       emit (StWarning ("No data found for " +:+ ticker
               +:+ ". It may be delisted or there is no price data available.")) ;;
       ret None
     else ret (Some data))
    (fun e =>
       emit (StError ("Error fetching data for " +:+ ticker +:+ ": " +:+ exc_msg e)) ;;
       ret None).

(** *** process_data (lines 46-52) *)

(** [data.index = f(data.index)] *)
Definition update_index (data : nat) (f : Index -> Result Index) : M unit :=
  df <- load data ;;
  i <- lift (f (df_index df)) ;;
  df' <- lift (df_set_index df i) ;;
  store data df'.

Definition tzinfo (data : nat) : M (option string) :=
  df <- load data ;; lift (index_tzinfo (df_index df)).

(** [data.reset_index(inplace=True)] *)
Definition reset_index_inplace (data : nat) : M unit :=
  df <- load data ;; df' <- lift (df_reset_index df) ;; store data df'.

(** [data.rename(columns={old: new}, inplace=True)] *)
Definition rename_inplace (data : nat) (old new : string) : M unit :=
  df <- load data ;; store data (df_rename old new df).

Definition process_data (data : nat) : M nat :=
  tz <- tzinfo data ;;
  (match tz with
   | None => update_index data tz_localize_UTC
   | Some _ => ret tt
   end) ;;
  update_index data (tz_convert "US/Eastern") ;;
  reset_index_inplace data ;;
  rename_inplace data "Date" "Datetime" ;;
  ret data.

(** *** calculate_metrics (lines 55-63) *)

Definition calculate_metrics (data : nat)
  : M (Scalar * Scalar * float * Scalar * Scalar * Scalar) :=
  c <- getitem data "Close" ;;
  last_close <- lift (iloc_last c) ;;
  c <- getitem data "Close" ;;
  prev_close <- lift (iloc_first c) ;;
  change <- lift (py_sub last_close prev_close) ;;
  q <- lift (py_truediv change prev_close) ;;
  let pct_change := (q * 100)%float in
  h <- getitem data "High" ;;
  let high := series_max h in
  l <- getitem data "Low" ;;
  let low := series_min l in
  v <- getitem data "Volume" ;;
  volume <- lift (series_sum (np_sum ext) v) ;;
  ret (last_close, change, pct_change, high, low, volume).

(** *** add_technical_indicators (lines 66-69), add_more_indicators (72-76) *)

(** [data[name] = series] *)
Definition setitem (data : nat) (name : string) (vs : list float) : M unit :=
  df <- load data ;; store data (df_setitem df name vs).

Definition add_technical_indicators (data : nat) : M nat :=
  c <- getitem data "Close" ;;
  setitem data "SMA_20" (sma_indicator ext c 20) ;;
  c <- getitem data "Close" ;;
  setitem data "EMA_20" (ema_indicator ext c 20) ;;
  ret data.

Definition add_more_indicators (data : nat) : M nat :=
  c <- getitem data "Close" ;;
  setitem data "RSI" (rsi ext c 14) ;;
  c <- getitem data "Close" ;;
  setitem data "MACD" (macd ext c macd_window_slow macd_window_fast) ;;
  c <- getitem data "Close" ;;
  setitem data "MACD_Signal"
    (macd_signal ext c macd_window_slow macd_window_fast macd_window_sign) ;;
  ret data.

(** *** The page, top to bottom (lines 79-193) *)

(** Lines 79-95: page set-up and the sidebar controls, whose values are
    the [Selection] the pass is run with. *)
Definition chart_parameters : M unit :=
  emit (StPageConfig "wide") ;;
  emit (StTitle "Real Time Stock Dashboard") ;;
  emit (StHeader Sidebar "Chart Parameters") ;;
  emit (StSelectbox "Select Ticker" (keys stock_names)) ;;
  emit (StSelectbox "Time Period" ["1d"; "1wk"; "1mo"; "1y"; "max"]) ;;
  emit (StSelectbox "Data Interval" ["1m"; "5m"; "15m"; "30m"; "1h"; "1d"; "1wk"]) ;;
  emit (StSelectbox "Chart Type" ["Candlestick"; "Line"]) ;;
  emit (StMultiselect "Technical Indicators" ["SMA 20"; "EMA 20"; "RSI"; "MACD"]) ;;
  emit (StSubheader Sidebar "Compare Stocks") ;;
  emit (StSelectbox "Select Ticker to Compare" (keys stock_names)).

(** Lines 97-103: auto-refresh and countdown.  The value of [countdown]
    is returned as well as displayed. *)
Definition auto_refresh : M Z :=
  emit (StAutorefresh (refresh_interval * 1000) "datarefresh") ;;
  last_refresh_time <- clock ;;
  t <- clock ;;
  time_since_refresh <- lift (py_int (t - last_refresh_time)%float) ;;
  let countdown := refresh_interval - time_since_refresh in
  emit (StWrite Sidebar ("Auto-refresh in " +:+ pretty countdown +:+ " seconds")) ;;
  ret countdown.

(** Lines 134-144: the loop over the selected indicators; [traces] is
    the figure under construction. *)
Fixpoint add_indicator_traces (data : nat) (inds : list string) (traces : list Trace)
  : M (list Trace) :=
  match inds with
  | [] => ret traces
  | indicator :: rest =>
      traces' <-
        (if String.eqb indicator "SMA 20" then
           x <- getitem data "Datetime" ;;
           y <- getitem data "SMA_20" ;;
           ret (traces ++ [Scatter x y None (Some "SMA 20")])
         else if String.eqb indicator "EMA 20" then
           x <- getitem data "Datetime" ;;
           y <- getitem data "EMA_20" ;;
           ret (traces ++ [Scatter x y None (Some "EMA 20")])
         else if String.eqb indicator "RSI" then
           emit (StSubheader MainArea "RSI Indicator") ;;
           c <- getitem data "RSI" ;;
           emit (StLineChart [("RSI", c)]) ;;
           ret traces
         else if String.eqb indicator "MACD" then
           emit (StSubheader MainArea "MACD Indicator") ;;
           df <- load data ;;
           sub <- lift (df_select df ["MACD"; "MACD_Signal"]) ;;
           emit (StLineChart (df_columns sub)) ;;
           ret traces
         else ret traces) ;;
      add_indicator_traces data rest traces'
  end.

(** Lines 106-165: the main content area.  The value of the global
    [data] after the block is returned: the comparison chart reads it. *)
Definition main_content (sel : Selection) : M (option nat) :=
  data <- fetch_stock_data (ticker sel) (time_period sel) (interval sel) ;;
  match data with
  | None => ret None
  | Some data =>
      data <- process_data data ;;
      data <- add_technical_indicators data ;;
      data <- add_more_indicators data ;;
      metrics <- calculate_metrics data ;;
      let '(last_close, change, pct_change, high, low, volume) := metrics in
      (* Display main metrics *)
      name <- lift (dict_get stock_names (ticker sel)) ;;
      emit (StMetric MainArea (name +:+ " Last Price")
              [Fix2 last_close; Lit " USD"]
              (Some [Fix2 change; Lit " ("; Fix2 (SFloat pct_change); Lit "%)"])) ;;
      emit (StColumns 3) ;;
      emit (StMetric (InColumn 0) "High" [Fix2 high; Lit " USD"] None) ;;
      emit (StMetric (InColumn 1) "Low" [Fix2 low; Lit " USD"] None) ;;
      emit (StMetric (InColumn 2) "Volume" [Thousands volume] None) ;;
      (* Plot the stock price chart *)
      traces <-
        (if String.eqb (chart_type sel) "Candlestick" then
           x <- getitem data "Datetime" ;;
           o <- getitem data "Open" ;;
           h <- getitem data "High" ;;
           l <- getitem data "Low" ;;
           c <- getitem data "Close" ;;
           ret [Candlestick x o h l c]
         else
           x <- getitem data "Datetime" ;;
           y <- getitem data "Close" ;;
           ret [Scatter x y (Some "lines") (Some "Close Price")]) ;;
      (* Add selected technical indicators to the chart *)
      traces <- add_indicator_traces data (indicators sel) traces ;;
      (* Format graph *)
      name <- lift (dict_get stock_names (ticker sel)) ;;
      emit (StPlotlyChart
              (mkFigure traces (name +:+ " " +:+ upper (time_period sel) +:+ " Chart")
                        "Time" "Price (USD)" 680)) ;;
      (* Display historical data and technical indicators *)
      emit (StSubheader MainArea "Historical Data") ;;
      df <- load data ;;
      sub <- lift (df_select df ["Datetime"; "Open"; "High"; "Low"; "Close"; "Volume"]) ;;
      emit (StDataframe sub) ;;
      emit (StSubheader MainArea "Technical Indicators") ;;
      df <- load data ;;
      sub <- lift (df_select df ["Datetime"; "SMA_20"; "EMA_20"; "RSI"; "MACD"; "MACD_Signal"]) ;;
      emit (StDataframe sub) ;;
      (* Download data as CSV *)
      df <- load data ;;
      emit (StDownloadButton "Download Data as CSV" df
              ((ticker sel) +:+ "_data.csv") "text/csv") ;;
      ret (Some data)
  end.

(** Lines 167-178: the stock comparison chart; [data] is the global left
    by the main content area. *)
Definition comparison_chart (sel : Selection) (data : option nat) : M unit :=
  compare_data <- fetch_stock_data (compare_ticker sel) (time_period sel) (interval sel) ;;
  match compare_data with
  | None => ret tt
  | Some compare_data =>
      compare_data <- process_data compare_data ;;
      x <- subscript data "Datetime" ;;
      y <- subscript data "Close" ;;
      let primary := Scatter x y None (Some ((ticker sel) +:+ " Close Price")) in
      x <- getitem compare_data "Datetime" ;;
      y <- getitem compare_data "Close" ;;
      let other := Scatter x y None (Some ((compare_ticker sel) +:+ " Close Price")) in
      name <- lift (dict_get stock_names (ticker sel)) ;;
      compare_name <- lift (dict_get stock_names (compare_ticker sel)) ;;
      emit (StPlotlyChart
              (mkFigure [primary; other]
                        ("Comparison of " +:+ name +:+ " and " +:+ compare_name)
                        "Time" "Price (USD)" 680))
  end.

(** Lines 185-189: one readout of the side panel. *)
Definition real_time_readout (symbol : string) (real_time_data : nat) : M unit :=
  real_time_data <- process_data real_time_data ;;
  c <- getitem real_time_data "Close" ;;
  last_price <- lift (iloc_last c) ;;
  o <- getitem real_time_data "Open" ;;
  open <- lift (iloc_first o) ;;
  change <- lift (py_sub last_price open) ;;
  o <- getitem real_time_data "Open" ;;
  open <- lift (iloc_first o) ;;
  q <- lift (py_truediv change open) ;;
  let pct_change := (q * 100)%float in
  name <- lift (dict_get stock_names symbol) ;;
  emit (StMetric Sidebar name [Fix2 last_price; Lit " USD"]
          (Some [Fix2 change; Lit " ("; Fix2 (SFloat pct_change); Lit "%)"])).

(** Lines 183-189: the body of the loop over the watchlist, with the
    guard [real_time_data is not None and not real_time_data.empty]. *)
Definition real_time_entry (symbol : string) : M unit :=
  real_time_data <- fetch_stock_data symbol "1d" "1m" ;;
  match real_time_data with
  | None => ret tt
  | Some r =>
      empty <- is_empty r ;;
      if negb empty then real_time_readout symbol r else ret tt
  end.

(** The same body with the guard [real_time_data is not None] alone. *)
Definition real_time_entry_unchecked (symbol : string) : M unit :=
  real_time_data <- fetch_stock_data symbol "1d" "1m" ;;
  match real_time_data with
  | None => ret tt
  | Some r => real_time_readout symbol r
  end.

(** Lines 180-189: the side panel of real-time prices. *)
Definition real_time_prices : M unit :=
  emit (StHeader Sidebar "Real-Time Stock Prices") ;;
  for_each (keys stock_names) real_time_entry.

(** Lines 191-193. *)
Definition about : M unit :=
  emit (StSubheader Sidebar "About") ;;
  emit (StInfo Sidebar "This dashboard provides stock data and technical indicators for various time periods. Use the sidebar to customize your view.").

(** One run of the script. *)
Definition render_pass (sel : Selection) : M unit :=
  chart_parameters ;;
  auto_refresh ;;
  data <- main_content sel ;;
  comparison_chart sel data ;;
  real_time_prices ;;
  about.

End Script.

(** ** Sample data *)

(** Five one-minute bars starting 2024-01-02 14:30:00 UTC, as an intraday
    download delivers them: a zone-less index named "Datetime". *)
Definition sample_times : list Z :=
  [ 1704205800000000000; 1704205860000000000; 1704205920000000000;
    1704205980000000000; 1704206040000000000 ].

Definition sample_columns : list (string * Column) :=
  [ ("Open", FloatCol [99.5; 100.5; 102; 101; 105]%float);
    ("High", FloatCol [101; 103; 102.5; 106; 108]%float);
    ("Low", FloatCol [99; 100; 100.5; 100.75; 104.5]%float);
    ("Close", FloatCol [100; 102; 101; 105; 107]%float);
    ("Volume", IntCol [1000; 1500; 1200; 900; 2000]) ].

Definition sample_frame : DataFrame :=
  mkDF (DatetimeIndex (Some "Datetime") None sample_times) sample_columns.

(** What the provider answers for a symbol it has no bars for. *)
Definition empty_frame : DataFrame :=
  mkDF (DatetimeIndex (Some "Datetime") None [])
       [ ("Open", FloatCol []); ("High", FloatCol []); ("Low", FloatCol []);
         ("Close", FloatCol []); ("Volume", IntCol []) ].

Definition request_ticker (req : Request) : string :=
  match req with
  | ReqPeriod t _ _ => t
  | ReqRange t _ _ _ => t
  end.

(** A provider that has bars for every symbol but [missing] (an empty
    answer) and [broken] (an exception). *)
Definition sample_provider (missing broken : string) (n : nat) (req : Request) : Response :=
  if String.eqb (request_ticker req) missing then RespFrame empty_frame
  else if String.eqb (request_ticker req) broken
       then RespRaise (mkExc "ConnectionError" "Connection timed out")
       else RespFrame sample_frame.

(** On a series shorter than every window (fewer than 12 rows) the
    indicator library returns a column that is undefined throughout. *)
Definition warm_up (c : Column) : list float := replicate (col_len c) nan.

(** Two clocks for [time.time()]: one whose readings are a quarter of a
    second apart, one that stands still. *)
Definition running_clock (n : nat) : float :=
  match n with
  | O => 1704206100%float
  | S _ => 1704206100.25%float
  end.

Definition steady_clock (n : nat) : float := 1704206100%float.

(** Externals for the examples: the sample provider, [datetime.now()] at
    2024-01-02 14:35, the short-series indicator columns and a
    left-to-right float sum. *)
Definition sample_ext_with (clock : nat -> float) (missing broken : string) : Externals :=
  mkExternals (sample_provider missing broken)
              clock
              (fun _ => 63839802900000000)
              (fun c _ => warm_up c) (fun c _ => warm_up c) (fun c _ => warm_up c)
              (fun c _ _ => warm_up c) (fun c _ _ _ => warm_up c)
              (fun vs => fold_left PrimFloat.add vs 0%float).

Definition sample_ext : string -> string -> Externals := sample_ext_with running_clock.

Definition empty_world : World := mkWorld ∅ 0 [] [] 0.

Definition sample_selection (primary compare : string) : Selection :=
  mkSelection primary "1d" "1m" "Candlestick" ["SMA 20"; "RSI"; "MACD"] compare.

(** The store holding the sample frame at reference 0, before and after
    normalization. *)
Definition sample_world : World := snd (alloc sample_frame empty_world).

Definition normalized_world : World := snd (process_data 0 sample_world).

Definition normalized_frame : DataFrame :=
  mkDF (RangeIndex 5)
       (("Datetime", DatetimeCol (Some "US/Eastern") sample_times) :: sample_columns).

(** The sample series with the timestamps both as a US/Eastern index and
    as an explicit column. *)
Definition materialized_frame : DataFrame :=
  mkDF (DatetimeIndex (Some "Datetime") (Some "US/Eastern") sample_times)
       (("Datetime", DatetimeCol (Some "US/Eastern") sample_times) :: sample_columns).

(** Two bars delivered latest first. *)
Definition unsorted_frame : DataFrame :=
  mkDF (DatetimeIndex (Some "Datetime") None [1704205860000000000; 1704205800000000000])
       [ ("Open", FloatCol [100.5; 99.5]%float);
         ("High", FloatCol [103; 101]%float);
         ("Low", FloatCol [100; 99]%float);
         ("Close", FloatCol [102; 100]%float);
         ("Volume", IntCol [1500; 1000]) ].

(** ** Vocabulary of the properties *)

Definition set_heap (w : World) (h : gmap nat DataFrame) : World :=
  mkWorld h (next_loc w) (ui w) (requests w) (clock_reads w).

(** Timestamps in chronological order (ascending, ties allowed). *)
Definition chronological (ts : list Z) : Prop := Sorted Z.le ts.

(** The timestamps of a normalized frame: its leading column, with the
    zone they are displayed in. *)
Definition timestamp_column (df : DataFrame) : option (option string * list Z) :=
  match df_columns df with
  | (_, DatetimeCol tz vs) :: _ => Some (tz, vs)
  | _ => None
  end.

(** The label [reset_index] gives the column made from an index called
    [name] in a frame with the columns [cols]. *)
Definition index_label (name : option string) (cols : list (string * Column)) : string :=
  default (if has_col "index" cols then "level_0" else "index") name.

(** Finite binary64 values of one sign are compared exponent first, then
    mantissa. *)
Definition lex_lt (e1 : Z) (m1 : positive) (e2 : Z) (m2 : positive) : Prop :=
  e1 < e2 \/ (e1 = e2 /\ (m1 < m2)%positive).

(** A rank for the binary64 values other than NaN: class (infinities,
    negative, zero, positive), then exponent, then mantissa; the float
    order is the lexicographic order of the ranks. *)
Definition sf_key (x : spec_float) : Z * Z * Z :=
  match x with
  | S754_infinity true => (-2, 0, 0)
  | S754_finite true m e => (-1, - e, - Z.pos m)
  | S754_zero _ => (0, 0, 0)
  | S754_nan => (0, 0, 0)
  | S754_finite false m e => (1, e, Z.pos m)
  | S754_infinity false => (2, 0, 0)
  end.

Definition lt3 (a b : Z * Z * Z) : Prop :=
  a.1.1 < b.1.1 \/ (a.1.1 = b.1.1 /\ (a.1.2 < b.1.2 \/ (a.1.2 = b.1.2 /\ a.2 < b.2))).

(** One row of a price series. *)
Record Bar := mkBar {
  bar_time : Z;
  bar_open : float;
  bar_high : float;
  bar_low : float;
  bar_close : float;
  bar_volume : Z
}.

(** [df] is the normalized series made of the rows [bars], in that
    order: timestamps in US/Eastern in the leading column, float64 prices,
    int64 volumes. *)
Definition normalized_series (df : DataFrame) (bars : list Bar) : Prop :=
  nrows df = length bars /\
  timestamp_column df = Some (Some "US/Eastern", map bar_time bars) /\
  lookup_col "Open" (df_columns df) = Some (FloatCol (map bar_open bars)) /\
  lookup_col "High" (df_columns df) = Some (FloatCol (map bar_high bars)) /\
  lookup_col "Low" (df_columns df) = Some (FloatCol (map bar_low bars)) /\
  lookup_col "Close" (df_columns df) = Some (FloatCol (map bar_close bars)) /\
  lookup_col "Volume" (df_columns df) = Some (IntCol (map bar_volume bars)).

(** The sum of a list of integers, without wrap-around. *)
Definition Zsum (vs : list Z) : Z := fold_right Z.add 0 vs.

(** The rows of the sample frame. *)
Definition sample_bars : list Bar :=
  [ mkBar 1704205800000000000 99.5 101 99 100 1000;
    mkBar 1704205860000000000 100.5 103 100 102 1500;
    mkBar 1704205920000000000 102 102.5 100.5 101 1200;
    mkBar 1704205980000000000 101 106 100.75 105 900;
    mkBar 1704206040000000000 105 108 104.5 107 2000 ].

(** ** Vocabulary of the further properties *)

Definition indicator_names : list string :=
  ["SMA_20"; "EMA_20"; "RSI"; "MACD"; "MACD_Signal"].

(** The columns [cols] hold the prices and volumes of [bars] under the
    provider's labels. *)
Definition price_columns (cols : list (string * Column)) (bars : list Bar) : Prop :=
  lookup_col "Open" cols = Some (FloatCol (map bar_open bars)) /\
  lookup_col "High" cols = Some (FloatCol (map bar_high bars)) /\
  lookup_col "Low" cols = Some (FloatCol (map bar_low bars)) /\
  lookup_col "Close" cols = Some (FloatCol (map bar_close bars)) /\
  lookup_col "Volume" cols = Some (IntCol (map bar_volume bars)).

(** A series as the provider delivers it: at least one bar, the
    timestamps as an index called "Date" (daily bars) or "Datetime"
    (intraday bars), the price columns, and no column labelled like the
    timestamp or like an indicator. *)
Definition provider_series (df : DataFrame) (bars : list Bar) : Prop :=
  exists name tz cols,
    df = mkDF (DatetimeIndex (Some name) tz (map bar_time bars)) cols /\
    (name = "Date" \/ name = "Datetime") /\
    bars <> [] /\
    price_columns cols bars /\
    Forall (fun n => has_col n cols = false) ("Date" :: "Datetime" :: indicator_names).

(** A provider that answers every request with an exception, an empty
    frame or a series of the above shape. *)
Definition well_behaved (ext : Externals) : Prop :=
  forall n req,
    match yf_download ext n req with
    | RespRaise _ => True
    | RespFrame df => df_empty df = true \/ exists bars, provider_series df bars
    end.

(** The state with more widgets on the page. *)
Definition add_ui (w : World) (widgets : list Widget) : World :=
  mkWorld (heap w) (next_loc w) (ui w ++ widgets) (requests w) (clock_reads w).

(** The five columns the Enricher computes from [close] for a frame of
    [n] rows. *)
Definition indicator_columns (ext : Externals) (n : nat) (close : Column)
  : list (string * Column) :=
  [ ("SMA_20", FloatCol (reindex n (sma_indicator ext close 20)));
    ("EMA_20", FloatCol (reindex n (ema_indicator ext close 20)));
    ("RSI", FloatCol (reindex n (rsi ext close 14)));
    ("MACD", FloatCol (reindex n (macd ext close 26 12)));
    ("MACD_Signal", FloatCol (reindex n (macd_signal ext close 26 12 9))) ].


(** A computation that leaves the store, the page, the request log and
    the clock as it found them, whether it returns or raises. *)
Definition read_only {A} (m : M A) : Prop := forall w, snd (m w) = w.

(** The store holding the materialized frame at reference 0. *)
Definition materialized_world : World := snd (alloc materialized_frame empty_world).

(** The store holding the provider's empty answer at reference 0. *)
Definition empty_frame_world : World := snd (alloc empty_frame empty_world).

(** Two bars of a series that starts at a close of zero. *)
Definition zero_open_frame : DataFrame :=
  mkDF (RangeIndex 2)
       [ ("Datetime", DatetimeCol (Some "US/Eastern")
                        [1704205800000000000; 1704205860000000000]);
         ("Open", FloatCol [0; 0.25]%float);
         ("High", FloatCol [0.25; 0.75]%float);
         ("Low", FloatCol [0; 0.5]%float);
         ("Close", FloatCol [0; 0.5]%float);
         ("Volume", IntCol [10; 20]) ].

Definition zero_open_world : World := snd (alloc zero_open_frame empty_world).

(** The series the Enricher asks the indicator library for, under the
    column labels it stores them at, in the order of the assignments. *)
Definition indicator_series (ext : Externals) (close : Column) : list (string * list float) :=
  [ ("SMA_20", sma_indicator ext close 20);
    ("EMA_20", ema_indicator ext close 20);
    ("RSI", rsi ext close 14);
    ("MACD", macd ext close macd_window_slow macd_window_fast);
    ("MACD_Signal", macd_signal ext close macd_window_slow macd_window_fast macd_window_sign) ].

(** A run of column assignments [df[name] = series], left to right. *)
Definition assign_all (df : DataFrame) (l : list (string * list float)) : DataFrame :=
  fold_left (fun d p => df_setitem d p.1 p.2) l df.

(** The Enricher as the page calls it: [add_more_indicators] on the result
    of [add_technical_indicators]. *)
Definition enrich (ext : Externals) (data : nat) : M nat :=
  bind (add_technical_indicators ext data) (add_more_indicators ext).

(** Every column of [cols] labelled [name] is [c]. *)
Definition all_named (name : string) (c : Column) (cols : list (string * Column)) : Prop :=
  Forall (fun p => String.eqb p.1 name = true -> p.2 = c) cols.

(** A computation whose outcome does not depend on the state it runs in. *)
Definition state_blind {A} (m : M A) : Prop := forall w1 w2, fst (m w1) = fst (m w2).

(** A frame of opening quotes only, held at reference 0. *)
Definition quotes_only_frame : DataFrame :=
  mkDF (RangeIndex 2) [ ("Open", FloatCol [99.5; 100.5]%float) ].

Definition quotes_only_world : World := snd (alloc quotes_only_frame empty_world).

(** The Close column of the sample frame. *)
Definition sample_close : Column := FloatCol [100; 102; 101; 105; 107]%float.

(** The traces the indicator loop adds to the price chart for the
    selection [inds], given the timestamp column and the two moving
    averages. *)
Definition overlay_traces (x sma ema : Column) (inds : list string) : list Trace :=
  flat_map (fun indicator =>
              if String.eqb indicator "SMA 20" then [Scatter x sma None (Some "SMA 20")]
              else if String.eqb indicator "EMA 20" then [Scatter x ema None (Some "EMA 20")]
              else []) inds.

(** The charts the indicator loop puts on the page for the selection
    [inds], given the RSI and the two MACD columns. *)
Definition sub_charts (rsi macd signal : Column) (inds : list string) : list Widget :=
  flat_map (fun indicator =>
              if String.eqb indicator "SMA 20" then []
              else if String.eqb indicator "EMA 20" then []
              else if String.eqb indicator "RSI" then
                [StSubheader MainArea "RSI Indicator"; StLineChart [("RSI", rsi)]]
              else if String.eqb indicator "MACD" then
                [StSubheader MainArea "MACD Indicator";
                 StLineChart [("MACD", macd); ("MACD_Signal", signal)]]
              else []) inds.

(** The frame the main content area works on: the normalized provider
    series [bars] (provider columns [cols]) with the five indicator
    columns. *)
Definition enriched_frame (ext : Externals) (cols : list (string * Column)) (bars : list Bar)
  : DataFrame :=
  mkDF (RangeIndex (length bars))
       (("Datetime", DatetimeCol (Some "US/Eastern") (map bar_time bars))
          :: cols ++ indicator_columns ext (length bars) (FloatCol (map bar_close bars))).

(** The columns of a normalized series of [bars]. *)
Definition time_column (bars : list Bar) : Column :=
  DatetimeCol (Some "US/Eastern") (map bar_time bars).
Definition open_column (bars : list Bar) : Column := FloatCol (map bar_open bars).
Definition high_column (bars : list Bar) : Column := FloatCol (map bar_high bars).
Definition low_column (bars : list Bar) : Column := FloatCol (map bar_low bars).
Definition close_column (bars : list Bar) : Column := FloatCol (map bar_close bars).
Definition volume_column (bars : list Bar) : Column := IntCol (map bar_volume bars).

(** The indicator column stored for the series [vs]. *)
Definition indicator_column (bars : list Bar) (vs : list float) : Column :=
  FloatCol (reindex (length bars) vs).

(** The five metric widgets of the main content area (lines 114-118),
    for a series that runs from [first] to [final]. *)
Definition metric_widgets (name : string) (bars : list Bar) (first final : Bar) : list Widget :=
  let change := (bar_close final - bar_close first)%float in
  [ StMetric MainArea (name +:+ " Last Price")
      [Fix2 (SFloat (bar_close final)); Lit " USD"]
      (Some [Fix2 (SFloat change); Lit " (";
             Fix2 (SFloat (change / bar_close first * 100)%float); Lit "%)"]);
    StColumns 3;
    StMetric (InColumn 0) "High" [Fix2 (series_max (high_column bars)); Lit " USD"] None;
    StMetric (InColumn 1) "Low" [Fix2 (series_min (low_column bars)); Lit " USD"] None;
    StMetric (InColumn 2) "Volume" [Thousands (SInt (int64_sum (map bar_volume bars)))] None ].

(** The price trace (lines 122-129). *)
Definition price_trace (chart : string) (bars : list Bar) : Trace :=
  if String.eqb chart "Candlestick" then
    Candlestick (time_column bars) (open_column bars) (high_column bars)
                (low_column bars) (close_column bars)
  else Scatter (time_column bars) (close_column bars) (Some "lines") (Some "Close Price").

(** The price chart (lines 122-151). *)
Definition price_figure (ext : Externals) (sel : Selection) (name : string) (bars : list Bar)
  : Figure :=
  let close := close_column bars in
  mkFigure (price_trace (chart_type sel) bars
              :: overlay_traces (time_column bars)
                   (indicator_column bars (sma_indicator ext close 20))
                   (indicator_column bars (ema_indicator ext close 20))
                   (indicators sel))
           (name +:+ " " +:+ upper (time_period sel) +:+ " Chart")
           "Time" "Price (USD)" 680.

(** The two tables (lines 154-158). *)
Definition history_table (bars : list Bar) : DataFrame :=
  mkDF (RangeIndex (length bars))
       [ ("Datetime", time_column bars); ("Open", open_column bars);
         ("High", high_column bars); ("Low", low_column bars);
         ("Close", close_column bars); ("Volume", volume_column bars) ].

Definition indicator_table (ext : Externals) (bars : list Bar) : DataFrame :=
  mkDF (RangeIndex (length bars))
       (("Datetime", time_column bars)
          :: indicator_columns ext (length bars) (close_column bars)).

(** Everything the main content area puts on the page, top to bottom. *)
Definition main_widgets (ext : Externals) (sel : Selection) (name : string)
  (cols : list (string * Column)) (bars : list Bar) (first final : Bar) : list Widget :=
  let close := close_column bars in
  metric_widgets name bars first final
  ++ sub_charts (indicator_column bars (rsi ext close 14))
                (indicator_column bars (macd ext close 26 12))
                (indicator_column bars (macd_signal ext close 26 12 9))
                (indicators sel)
  ++ [ StPlotlyChart (price_figure ext sel name bars);
       StSubheader MainArea "Historical Data";
       StDataframe (history_table bars);
       StSubheader MainArea "Technical Indicators";
       StDataframe (indicator_table ext bars);
       StDownloadButton "Download Data as CSV" (enriched_frame ext cols bars)
                        (ticker sel +:+ "_data.csv") "text/csv" ].

(** The store after the sample frame has been normalized and enriched. *)
Definition enriched_world : World :=
  snd (enrich (sample_ext "DELISTED" "BROKEN") 0 normalized_world).

(** The comparison chart (lines 171-178): the primary series' closes
    over its timestamps, then those of the comparison series [bars]. *)
Definition comparison_figure (sel : Selection) (name compare_name : string)
  (x y : Column) (bars : list Bar) : Figure :=
  mkFigure [ Scatter x y None (Some (ticker sel +:+ " Close Price"));
             Scatter (time_column bars) (close_column bars) None
                     (Some (compare_ticker sel +:+ " Close Price")) ]
           ("Comparison of " +:+ name +:+ " and " +:+ compare_name)
           "Time" "Price (USD)" 680.

(** The normalized provider series, as the comparison chart and the
    side panel leave it in the store. *)
Definition normalized_provider_frame (cols : list (string * Column)) (bars : list Bar)
  : DataFrame :=
  mkDF (RangeIndex (length bars)) (("Datetime", time_column bars) :: cols).

(** The readout of one watchlist symbol (lines 186-189): the last close,
    and its change against the first open of the series. *)
Definition readout_widget (name : string) (first final : Bar) : Widget :=
  let change := (bar_close final - bar_open first)%float in
  StMetric Sidebar name
    [Fix2 (SFloat (bar_close final)); Lit " USD"]
    (Some [Fix2 (SFloat change); Lit " (";
           Fix2 (SFloat (change / bar_open first * 100)%float); Lit "%)"]).

(** The two messages of the Fetcher. *)
Definition no_data_warning (ticker : string) : Widget :=
  StWarning ("No data found for " +:+ ticker
             +:+ ". It may be delisted or there is no price data available.").

Definition fetch_error (ticker : string) (e : Exc) : Widget :=
  StError ("Error fetching data for " +:+ ticker +:+ ": " +:+ exc_msg e).

(** What the side panel shows for [symbol], by the provider's answer. *)
Definition entry_shows (symbol : string) (resp : Response) (widget : Widget) : Prop :=
  match resp with
  | RespRaise e => widget = fetch_error symbol e
  | RespFrame df =>
      if df_empty df then widget = no_data_warning symbol
      else exists bars first final name,
             provider_series df bars /\
             head bars = Some first /\ last bars = Some final /\
             dict_get stock_names symbol = Ok name /\
             widget = readout_widget name first final
  end.

(** The About box that closes the page (lines 191-193). *)
Definition about_widgets : list Widget :=
  [ StSubheader Sidebar "About";
    StInfo Sidebar "This dashboard provides stock data and technical indicators for various time periods. Use the sidebar to customize your view." ].

(** The requests of the side panel, one per symbol of the name table. *)
Definition watchlist_requests : list Request :=
  map (fun s => ReqPeriod s "1d" "1m") (keys stock_names).

(** Two bars whose volumes add up to 2^63. *)
Definition heavy_volume_frame : DataFrame :=
  mkDF (RangeIndex 2)
       [ ("Datetime", DatetimeCol (Some "US/Eastern")
                        [1704205800000000000; 1704205860000000000]);
         ("Open", FloatCol [1; 2]%float);
         ("High", FloatCol [2; 3]%float);
         ("Low", FloatCol [1; 2]%float);
         ("Close", FloatCol [1; 2]%float);
         ("Volume", IntCol [4611686018427387904; 4611686018427387904]) ].

Definition heavy_volume_world : World := snd (alloc heavy_volume_frame empty_world).

(** ** Alignment of indicator columns, and further sample data *)

(** A stored indicator column [out] is the library's series [vs] aligned
    to [n] rows: one value per row, row [i] holding the library's value
    for row [i], and NaN where the library gave none. *)
Definition aligned_to (n : nat) (vs out : list float) : Prop :=
  length out = n /\
  forall i, (i < n)%nat -> out !! i = Some (default nan (vs !! i)).

(** Externals whose indicator functions return numbers that show what
    they were called with: every value of the column they were given,
    plus a number made of the window arguments. *)
Definition col_floats (c : Column) : list float :=
  match c with
  | FloatCol vs => vs
  | _ => []
  end.

Definition shifted (c : Column) (k : Z) : list float :=
  map (fun x => (x + float_of_Z k)%float) (col_floats c).

Definition tracing_ext : Externals :=
  mkExternals (sample_provider "DELISTED" "BROKEN")
              running_clock
              (fun _ => 63839802900000000)
              (fun c w => shifted c (Z.of_nat w))
              (fun c w => shifted c (2 * Z.of_nat w))
              (fun c w => shifted c (3 * Z.of_nat w))
              (fun c slow fast => shifted c (100 * Z.of_nat slow + Z.of_nat fast))
              (fun c slow fast sign =>
                 shifted c (10000 * Z.of_nat slow + 100 * Z.of_nat fast + Z.of_nat sign))
              (fun vs => fold_left PrimFloat.add vs 0%float).

(** The rows of the heavy-volume frame. *)
Definition heavy_bars : list Bar :=
  [ mkBar 1704205800000000000 1 2 1 1 4611686018427387904;
    mkBar 1704205860000000000 2 3 2 2 4611686018427387904 ].

(** * Properties *)

(** ** The monad *)

Lemma bind_ok {A B} (m : M A) (k : A -> M B) w a w' :
  m w = (Ok a, w') -> bind m k w = k a w'.
Proof. intros H. unfold bind. rewrite H. reflexivity. Qed.

Lemma load_ok r df w : heap w !! r = Some df -> load r w = (Ok df, w).
Proof. intros H. unfold load. rewrite H. reflexivity. Qed.

Lemma for_each_ext {A} (f g : A -> M unit) (xs : list A) :
  (forall x w, f x w = g x w) -> forall w, for_each xs f w = for_each xs g w.
Proof.
  intros Hfg. induction xs as [|x xs IH]; intros w; [reflexivity|].
  simpl. unfold bind. rewrite Hfg.
  destruct (g x w) as [[[]|e] w1]; [apply IH|reflexivity].
Qed.

(** ** The Fetcher *)

Section Fetcher.
Context (ext : Externals).

(** The Fetcher in one piece: the clock is read, the request is built
    from the period, and the provider's answer decides between the
    frame, the warning and the error message. *)
Lemma fetch_stock_data_run ticker period interval w :
  let t := datetime_now ext (clock_reads w) in
  let fail e w1 :=
    (Ok None,
     mkWorld (heap w1) (next_loc w1)
             (ui w1 ++ [StError ("Error fetching data for " +:+ ticker +:+ ": " +:+ exc_msg e)])
             (requests w1) (clock_reads w1)) in
  let call req :=
    let w1 := mkWorld (heap w) (next_loc w) (ui w) (requests w ++ [req]) (S (clock_reads w)) in
    match yf_download ext (length (requests w)) req with
    | RespRaise e => fail e w1
    | RespFrame df =>
        let w2 := mkWorld (<[next_loc w := df]> (heap w)) (S (next_loc w)) (ui w)
                          (requests w ++ [req]) (S (clock_reads w)) in
        if df_empty df then
          (Ok None,
           mkWorld (heap w2) (next_loc w2)
                   (ui w ++ [StWarning ("No data found for " +:+ ticker
                      +:+ ". It may be delisted or there is no price data available.")])
                   (requests w2) (clock_reads w2))
        else (Ok (Some (next_loc w)), w2)
    end in
  fetch_stock_data ext ticker period interval w =
    if String.eqb period "1wk" then
      match datetime_sub t (timedelta_days 7) with
      | Ok start => call (ReqRange ticker start t interval)
      | Raise e => fail e (tick w)
      end
    else if String.eqb period "1d" then call (ReqPeriod ticker "1d" interval)
    else call (ReqPeriod ticker period interval).
Proof.
  intros t fail call.
  assert (Hcall : forall req,
    try_except
      (bind (download ext req) (fun data =>
         bind (is_empty data) (fun empty =>
           if empty then
             bind (emit (StWarning ("No data found for " +:+ ticker
                   +:+ ". It may be delisted or there is no price data available.")))
                  (fun _ => ret None)
           else ret (Some data))))
      (fun e => bind (emit (StError ("Error fetching data for " +:+ ticker
                              +:+ ": " +:+ exc_msg e))) (fun _ => ret None))
      (tick w) = call req).
  { intros req. subst call fail. cbv beta zeta.
    unfold try_except, bind, download, tick. simpl.
    destruct (yf_download ext (length (requests w)) req) as [df|e]; simpl.
    - unfold is_empty, bind, load, alloc. simpl.
      rewrite lookup_insert_eq. simpl.
      destruct (df_empty df); reflexivity.
    - reflexivity. }
  unfold fetch_stock_data.
  destruct (String.eqb period "1wk") eqn:Hwk.
  - unfold try_except at 1. unfold bind at 1. unfold now at 1.
    fold t. unfold bind at 1. unfold lift at 1.
    destruct (datetime_sub t (timedelta_days 7)) as [start|e] eqn:Hsub.
    + rewrite <- Hcall. reflexivity.
    + reflexivity.
  - destruct (String.eqb period "1d") eqn:Hd; rewrite <- Hcall; reflexivity.
Qed.

End Fetcher.

Section FetcherClaims.
Context (ext : Externals).

(** C3: the provider request is built from the period: for "1wk" an
    explicit range that ends at the clock reading and starts exactly
    seven days before it, 7 x 24 x 3600 x 10^6 = 604800000000
    microseconds (not the provider's "1wk" period), for "1d" the
    provider's one-day period, for every other token the token itself;
    the interval is passed along in all three cases, and exactly one
    request is made. *)
Theorem fetch_request_by_period ticker period interval w :
  let t := datetime_now ext (clock_reads w) in
  let asked := requests (snd (fetch_stock_data ext ticker period interval w)) in
  (period = "1wk" -> 604800000000 <= t <= 315537897599999999 ->
     asked = requests w ++ [ReqRange ticker (t - 604800000000) t interval] /\
     t - 604800000000 = t - 7 * (24 * 3600 * 1000000)) /\
  (period = "1d" -> asked = requests w ++ [ReqPeriod ticker "1d" interval]) /\
  (period <> "1wk" -> asked = requests w ++ [ReqPeriod ticker period interval]).
Proof.
  intros t asked. subst asked. rewrite fetch_stock_data_run. fold t.
  cbv zeta. split; [|split].
  - intros -> Ht. split; [|reflexivity]. simpl String.eqb. cbv iota.
    unfold datetime_sub.
    assert (Hweek : timedelta_days 7 = 604800000000) by reflexivity.
    assert (Hmax : datetime_max = 315537897599999999) by reflexivity.
    rewrite Hweek, Hmax.
    assert (Hin : (0 <=? t - 604800000000) && (t - 604800000000 <=? 315537897599999999)
                  = true).
    { apply andb_true_iff. split; apply Z.leb_le; lia. }
    rewrite Hin.
    destruct (yf_download ext _ _) as [df|e]; [destruct (df_empty df)|]; reflexivity.
  - intros ->. simpl String.eqb. cbv iota.
    destruct (yf_download ext _ _) as [df|e]; [destruct (df_empty df)|]; reflexivity.
  - intros Hne. apply String.eqb_neq in Hne. rewrite Hne.
    destruct (String.eqb period "1d") eqn:Hd.
    + apply String.eqb_eq in Hd. subst period.
      destruct (yf_download ext _ _) as [df|e]; [destruct (df_empty df)|]; reflexivity.
    + destruct (yf_download ext _ _) as [df|e]; [destruct (df_empty df)|]; reflexivity.
Qed.

(** The four ways a call of the Fetcher can go: the date arithmetic
    raises before any request; the provider raises; the provider answers
    with an empty frame; the provider answers with bars. *)
Lemma fetch_cases ticker period interval w :
  let warning := StWarning ("No data found for " +:+ ticker
                   +:+ ". It may be delisted or there is no price data available.") in
  let error e := StError ("Error fetching data for " +:+ ticker +:+ ": " +:+ exc_msg e) in
  let l := next_loc w in
  let c := S (clock_reads w) in
  (exists e,
      fetch_stock_data ext ticker period interval w =
      (Ok None, mkWorld (heap w) l (ui w ++ [error e]) (requests w) c)) \/
  (exists req e,
      yf_download ext (length (requests w)) req = RespRaise e /\
      fetch_stock_data ext ticker period interval w =
      (Ok None, mkWorld (heap w) l (ui w ++ [error e]) (requests w ++ [req]) c)) \/
  (exists req df,
      yf_download ext (length (requests w)) req = RespFrame df /\
      df_empty df = true /\
      fetch_stock_data ext ticker period interval w =
      (Ok None, mkWorld (<[l := df]> (heap w)) (S l) (ui w ++ [warning])
                        (requests w ++ [req]) c)) \/
  (exists req df,
      yf_download ext (length (requests w)) req = RespFrame df /\
      df_empty df = false /\
      fetch_stock_data ext ticker period interval w =
      (Ok (Some l), mkWorld (<[l := df]> (heap w)) (S l) (ui w)
                            (requests w ++ [req]) c)).
Proof.
  intros warning error l c.
  rewrite fetch_stock_data_run. cbv zeta.
  set (t := datetime_now ext (clock_reads w)).
  assert (Hcall : forall req,
    let out :=
      match yf_download ext (length (requests w)) req with
      | RespFrame df =>
          if df_empty df
          then (Ok None,
                mkWorld (<[l:=df]> (heap w)) (S l) (ui w ++ [warning])
                  (requests w ++ [req]) c)
          else (Ok (Some l),
                mkWorld (<[l:=df]> (heap w)) (S l) (ui w) (requests w ++ [req]) c)
      | RespRaise e =>
          (Ok None, mkWorld (heap w) l (ui w ++ [error e]) (requests w ++ [req]) c)
      end in
    (exists e, out = (Ok None, mkWorld (heap w) l (ui w ++ [error e]) (requests w) c)) \/
    (exists req' e,
        yf_download ext (length (requests w)) req' = RespRaise e /\
        out = (Ok None, mkWorld (heap w) l (ui w ++ [error e]) (requests w ++ [req']) c)) \/
    (exists req' df,
        yf_download ext (length (requests w)) req' = RespFrame df /\
        df_empty df = true /\
        out = (Ok None, mkWorld (<[l := df]> (heap w)) (S l) (ui w ++ [warning])
                          (requests w ++ [req']) c)) \/
    (exists req' df,
        yf_download ext (length (requests w)) req' = RespFrame df /\
        df_empty df = false /\
        out = (Ok (Some l), mkWorld (<[l := df]> (heap w)) (S l) (ui w)
                              (requests w ++ [req']) c))).
  { intros req out. subst out.
    destruct (yf_download ext (length (requests w)) req) as [df|e] eqn:Hresp;
      [destruct (df_empty df) eqn:Hempty|].
    - right; right; left. exists req, df. auto.
    - right; right; right. exists req, df. auto.
    - right; left. exists req, e. auto. }
  destruct (String.eqb period "1wk"); [|destruct (String.eqb period "1d")];
    try apply Hcall.
  destruct (datetime_sub t (timedelta_days 7)) as [start|e]; [apply Hcall|].
  left. exists e. reflexivity.
Qed.

(** The Fetcher returns normally, whatever the provider and the clock do. *)
Lemma fetch_returns ticker period interval w :
  exists r w', fetch_stock_data ext ticker period interval w = (Ok r, w').
Proof.
  destruct (fetch_cases ticker period interval w)
    as [(e & H)|[(req & e & _ & H)|[(req & df & _ & _ & H)|(req & df & _ & _ & H)]]];
    rewrite H; eauto.
Qed.

Lemma snoc_neq {A} (l : list A) (x : A) : l ++ [x] <> l.
Proof.
  intros H. apply (f_equal length) in H. rewrite length_app in H. simpl in H. lia.
Qed.

(** A fetch that comes back with None ends the main content area at
    once: nothing but the Fetcher's own message is shown. *)
Lemma main_content_no_data sel w w' :
  fetch_stock_data ext (ticker sel) (time_period sel) (interval sel) w = (Ok None, w') ->
  main_content ext sel w = (Ok None, w').
Proof.
  intros H. unfold main_content. unfold bind at 1. rewrite H. reflexivity.
Qed.

(** A failed fetch of the comparison ticker only leaves the comparison
    chart out, whatever became of the primary ticker. *)
Lemma comparison_chart_no_data sel data w w' :
  fetch_stock_data ext (compare_ticker sel) (time_period sel) (interval sel) w = (Ok None, w') ->
  comparison_chart ext sel data w = (Ok tt, w').
Proof.
  intros H. unfold comparison_chart. unfold bind at 1. rewrite H. reflexivity.
Qed.

(** A failed fetch of a watchlist symbol only leaves its readout out. *)
Lemma real_time_entry_no_data symbol w w' :
  fetch_stock_data ext symbol "1d" "1m" w = (Ok None, w') ->
  real_time_entry ext symbol w = (Ok tt, w').
Proof.
  intros H. unfold real_time_entry. unfold bind at 1. rewrite H. reflexivity.
Qed.

(** Where a missing primary ticker is not confined to its own section:
    the main content area hands on None, and a comparison chart that has
    data for its own ticker subscripts it. *)
Lemma main_then_comparison_without_primary sel w w1 r w2 w3 :
  fetch_stock_data ext (ticker sel) (time_period sel) (interval sel) w = (Ok None, w1) ->
  fetch_stock_data ext (compare_ticker sel) (time_period sel) (interval sel) w1
  = (Ok (Some r), w2) ->
  process_data r w2 = (Ok r, w3) ->
  bind (main_content ext sel) (comparison_chart ext sel) w
  = (Raise (TypeError "'NoneType' object is not subscriptable"), w3).
Proof.
  intros Hfetch Hcompare Hproc.
  unfold bind at 1. rewrite (main_content_no_data _ _ _ Hfetch).
  unfold comparison_chart.
  unfold bind at 1. rewrite Hcompare.
  unfold bind at 1. rewrite Hproc. reflexivity.
Qed.

(** C7 (where the code departs from it): the Fetcher never raises.
    Whatever the ticker, period, interval and state, it returns normally;
    when the provider answers the request with an empty frame it shows
    the "No data found" warning and returns None; when the provider
    raises it shows the exception's message and returns None; when the
    date arithmetic before the request raises, the same happens.  In
    every one of these cases the returned value is the same None, and
    each of the three call sites (main content, comparison chart,
    watchlist entry) answers None by doing nothing more for that ticker.
    But the skipping is not confined to that ticker: when it is the
    primary ticker that came back with None and the comparison ticker
    has data, the comparison chart, which follows the main content area,
    subscripts the missing primary data and raises TypeError, so the
    processing of the other ticker and of the rest of the page is lost
    as well. *)
Theorem fetch_never_raises (tkr period itv : string) (w : World) :
  exists r w',
    fetch_stock_data ext tkr period itv w = (Ok r, w') /\
    (forall req df,
        requests w' = requests w ++ [req] ->
        yf_download ext (length (requests w)) req = RespFrame df ->
        df_empty df = true ->
        r = None /\
        ui w' = ui w ++ [StWarning ("No data found for " +:+ tkr
                  +:+ ". It may be delisted or there is no price data available.")]) /\
    (forall req e,
        requests w' = requests w ++ [req] ->
        yf_download ext (length (requests w)) req = RespRaise e ->
        r = None /\
        ui w' = ui w ++ [StError ("Error fetching data for " +:+ tkr
                  +:+ ": " +:+ exc_msg e)]) /\
    (requests w' = requests w ->
        r = None /\
        exists e, ui w' = ui w ++ [StError ("Error fetching data for " +:+ tkr
                  +:+ ": " +:+ exc_msg e)]) /\
    (r = None ->
        (forall sel,
            ticker sel = tkr -> time_period sel = period -> interval sel = itv ->
            main_content ext sel w = (Ok None, w')) /\
        (forall sel data,
            compare_ticker sel = tkr -> time_period sel = period ->
            interval sel = itv ->
            comparison_chart ext sel data w = (Ok tt, w')) /\
        (period = "1d" -> itv = "1m" -> real_time_entry ext tkr w = (Ok tt, w')) /\
        (forall sel r2 w2 w3,
            ticker sel = tkr -> time_period sel = period -> interval sel = itv ->
            fetch_stock_data ext (compare_ticker sel) period itv w' = (Ok (Some r2), w2) ->
            process_data r2 w2 = (Ok r2, w3) ->
            bind (main_content ext sel) (comparison_chart ext sel) w
            = (Raise (TypeError "'NoneType' object is not subscriptable"), w3))).
Proof.
  destruct (fetch_returns tkr period itv w) as (r & w' & Hrun).
  exists r, w'. split; [exact Hrun|].
  destruct (fetch_cases tkr period itv w)
    as [(e & H)|[(req & e & Hresp & H)|[(req & df & Hresp & Hempty & H)
                                       |(req & df & Hresp & Hempty & H)]]];
    rewrite Hrun in H; inversion H; subst r w'; clear H; cbn [ui requests].
  - split; [|split; [|split]].
    + intros req df Hreq. symmetry in Hreq. apply snoc_neq in Hreq. contradiction.
    + intros req e' Hreq. symmetry in Hreq. apply snoc_neq in Hreq. contradiction.
    + intros _. split; [reflexivity|]. exists e. reflexivity.
    + intros _. split; [|split; [|split]].
      * intros sel <- <- <-. apply main_content_no_data. exact Hrun.
      * intros sel data <- <- <-. apply comparison_chart_no_data. exact Hrun.
      * intros -> ->. apply real_time_entry_no_data. exact Hrun.
      * intros sel r2 w2 w3 <- <- <- Hcompare Hproc.
        exact (main_then_comparison_without_primary sel _ _ _ _ _ Hrun Hcompare Hproc).
  - split; [|split; [|split]].
    + intros req' df Hreq Hresp'. apply app_inj_tail in Hreq as [_ <-]. congruence.
    + intros req' e' Hreq Hresp'. apply app_inj_tail in Hreq as [_ <-].
      rewrite Hresp in Hresp'. inversion Hresp'; subst. split; reflexivity.
    + intros Hreq. apply snoc_neq in Hreq. contradiction.
    + intros _. split; [|split; [|split]].
      * intros sel <- <- <-. apply main_content_no_data. exact Hrun.
      * intros sel data <- <- <-. apply comparison_chart_no_data. exact Hrun.
      * intros -> ->. apply real_time_entry_no_data. exact Hrun.
      * intros sel r2 w2 w3 <- <- <- Hcompare Hproc.
        exact (main_then_comparison_without_primary sel _ _ _ _ _ Hrun Hcompare Hproc).
  - split; [|split; [|split]].
    + intros req' df' Hreq Hresp' _. split; reflexivity.
    + intros req' e' Hreq Hresp'. apply app_inj_tail in Hreq as [_ <-]. congruence.
    + intros Hreq. apply snoc_neq in Hreq. contradiction.
    + intros _. split; [|split; [|split]].
      * intros sel <- <- <-. apply main_content_no_data. exact Hrun.
      * intros sel data <- <- <-. apply comparison_chart_no_data. exact Hrun.
      * intros -> ->. apply real_time_entry_no_data. exact Hrun.
      * intros sel r2 w2 w3 <- <- <- Hcompare Hproc.
        exact (main_then_comparison_without_primary sel _ _ _ _ _ Hrun Hcompare Hproc).
  - split; [|split; [|split]].
    + intros req' df' Hreq Hresp' Hempty'. apply app_inj_tail in Hreq as [_ <-].
      rewrite Hresp in Hresp'. inversion Hresp'; subst. congruence.
    + intros req' e' Hreq Hresp'. apply app_inj_tail in Hreq as [_ <-]. congruence.
    + intros Hreq. apply snoc_neq in Hreq. contradiction.
    + discriminate.
Qed.

(** A frame the Fetcher hands out is in the store, has at least one row
    and is not [empty]. *)
Lemma fetch_some_not_empty ticker period interval w r w' :
  fetch_stock_data ext ticker period interval w = (Ok (Some r), w') ->
  exists df, heap w' !! r = Some df /\ df_empty df = false /\ (0 < nrows df)%nat.
Proof.
  destruct (fetch_cases ticker period interval w)
    as [(e & H)|[(req & e & Hresp & H)|[(req & df & Hresp & Hempty & H)
                                       |(req & df & Hresp & Hempty & H)]]];
    rewrite H; intros Heq; inversion Heq; subst; clear Heq.
  exists df. simpl. rewrite lookup_insert_eq. repeat split; [assumption|].
  unfold df_empty in Hempty. apply orb_false_iff in Hempty as [Hrows _].
  apply Nat.eqb_neq in Hrows. lia.
Qed.

(** With or without the emptiness check the watchlist entry does the same. *)
Lemma real_time_entry_check_redundant symbol w :
  real_time_entry ext symbol w = real_time_entry_unchecked ext symbol w.
Proof.
  unfold real_time_entry, real_time_entry_unchecked.
  destruct (fetch_returns symbol "1d" "1m" w) as (r & w' & Hfetch).
  rewrite !(bind_ok _ _ _ _ _ Hfetch).
  destruct r as [r|]; [|reflexivity].
  destruct (fetch_some_not_empty _ _ _ _ _ _ Hfetch) as (df & Hdf & Hempty & _).
  unfold is_empty. unfold bind at 1. unfold bind at 1.
  rewrite (load_ok _ _ _ Hdf). unfold ret. rewrite Hempty. reflexivity.
Qed.

(** C10: the Fetcher returns None or a reference to a frame with at least
    one row, never an empty frame; hence the emptiness check of the
    watchlist loop never decides anything: every entry, and the whole
    side panel, behave as they would with the None check alone. *)
Theorem fetch_result_never_empty :
  (forall ticker period interval w r w',
      fetch_stock_data ext ticker period interval w = (Ok r, w') ->
      match r with
      | None => True
      | Some data =>
          exists df, heap w' !! data = Some df /\ df_empty df = false /\ (0 < nrows df)%nat
      end) /\
  (forall symbol w,
      real_time_entry ext symbol w = real_time_entry_unchecked ext symbol w) /\
  (forall w,
      real_time_prices ext w =
      bind (emit (StHeader Sidebar "Real-Time Stock Prices"))
           (fun _ => for_each (keys stock_names) (real_time_entry_unchecked ext)) w).
Proof.
  split; [|split].
  - intros ticker period interval w [data|] w' H; [|exact I].
    eapply fetch_some_not_empty; eassumption.
  - apply real_time_entry_check_redundant.
  - intros w. unfold real_time_prices, bind.
    destruct (emit (StHeader Sidebar "Real-Time Stock Prices") w) as [[[]|e] w0];
      [|reflexivity].
    apply for_each_ext. apply real_time_entry_check_redundant.
Qed.

End FetcherClaims.

(** ** The countdown *)

Lemma digits2_pos_bound (m : positive) : Z.pos m < 2 ^ Z.pos (digits2_pos m).
Proof.
  induction m as [m IH|m IH|]; simpl digits2_pos.
  - rewrite Pos2Z.inj_succ, Z.pow_succ_r by lia. lia.
  - rewrite Pos2Z.inj_succ, Z.pow_succ_r by lia. lia.
  - vm_compute. reflexivity.
Qed.
(** A float below one in absolute value truncates to the integer 0. *)
Lemma py_int_small (d : float) :
  (abs d <? 1)%float = true -> py_int d = Ok 0.
Proof.
  rewrite ltb_spec, abs_spec. unfold py_int.
  pose proof (Prim2SF_valid d) as Hvalid.
  change (Prim2SF 1) with (S754_finite false 4503599627370496 (-52)).
  destruct (Prim2SF d) as [s|s| |s m e]; cbn [SFabs]; try discriminate; try reflexivity.
  unfold SFltb, SFcompare. intros Hlt.
  unfold valid_binary, bounded, canonical_mantissa, fexp, SpecFloat.emin, prec, emax in Hvalid.
  apply andb_true_iff in Hvalid as [Hcanon _].
  apply Z.eqb_eq in Hcanon.
  assert (Hdigits : Z.pos (digits2_pos m) <= 53) by (clear -Hcanon; lia).
  assert (Hm53 : Z.pos m < 2 ^ 53).
  { eapply Z.lt_le_trans; [apply digits2_pos_bound|].
    apply Z.pow_le_mono_r; [reflexivity|exact Hdigits]. }
  assert (He : e <= -53 \/ (e = -52 /\ Z.pos m < 2 ^ 52)).
  { destruct (Z.compare_spec e (-52)) as [Heq|Hlt'|Hgt]; try discriminate.
    - right. split; [assumption|].
      rewrite Pos.compare_cont_spec in Hlt. cbn [Pos.switch_Eq] in Hlt.
      destruct (Pos.compare_spec m 4503599627370496) as [H1|H1|H1]; try discriminate.
      change (2 ^ 52) with (Z.pos 4503599627370496). apply Pos2Z.pos_lt_pos. exact H1.
    - left. clear -Hlt'. lia. }
  assert (Hneg : (0 <=? e) = false).
  { apply Z.leb_gt. clear -He. lia. }
  rewrite Hneg.
  assert (Hzero : Z.shiftr (Z.pos m) (- e) = 0).
  { rewrite Z.shiftr_div_pow2 by (clear -He; lia). apply Z.div_small.
    split; [apply Pos2Z.is_nonneg|].
    destruct He as [He|[-> Hm52]]; [|exact Hm52].
    eapply Z.lt_le_trans; [exact Hm53|].
    apply Z.pow_le_mono_r; [reflexivity|clear -He; lia]. }
  rewrite Hzero. destruct s; reflexivity.
Qed.

(** C9 (as the code has it): whenever the two adjacent clock readings of a
    render pass differ by less than one second, the elapsed time computed
    from them is 0, so the countdown is the full refresh interval: the
    sidebar shows "Auto-refresh in 20 seconds", never zero.  Nothing else
    is put on the page by these lines. *)
Theorem countdown_is_refresh_interval (ext : Externals) (w : World) :
  let t1 := time_time ext (clock_reads w) in
  let t2 := time_time ext (S (clock_reads w)) in
  (abs (t2 - t1) <? 1)%float = true ->
  exists w',
    auto_refresh ext w = (Ok refresh_interval, w') /\
    ui w' = ui w ++ [StAutorefresh 20000 "datarefresh";
                     StWrite Sidebar "Auto-refresh in 20 seconds"].
Proof.
  intros t1 t2 Hclose.
  unfold auto_refresh, bind, emit, clock, lift, ret, tick.
  cbn [heap next_loc ui requests clock_reads].
  fold t1 t2. rewrite (py_int_small _ Hclose).
  eexists. split; [reflexivity|].
  cbn [ui]. rewrite <- app_assoc.
  replace (pretty (refresh_interval - 0)) with "20" by (vm_compute; reflexivity).
  reflexivity.
Qed.

(** ** The Normalizer *)

Section Normalizer.

Lemma set_heap_twice w h h' : set_heap (set_heap w h) h' = set_heap w h'.
Proof. reflexivity. Qed.

Lemma set_heap_id w : set_heap w (heap w) = w.
Proof. destruct w; reflexivity. Qed.

Lemma df_set_index_ok df i :
  index_len i = nrows df -> df_set_index df i = Ok (mkDF i (df_columns df)).
Proof.
  intros Hlen. unfold df_set_index. rewrite Hlen, Nat.eqb_refl. reflexivity.
Qed.

Lemma update_index_ok w data f df i :
  heap w !! data = Some df ->
  f (df_index df) = Ok i ->
  index_len i = nrows df ->
  update_index data f w = (Ok tt, set_heap w (<[data := mkDF i (df_columns df)]> (heap w))).
Proof.
  intros Hdf Hf Hlen. unfold update_index.
  rewrite (bind_ok _ _ _ _ _ (load_ok _ _ _ Hdf)).
  unfold bind at 1. unfold lift at 1. rewrite Hf.
  unfold bind at 1. unfold lift at 1. rewrite (df_set_index_ok _ _ Hlen).
  reflexivity.
Qed.

Lemma reset_index_inplace_run w data df :
  heap w !! data = Some df ->
  reset_index_inplace data w =
    match df_reset_index df with
    | Ok df' => (Ok tt, set_heap w (<[data := df']> (heap w)))
    | Raise e => (Raise e, w)
    end.
Proof.
  intros Hdf. unfold reset_index_inplace.
  rewrite (bind_ok _ _ _ _ _ (load_ok _ _ _ Hdf)).
  unfold bind, lift. destruct (df_reset_index df); reflexivity.
Qed.

Lemma rename_inplace_run w data old new df :
  heap w !! data = Some df ->
  rename_inplace data old new w =
    (Ok tt, set_heap w (<[data := df_rename old new df]> (heap w))).
Proof.
  intros Hdf. unfold rename_inplace.
  rewrite (bind_ok _ _ _ _ _ (load_ok _ _ _ Hdf)). reflexivity.
Qed.

(** What [process_data] does to a frame indexed by timestamps: the zone
    is attached or converted, then the index is moved into a column,
    unless a column of that name is in the way. *)
Lemma process_data_run w data name tz vs cols :
  heap w !! data = Some (mkDF (DatetimeIndex name tz vs) cols) ->
  let label := index_label name cols in
  process_data data w =
    if has_col label cols then
      (Raise (ValueError ("cannot insert " +:+ label +:+ ", already exists")),
       set_heap w (<[data := mkDF (DatetimeIndex name (Some "US/Eastern") vs) cols]> (heap w)))
    else
      (Ok data,
       set_heap w (<[data := df_rename "Date" "Datetime"
                      (mkDF (RangeIndex (length vs))
                            ((label, DatetimeCol (Some "US/Eastern") vs) :: cols))]> (heap w))).
Proof.
  intros Hdf label.
  assert (Hconv : forall w0 tz',
    heap w0 !! data = Some (mkDF (DatetimeIndex name (Some tz') vs) cols) ->
    bind (update_index data (tz_convert "US/Eastern"))
      (fun _ => bind (reset_index_inplace data)
         (fun _ => bind (rename_inplace data "Date" "Datetime") (fun _ => ret data))) w0 =
    if has_col label cols then
      (Raise (ValueError ("cannot insert " +:+ label +:+ ", already exists")),
       set_heap w0 (<[data := mkDF (DatetimeIndex name (Some "US/Eastern") vs) cols]> (heap w0)))
    else
      (Ok data,
       set_heap w0 (<[data := df_rename "Date" "Datetime"
                       (mkDF (RangeIndex (length vs))
                             ((label, DatetimeCol (Some "US/Eastern") vs) :: cols))]> (heap w0)))).
  { intros w0 tz' Hh.
    erewrite bind_ok
      by (eapply update_index_ok; [exact Hh|reflexivity|reflexivity]).
    cbn [df_columns].
    set (w1 := set_heap w0 _).
    assert (H1 : heap w1 !! data = Some (mkDF (DatetimeIndex name (Some "US/Eastern") vs) cols))
      by apply lookup_insert_eq.
    unfold bind at 1. rewrite (reset_index_inplace_run _ _ _ H1).
    unfold df_reset_index. cbn [df_index df_columns nrows index_len].
    change (default (if has_col "index" cols then "level_0" else "index") name) with label.
    destruct (has_col label cols); [reflexivity|].
    set (w2 := set_heap w1 _).
    erewrite bind_ok by (eapply rename_inplace_run; apply lookup_insert_eq).
    unfold ret, w2, w1. rewrite !set_heap_twice. cbn [heap set_heap].
    rewrite !insert_insert_eq. reflexivity. }
  unfold process_data, tzinfo.
  unfold bind at 1. unfold bind at 1. rewrite (load_ok _ _ _ Hdf).
  cbn [df_index index_tzinfo lift].
  destruct tz as [tz|].
  - unfold ret at 1. unfold bind at 1. apply (Hconv w tz Hdf).
  - erewrite bind_ok
      by (eapply update_index_ok; [exact Hdf|reflexivity|reflexivity]).
    cbn [df_columns]. rewrite (Hconv _ "UTC") by apply lookup_insert_eq.
    rewrite !set_heap_twice. cbn [heap set_heap].
    rewrite !insert_insert_eq. reflexivity.
Qed.

(** On a frame that is no longer indexed by timestamps the first
    statement raises, before anything is changed. *)
Lemma process_data_range_index w data n cols :
  heap w !! data = Some (mkDF (RangeIndex n) cols) ->
  process_data data w =
    (Raise (AttributeError "'RangeIndex' object has no attribute 'tzinfo'"), w).
Proof.
  intros Hdf. unfold process_data, tzinfo.
  unfold bind at 1. unfold bind at 1. rewrite (load_ok _ _ _ Hdf). reflexivity.
Qed.

Lemma process_data_dangling w data :
  heap w !! data = None ->
  process_data data w = (Raise (mkExc "SystemError" "dangling reference"), w).
Proof.
  intros Hdf. unfold process_data, tzinfo, bind, load. rewrite Hdf. reflexivity.
Qed.

(** A successful call returns the reference it was given and leaves a
    frame with a RangeIndex there whose first column holds the
    timestamps in US/Eastern. *)
Lemma process_data_ok_inv w data r w' :
  process_data data w = (Ok r, w') ->
  r = data /\
  exists name tz vs cols label,
    heap w !! data = Some (mkDF (DatetimeIndex name tz vs) cols) /\
    w' = set_heap w (<[data := df_rename "Date" "Datetime"
                        (mkDF (RangeIndex (length vs))
                              ((label, DatetimeCol (Some "US/Eastern") vs) :: cols))]> (heap w)).
Proof.
  intros Hrun.
  destruct (heap w !! data) as [[[name tz vs|n] cols]|] eqn:Hdf.
  - rewrite (process_data_run _ _ _ _ _ _ Hdf) in Hrun. cbv zeta in Hrun.
    destruct (has_col _ cols); inversion Hrun; subst.
    split; [reflexivity|]. eauto 10.
  - rewrite (process_data_range_index _ _ _ _ Hdf) in Hrun. discriminate.
  - rewrite (process_data_dangling _ _ Hdf) in Hrun. discriminate.
Qed.

(** C4 (as the code has it): a second application of the Normalizer to
    a series it has normalized does not return a series: its first
    statement raises AttributeError, because the timestamps are no longer
    the index, and the series stays exactly as the first application left
    it.  Only the zone conversion is idempotent: converting timestamps
    that are already in US/Eastern changes nothing. *)
Theorem process_data_twice_raises w data r w1 :
  process_data data w = (Ok r, w1) ->
  process_data r w1 =
    (Raise (AttributeError "'RangeIndex' object has no attribute 'tzinfo'"), w1) /\
  (forall name vs,
      tz_convert "US/Eastern" (DatetimeIndex name (Some "US/Eastern") vs)
      = Ok (DatetimeIndex name (Some "US/Eastern") vs)).
Proof.
  intros Hrun. split; [|reflexivity].
  apply process_data_ok_inv in Hrun as (-> & name & tz & vs & cols & label & _ & ->).
  eapply process_data_range_index.
  unfold set_heap, df_rename. cbn [heap df_index]. apply lookup_insert_eq.
Qed.

Lemma rename_absent old new cols :
  has_col old cols = false ->
  map (fun '(n, c) => (if String.eqb n old then new else n, c)) cols = cols.
Proof.
  unfold has_col. induction cols as [|[n c] cols IH]; [reflexivity|].
  cbn [lookup_col map]. destruct (String.eqb n old); [discriminate|].
  intros H. rewrite (IH H). reflexivity.
Qed.

(** What the Normalizer makes of a provider series. *)
Lemma provider_series_columns df bars :
  provider_series df bars ->
  bars <> [] /\
  price_columns (df_columns df) bars /\
  Forall (fun n => has_col n (df_columns df) = false)
         ("Date" :: "Datetime" :: indicator_names).
Proof. intros (name & tz & cols & -> & _ & Hne & Hprices & Hfresh). auto. Qed.

Lemma process_data_provider w data df bars :
  heap w !! data = Some df ->
  provider_series df bars ->
  process_data data w =
    (Ok data,
     set_heap w (<[data := mkDF (RangeIndex (length bars))
                     (("Datetime", DatetimeCol (Some "US/Eastern") (map bar_time bars))
                        :: df_columns df)]> (heap w))).
Proof.
  intros Hdf (name & tz & cols & -> & Hname & Hne & Hprices & Hfresh).
  rewrite (process_data_run _ _ _ _ _ _ Hdf). cbv zeta.
  pose proof Hfresh as Hfresh'.
  apply Forall_cons_1 in Hfresh' as [Hdate Hfresh'].
  apply Forall_cons_1 in Hfresh' as [Hdatetime _].
  cbv beta in Hdate, Hdatetime.
  unfold index_label. cbn [default from_option id].
  destruct Hname as [-> | ->].
  - rewrite Hdate. unfold df_rename. cbn [df_index df_columns map].
    rewrite (rename_absent _ _ _ Hdate), length_map. reflexivity.
  - rewrite Hdatetime. unfold df_rename. cbn [df_index df_columns map].
    rewrite (rename_absent _ _ _ Hdate), length_map. reflexivity.
Qed.

(** C5: on a non-empty price series as the provider delivers it
    (timestamps as the index, rows in chronological order) the Normalizer
    returns the same object with as many rows; its leading column, called
    "Datetime", holds the timestamps of the rows, the same instants in
    the same order, so in ascending chronological order, and every one of
    them carries the display zone US/Eastern.  Timestamps without a zone
    are taken as UTC: the series is normalized to the very state that the
    same series with UTC attached to its index is normalized to. *)
Theorem process_data_keeps_order_sets_zone w data df bars :
  heap w !! data = Some df ->
  provider_series df bars ->
  chronological (map bar_time bars) ->
  exists w' df' out,
    process_data data w = (Ok data, w') /\
    heap w' !! data = Some df' /\
    nrows df' = nrows df /\
    nrows df' = length bars /\
    timestamp_column df' = Some (Some "US/Eastern", out) /\
    out = map bar_time bars /\
    chronological out /\
    df_getitem df' "Datetime" = Ok (DatetimeCol (Some "US/Eastern") out) /\
    (forall utc_index,
        index_tzinfo (df_index df) = Ok None ->
        tz_localize_UTC (df_index df) = Ok utc_index ->
        index_tzinfo utc_index = Ok (Some "UTC") /\
        process_data data (set_heap w (<[data := mkDF utc_index (df_columns df)]> (heap w)))
        = (Ok data, w')).
Proof.
  intros Hdf Hseries Hsorted.
  rewrite (process_data_provider _ _ _ _ Hdf Hseries).
  eexists. eexists. exists (map bar_time bars). split; [reflexivity|].
  cbn [heap set_heap]. rewrite lookup_insert_eq.
  split; [reflexivity|].
  destruct Hseries as (name & tz & cols & -> & Hname & Hne & Hprices & Hfresh).
  split; [cbn [nrows df_index index_len]; rewrite length_map; reflexivity|].
  split; [reflexivity|]. split; [reflexivity|]. split; [reflexivity|].
  split; [exact Hsorted|]. split; [reflexivity|].
  intros utc_index Hnaive Hutc. cbn [df_index index_tzinfo] in Hnaive.
  inversion Hnaive; subst tz. cbn [df_index tz_localize_UTC] in Hutc.
  inversion Hutc; subst utc_index. split; [reflexivity|].
  cbn [df_columns].
  assert (Hutc_series :
    provider_series (mkDF (DatetimeIndex (Some name) (Some "UTC") (map bar_time bars)) cols)
                    bars).
  { exists name, (Some "UTC"), cols. auto. }
  rewrite (process_data_provider _ data _ bars (lookup_insert_eq _ _ _) Hutc_series).
  rewrite set_heap_twice. cbn [heap set_heap df_columns].
  rewrite insert_insert_eq. reflexivity.
Qed.

(** C6 (as the code has it): the Normalizer is not pure.  It updates the
    series it is given in place and returns that same object, so after a
    successful call the caller's series differs from what it was; what it
    leaves alone is everything else: the other frames, the page, the
    provider and the clock. *)
Theorem process_data_mutates_only_its_argument w data res w' :
  process_data data w = (res, w') ->
  (forall l, l <> data -> heap w' !! l = heap w !! l) /\
  next_loc w' = next_loc w /\ ui w' = ui w /\
  requests w' = requests w /\ clock_reads w' = clock_reads w /\
  (forall r, res = Ok r -> r = data /\ heap w' !! data <> heap w !! data).
Proof.
  intros Hrun.
  destruct (heap w !! data) as [[[name tz vs|n] cols]|] eqn:Hdf.
  - rewrite (process_data_run _ _ _ _ _ _ Hdf) in Hrun. cbv zeta in Hrun.
    destruct (has_col _ cols); inversion Hrun; subst; clear Hrun;
      unfold set_heap; cbn [heap next_loc ui requests clock_reads];
      (split; [intros l Hl; apply lookup_insert_ne; congruence|]);
      repeat (split; [reflexivity|]).
    + intros r Hr. discriminate.
    + intros r Hr. inversion Hr; subst. split; [reflexivity|].
      rewrite lookup_insert_eq. unfold df_rename. cbn [df_index]. congruence.
  - rewrite (process_data_range_index _ _ _ _ Hdf) in Hrun.
    inversion Hrun; subst. repeat (split; [reflexivity|]). discriminate.
  - rewrite (process_data_dangling _ _ Hdf) in Hrun.
    inversion Hrun; subst. repeat (split; [reflexivity|]). discriminate.
Qed.

End Normalizer.

(** ** The Indicator Enricher *)

Lemma lookup_col_app name cols more :
  lookup_col name (cols ++ more) =
  match lookup_col name cols with
  | Some c => Some c
  | None => lookup_col name more
  end.
Proof.
  induction cols as [|[n c] cols IH]; [reflexivity|].
  simpl. destruct (String.eqb n name); [reflexivity|exact IH].
Qed.

Lemma has_col_app name cols more :
  has_col name (cols ++ more) = has_col name cols || has_col name more.
Proof.
  unfold has_col. rewrite lookup_col_app.
  destruct (lookup_col name cols); reflexivity.
Qed.

Lemma length_reindex n vs : length (reindex n vs) = n.
Proof.
  unfold reindex. rewrite length_app, length_take, length_replicate. lia.
Qed.

(** A series that already has one value per row is stored as it is. *)
Lemma reindex_aligned n vs : length vs = n -> reindex n vs = vs.
Proof.
  intros <-. unfold reindex. rewrite firstn_all, Nat.sub_diag. apply app_nil_r.
Qed.

Lemma has_col_lookup name cols :
  has_col name cols = false <-> lookup_col name cols = None.
Proof. unfold has_col. destruct (lookup_col name cols); split; congruence. Qed.

(** What [reindex] stores: one value per row, the series' own value
    where it has one, NaN elsewhere. *)
Lemma reindex_aligned_to n vs : aligned_to n vs (reindex n vs).
Proof.
  split; [apply length_reindex|].
  intros i Hi. unfold reindex. destruct (vs !! i) as [x|] eqn:Hv; cbn [default].
  - pose proof (lookup_lt_Some _ _ _ Hv) as Hlt.
    rewrite lookup_app_l by (rewrite length_take; lia).
    rewrite lookup_take_lt by exact Hi. exact Hv.
  - apply lookup_ge_None in Hv.
    rewrite lookup_app_r by (rewrite length_take; lia).
    apply lookup_replicate_2. rewrite length_take. lia.
Qed.

(** The five assignments of the Enricher store the library's series, row
    by row. *)
Lemma indicator_columns_aligned ext n close cols name vs :
  Forall (fun label => lookup_col label cols = None)
         ["SMA_20"; "EMA_20"; "RSI"; "MACD"; "MACD_Signal"] ->
  In (name, vs) (indicator_series ext close) ->
  exists out,
    lookup_col name
      (cols ++ [ ("SMA_20", FloatCol (reindex n (sma_indicator ext close 20)));
                 ("EMA_20", FloatCol (reindex n (ema_indicator ext close 20)));
                 ("RSI", FloatCol (reindex n (rsi ext close 14)));
                 ("MACD", FloatCol (reindex n (macd ext close 26 12)));
                 ("MACD_Signal", FloatCol (reindex n (macd_signal ext close 26 12 9))) ])
    = Some (FloatCol out) /\
    aligned_to n vs out /\
    (length vs = n -> out = vs).
Proof.
  intros Hfresh Hin.
  repeat (apply Forall_cons_1 in Hfresh as [?H Hfresh]).
  exists (reindex n vs).
  split; [|split; [apply reindex_aligned_to|apply reindex_aligned]].
  rewrite lookup_col_app.
  unfold indicator_series in Hin. cbn [In] in Hin.
  repeat (destruct Hin as [Hin|Hin];
          [inversion Hin; subst name vs;
           match goal with H : lookup_col ?n cols = None |- context [lookup_col ?n cols] =>
             rewrite H end; reflexivity|]).
  destruct Hin.
Qed.

Lemma df_setitem_fresh df name vs :
  has_col name (df_columns df) = false ->
  df_setitem df name vs =
  mkDF (df_index df) (df_columns df ++ [(name, FloatCol (reindex (nrows df) vs))]).
Proof. intros H. unfold df_setitem. rewrite H. reflexivity. Qed.

Lemma getitem_ok w data df name c :
  heap w !! data = Some df ->
  lookup_col name (df_columns df) = Some c ->
  getitem data name w = (Ok c, w).
Proof.
  intros Hdf Hc. unfold getitem, subscript.
  rewrite (bind_ok _ _ _ _ _ (load_ok _ _ _ Hdf)).
  unfold lift, df_getitem. rewrite Hc. reflexivity.
Qed.

Lemma setitem_run w data df name vs :
  heap w !! data = Some df ->
  setitem data name vs w = (Ok tt, set_heap w (<[data := df_setitem df name vs]> (heap w))).
Proof.
  intros Hdf. unfold setitem.
  rewrite (bind_ok _ _ _ _ _ (load_ok _ _ _ Hdf)). reflexivity.
Qed.

Section Enricher.
Context (ext : Externals).

(** One [data[name] = f(data['Close'])] statement on a frame that has
    no column [name] yet. *)
Lemma assign_indicator w data df close name vs (k : M nat) :
  heap w !! data = Some df ->
  lookup_col "Close" (df_columns df) = Some close ->
  has_col name (df_columns df) = false ->
  bind (getitem data "Close") (fun c => bind (setitem data name (vs c)) (fun _ => k)) w =
  k (set_heap w (<[data := mkDF (df_index df)
                     (df_columns df ++ [(name, FloatCol (reindex (nrows df) (vs close)))])]>
                   (heap w))).
Proof.
  intros Hdf Hclose Hfresh.
  rewrite (bind_ok _ _ _ _ _ (getitem_ok _ _ _ _ _ Hdf Hclose)).
  rewrite (bind_ok _ _ _ _ _ (setitem_run _ _ _ _ _ Hdf)).
  rewrite (df_setitem_fresh _ _ _ Hfresh). reflexivity.
Qed.

Lemma assign_indicator_stored w h data idx cols close name vs (k : M nat) :
  lookup_col "Close" cols = Some close ->
  has_col name cols = false ->
  bind (getitem data "Close") (fun c => bind (setitem data name (vs c)) (fun _ => k))
       (set_heap w (<[data := mkDF idx cols]> h)) =
  k (set_heap w (<[data := mkDF idx (cols ++ [(name, FloatCol (reindex (index_len idx) (vs close)))])]> h)).
Proof.
  intros Hclose Hfresh.
  rewrite (assign_indicator _ data (mkDF idx cols) close name vs k);
    [|apply lookup_insert_eq|exact Hclose|exact Hfresh].
  rewrite set_heap_twice. cbn [heap set_heap df_index df_columns nrows].
  rewrite insert_insert_eq. reflexivity.
Qed.

(** C8: on a series with a Close column and no column named like an
    indicator, the Enricher (both functions, in the order the page calls
    them) returns the same object with the same index, hence the same
    number of rows; the columns it had are all still there, unchanged and
    in the same order, followed by exactly SMA_20, EMA_20, RSI, MACD and
    MACD_Signal, each of them the indicator library's result on the Close
    column alone, with windows 20, 20, 14, (26 slow, 12 fast) and
    (26, 12, 9), aligned to one value per row: row i of the stored column
    is the library's value for row i (NaN where the library gave none),
    and a library series that has one value per row is stored as it is.
    Nothing else changes. *)
Theorem enricher_appends_indicator_columns w data df close :
  heap w !! data = Some df ->
  lookup_col "Close" (df_columns df) = Some close ->
  Forall (fun name => has_col name (df_columns df) = false)
         ["SMA_20"; "EMA_20"; "RSI"; "MACD"; "MACD_Signal"] ->
  let n := nrows df in
  let added :=
    [ ("SMA_20", FloatCol (reindex n (sma_indicator ext close 20)));
      ("EMA_20", FloatCol (reindex n (ema_indicator ext close 20)));
      ("RSI", FloatCol (reindex n (rsi ext close 14)));
      ("MACD", FloatCol (reindex n (macd ext close 26 12)));
      ("MACD_Signal", FloatCol (reindex n (macd_signal ext close 26 12 9))) ] in
  let df' := mkDF (df_index df) (df_columns df ++ added) in
  bind (add_technical_indicators ext data) (add_more_indicators ext) w
    = (Ok data, set_heap w (<[data := df']> (heap w))) /\
  nrows df' = nrows df /\
  take (length (df_columns df)) (df_columns df') = df_columns df /\
  drop (length (df_columns df)) (df_columns df') = added /\
  Forall (fun c => col_len c.2 = nrows df) added /\
  (forall name vs,
      In (name, vs) (indicator_series ext close) ->
      exists out,
        lookup_col name (df_columns df') = Some (FloatCol out) /\
        aligned_to n vs out /\
        (length vs = n -> out = vs)).
Proof.
  intros Hdf Hclose Hfresh n added df'.
  pose proof Hfresh as Hfresh0.
  repeat (apply Forall_cons_1 in Hfresh as [? Hfresh]).
  split; [|split; [reflexivity|split; [apply take_app_length|split;
    [apply drop_app_length|split]]]].
  - unfold add_technical_indicators, add_more_indicators.
    unfold bind at 1.
    rewrite <- (set_heap_id w) at 1. rewrite <- (insert_id _ _ _ Hdf) at 1.
    destruct df as [idx cols]. cbn [df_columns df_index nrows] in *.
    rewrite (assign_indicator_stored w _ data idx cols close "SMA_20"
               (fun c => sma_indicator ext c 20)) by assumption.
    rewrite (assign_indicator_stored w _ data idx _ close "EMA_20"
               (fun c => ema_indicator ext c 20));
      [|rewrite !lookup_col_app, Hclose; reflexivity
       |rewrite !has_col_app; repeat (apply orb_false_iff; split);
        (assumption || reflexivity)].
    unfold ret at 1.
    rewrite (assign_indicator_stored w _ data idx _ close "RSI" (fun c => rsi ext c 14));
      [|rewrite !lookup_col_app, Hclose; reflexivity
       |rewrite !has_col_app; repeat (apply orb_false_iff; split);
        (assumption || reflexivity)].
    rewrite (assign_indicator_stored w _ data idx _ close "MACD"
               (fun c => macd ext c macd_window_slow macd_window_fast));
      [|rewrite !lookup_col_app, Hclose; reflexivity
       |rewrite !has_col_app; repeat (apply orb_false_iff; split);
        (assumption || reflexivity)].
    rewrite (assign_indicator_stored w _ data idx _ close "MACD_Signal"
               (fun c => macd_signal ext c macd_window_slow macd_window_fast
                           macd_window_sign));
      [|rewrite !lookup_col_app, Hclose; reflexivity
       |rewrite !has_col_app; repeat (apply orb_false_iff; split);
        (assumption || reflexivity)].
    unfold ret, df', added, n.
    rewrite <- !app_assoc. reflexivity.
  - unfold added. repeat constructor; cbn [snd col_len]; apply length_reindex.
  - intros name vs Hin.
    apply (indicator_columns_aligned ext n close (df_columns df) name vs); [|exact Hin].
    eapply Forall_impl; [exact Hfresh0|]. intros label Hlabel. apply has_col_lookup, Hlabel.
Qed.

End Enricher.

(** ** Order on binary64 values *)

Lemma SFltb_irrefl x : SFltb x x = false.
Proof.
  unfold SFltb, SFcompare.
  destruct x as [[]|[]| |[] m e]; try reflexivity;
    rewrite Z.compare_refl, Pos.compare_cont_refl; reflexivity.
Qed.

Lemma compare_cont_Eq_lt m1 m2 : Pos.compare_cont Eq m1 m2 = Lt <-> (m1 < m2)%positive.
Proof.
  rewrite Pos.compare_cont_spec. unfold Pos.lt.
  destruct (m1 ?= m2)%positive; cbn [Pos.switch_Eq]; split; (reflexivity || discriminate).
Qed.

Lemma compare_cont_Eq_gt m1 m2 : Pos.compare_cont Eq m1 m2 = Gt <-> (m2 < m1)%positive.
Proof.
  rewrite <- Pos.gt_lt_iff, Pos.compare_cont_spec. unfold Pos.gt.
  destruct (m1 ?= m2)%positive; cbn [Pos.switch_Eq]; split; (reflexivity || discriminate).
Qed.

Lemma compare_pos_lt e1 m1 e2 m2 :
  match e1 ?= e2 with
  | Eq => Pos.compare_cont Eq m1 m2
  | Lt => Lt
  | Gt => Gt
  end = Lt <-> lex_lt e1 m1 e2 m2.
Proof.
  unfold lex_lt. destruct (Z.compare_spec e1 e2) as [H|H|H].
  - rewrite compare_cont_Eq_lt. split; [intros; right; auto|intros [?|[_ ?]]; [lia|auto]].
  - split; [intros; left; auto|reflexivity].
  - split; [discriminate|intros [?|[? _]]; lia].
Qed.

Lemma compare_neg_lt e1 m1 e2 m2 :
  match e1 ?= e2 with
  | Eq => CompOpp (Pos.compare_cont Eq m1 m2)
  | Lt => Gt
  | Gt => Lt
  end = Lt <-> lex_lt e2 m2 e1 m1.
Proof.
  unfold lex_lt. destruct (Z.compare_spec e1 e2) as [H|H|H].
  - destruct (Pos.compare_cont Eq m1 m2) eqn:Hc; cbn [CompOpp].
    + split; [discriminate|]. intros [?|[_ Hlt]]; [lia|].
      apply compare_cont_Eq_gt in Hlt. congruence.
    + split; [discriminate|]. intros [?|[_ Hlt]]; [lia|].
      apply compare_cont_Eq_gt in Hlt. congruence.
    + apply compare_cont_Eq_gt in Hc. split; [intros; right; auto|reflexivity].
  - split; [discriminate|intros [?|[? _]]; lia].
  - split; [intros; left; auto|reflexivity].
Qed.

Lemma SFltb_finite s1 m1 e1 s2 m2 e2 :
  SFltb (S754_finite s1 m1 e1) (S754_finite s2 m2 e2) = true <->
  match s1, s2 with
  | true, false => True
  | false, true => False
  | false, false => lex_lt e1 m1 e2 m2
  | true, true => lex_lt e2 m2 e1 m1
  end.
Proof.
  unfold SFltb, SFcompare. destruct s1, s2.
  - rewrite <- compare_neg_lt.
    destruct (match e1 ?= e2 with Eq => _ | Lt => Gt | Gt => Lt end);
      split; (reflexivity || discriminate).
  - split; reflexivity.
  - split; [discriminate|contradiction].
  - rewrite <- compare_pos_lt.
    destruct (match e1 ?= e2 with Eq => _ | Lt => Lt | Gt => Gt end);
      split; (reflexivity || discriminate).
Qed.

Lemma SFltb_key x y :
  x <> S754_nan -> y <> S754_nan -> (SFltb x y = true <-> lt3 (sf_key x) (sf_key y)).
Proof.
  intros Hx Hy.
  destruct x as [sx|sx| |sx mx ex], y as [sy|sy| |sy my ey]; try congruence;
    try (unfold SFltb, SFcompare, lt3, sf_key;
         repeat match goal with s : bool |- _ => destruct s end;
         cbn [fst snd];
         (split; [intros H; first [discriminate H | lia]
                 |intros H; first [reflexivity | exfalso; lia]])).
  rewrite SFltb_finite. unfold lt3, sf_key, lex_lt.
  destruct sx, sy; cbn [fst snd]; lia.
Qed.

Lemma SFltb_not_nan x y : SFltb x y = true -> x <> S754_nan /\ y <> S754_nan.
Proof.
  intros H. split; intros ->; [discriminate|].
  unfold SFltb, SFcompare in H. destruct x; discriminate.
Qed.

Lemma lt3_trans a b c : lt3 a b -> lt3 b c -> lt3 a c.
Proof.
  destruct a as [[a1 a2] a3], b as [[b1 b2] b3], c as [[c1 c2] c3].
  unfold lt3. cbn [fst snd]. lia.
Qed.

(** Either [a] is below [b], or [b] is below [c], when [a] is below [c]. *)
Lemma lt3_cotrans a b c : lt3 a c -> lt3 a b \/ lt3 b c.
Proof.
  destruct a as [[a1 a2] a3], b as [[b1 b2] b3], c as [[c1 c2] c3].
  unfold lt3. cbn [fst snd]. lia.
Qed.

Lemma SFltb_trans x y z : SFltb x y = true -> SFltb y z = true -> SFltb x z = true.
Proof.
  intros Hxy Hyz.
  destruct (SFltb_not_nan _ _ Hxy) as [Hx Hy].
  destruct (SFltb_not_nan _ _ Hyz) as [_ Hz].
  rewrite SFltb_key in * by assumption.
  eapply lt3_trans; eassumption.
Qed.

Lemma ltb_irrefl (x : float) : (x <? x)%float = false.
Proof. rewrite ltb_spec. apply SFltb_irrefl. Qed.

Lemma ltb_trans (x y z : float) :
  (x <? y)%float = true -> (y <? z)%float = true -> (x <? z)%float = true.
Proof. rewrite !ltb_spec. apply SFltb_trans. Qed.


Lemma SFcompare_refl x : x <> S754_nan -> SFcompare x x = Some Eq.
Proof.
  intros Hx. unfold SFcompare.
  destruct x as [[]|[]| |[] m e]; try reflexivity; try congruence;
    rewrite Z.compare_refl, Pos.compare_cont_refl; reflexivity.
Qed.

Lemma is_nan_Prim2SF (x : float) : is_nan x = true <-> Prim2SF x = S754_nan.
Proof.
  unfold is_nan. rewrite FloatAxioms.eqb_spec. unfold SFeqb. split.
  - intros H. destruct (Prim2SF x) as [s|s| |s m e] eqn:Hx; [| |reflexivity|];
      rewrite SFcompare_refl in H by discriminate; discriminate.
  - intros ->. reflexivity.
Qed.

(** Nothing is below a NaN. *)
Lemma ltb_nan_r (x y : float) : is_nan y = true -> (x <? y)%float = false.
Proof.
  intros Hy. apply is_nan_Prim2SF in Hy. rewrite ltb_spec, Hy.
  unfold SFltb, SFcompare. destruct (Prim2SF x); reflexivity.
Qed.

(** The order is total on the values other than NaN: whatever is below
    [z] is below [x], unless [x] itself is below [z]. *)
Lemma ltb_cotrans (r x z : float) :
  is_nan x = false -> (r <? z)%float = true ->
  (r <? x)%float = true \/ (x <? z)%float = true.
Proof.
  rewrite !ltb_spec. intros Hx Hrz.
  assert (Hx' : Prim2SF x <> S754_nan).
  { intros H. apply is_nan_Prim2SF in H. congruence. }
  destruct (SFltb_not_nan _ _ Hrz) as [Hr Hz].
  rewrite (SFltb_key _ _ Hr Hz) in Hrz.
  rewrite (SFltb_key _ _ Hr Hx'), (SFltb_key _ _ Hx' Hz).
  apply lt3_cotrans. exact Hrz.
Qed.

(** ** Reductions *)

(** The left-to-right maximum of values without NaN is one of the values
    and none of them is above it. *)
Lemma fold_fmax_spec rest x :
  Forall (fun y => is_nan y = false) (x :: rest) ->
  let r := fold_left fmax rest x in
  In r (x :: rest) /\ forall y, In y (x :: rest) -> (r <? y)%float = false.
Proof.
  revert x. induction rest as [|z rest IH]; intros x Hnan; cbn [fold_left].
  - split; [left; reflexivity|]. intros y [<-|[]]. apply ltb_irrefl.
  - apply Forall_cons_1 in Hnan as [Hx Hnan].
    pose proof Hnan as Hnan'. apply Forall_cons_1 in Hnan' as [Hz Hrest].
    assert (Hfm : is_nan (fmax x z) = false) by (unfold fmax; destruct (x <? z)%float; assumption).
    destruct (IH (fmax x z) (Forall_cons_2 _ _ _ Hfm Hrest)) as [Hin Hmax]. split.
    + destruct Hin as [Hr|Hr]; [|right; right; exact Hr].
      rewrite <- Hr. unfold fmax. destruct (x <? z)%float; [right; left|left]; reflexivity.
    + pose proof (Hmax _ (or_introl eq_refl)) as H0.
      set (r := fold_left fmax rest (fmax x z)) in *.
      intros y [<-|[<-|Hy]].
      * unfold fmax in H0. destruct (x <? z)%float eqn:Hxz; [|exact H0].
        destruct (r <? x)%float eqn:Hrx; [|reflexivity].
        rewrite (ltb_trans _ _ _ Hrx Hxz) in H0. discriminate.
      * unfold fmax in H0. destruct (x <? z)%float eqn:Hxz; [exact H0|].
        destruct (r <? z)%float eqn:Hrz; [|reflexivity].
        destruct (ltb_cotrans r x z Hx Hrz); congruence.
      * apply Hmax. right. exact Hy.
Qed.

Lemma fold_fmin_spec rest x :
  Forall (fun y => is_nan y = false) (x :: rest) ->
  let r := fold_left fmin rest x in
  In r (x :: rest) /\ forall y, In y (x :: rest) -> (y <? r)%float = false.
Proof.
  revert x. induction rest as [|z rest IH]; intros x Hnan; cbn [fold_left].
  - split; [left; reflexivity|]. intros y [<-|[]]. apply ltb_irrefl.
  - apply Forall_cons_1 in Hnan as [Hx Hnan].
    pose proof Hnan as Hnan'. apply Forall_cons_1 in Hnan' as [Hz Hrest].
    assert (Hfm : is_nan (fmin x z) = false) by (unfold fmin; destruct (z <? x)%float; assumption).
    destruct (IH (fmin x z) (Forall_cons_2 _ _ _ Hfm Hrest)) as [Hin Hmin]. split.
    + destruct Hin as [Hr|Hr]; [|right; right; exact Hr].
      rewrite <- Hr. unfold fmin. destruct (z <? x)%float; [right; left|left]; reflexivity.
    + pose proof (Hmin _ (or_introl eq_refl)) as H0.
      set (r := fold_left fmin rest (fmin x z)) in *.
      intros y [<-|[<-|Hy]].
      * unfold fmin in H0. destruct (z <? x)%float eqn:Hzx; [|exact H0].
        destruct (x <? r)%float eqn:Hxr; [|reflexivity].
        rewrite (ltb_trans _ _ _ Hzx Hxr) in H0. discriminate.
      * unfold fmin in H0. destruct (z <? x)%float eqn:Hzx; [exact H0|].
        destruct (z <? r)%float eqn:Hzr; [|reflexivity].
        destruct (ltb_cotrans z x r Hx Hzr); congruence.
      * apply Hmin. right. exact Hy.
Qed.

Lemma filter_not_nan_Forall vs : Forall (fun y => is_nan y = false) (List.filter not_nan vs).
Proof.
  apply Forall_forall. intros y Hy. apply list_elem_of_In, filter_In in Hy as [_ Hy].
  unfold not_nan in Hy. apply negb_true_iff in Hy. exact Hy.
Qed.

(** [s.max()] on a float64 column: when some value is a number, the
    result is one of the column's values, it is a number, and no value of
    the column is above it; when none is, the result is NaN. *)
Lemma series_max_spec vs :
  exists r, series_max (FloatCol vs) = SFloat r /\
    ((exists y, In y vs /\ is_nan y = false) ->
       In r vs /\ is_nan r = false /\ forall y, In y vs -> (r <? y)%float = false) /\
    ((forall y, In y vs -> is_nan y = true) -> r = nan).
Proof.
  cbn [series_max]. eexists. split; [reflexivity|].
  pose proof (filter_not_nan_Forall vs) as Hall.
  destruct (List.filter not_nan vs) as [|x rest] eqn:Hf; cbn [reduce default].
  - split; [|reflexivity]. intros (y & Hy & Hnan). exfalso.
    assert (Hin : In y (List.filter not_nan vs)).
    { apply filter_In. split; [exact Hy|]. unfold not_nan. rewrite Hnan. reflexivity. }
    rewrite Hf in Hin. destruct Hin.
  - destruct (fold_fmax_spec rest x Hall) as [Hin Hmax].
    assert (Hr : In (fold_left fmax rest x) vs /\ is_nan (fold_left fmax rest x) = false).
    { rewrite <- Hf in Hin. apply filter_In in Hin as [Hin Hnn].
      split; [exact Hin|]. unfold not_nan in Hnn. apply negb_true_iff in Hnn. exact Hnn. }
    split.
    + intros _. split; [apply Hr|]. split; [apply Hr|].
      intros y Hy. destruct (is_nan y) eqn:Hnan; [apply ltb_nan_r; exact Hnan|].
      apply Hmax. rewrite <- Hf. apply filter_In. split; [exact Hy|].
      unfold not_nan. rewrite Hnan. reflexivity.
    + intros Hnan. destruct Hr as [Hin' Hnn]. rewrite (Hnan _ Hin') in Hnn. discriminate.
Qed.

Lemma ltb_nan_l (x y : float) : is_nan x = true -> (x <? y)%float = false.
Proof.
  intros Hx. apply is_nan_Prim2SF in Hx. rewrite ltb_spec, Hx. reflexivity.
Qed.

Lemma series_min_spec vs :
  exists r, series_min (FloatCol vs) = SFloat r /\
    ((exists y, In y vs /\ is_nan y = false) ->
       In r vs /\ is_nan r = false /\ forall y, In y vs -> (y <? r)%float = false) /\
    ((forall y, In y vs -> is_nan y = true) -> r = nan).
Proof.
  cbn [series_min]. eexists. split; [reflexivity|].
  pose proof (filter_not_nan_Forall vs) as Hall.
  destruct (List.filter not_nan vs) as [|x rest] eqn:Hf; cbn [reduce default].
  - split; [|reflexivity]. intros (y & Hy & Hnan). exfalso.
    assert (Hin : In y (List.filter not_nan vs)).
    { apply filter_In. split; [exact Hy|]. unfold not_nan. rewrite Hnan. reflexivity. }
    rewrite Hf in Hin. destruct Hin.
  - destruct (fold_fmin_spec rest x Hall) as [Hin Hmin].
    assert (Hr : In (fold_left fmin rest x) vs /\ is_nan (fold_left fmin rest x) = false).
    { rewrite <- Hf in Hin. apply filter_In in Hin as [Hin Hnn].
      split; [exact Hin|]. unfold not_nan in Hnn. apply negb_true_iff in Hnn. exact Hnn. }
    split.
    + intros _. split; [apply Hr|]. split; [apply Hr|].
      intros y Hy. destruct (is_nan y) eqn:Hnan; [apply ltb_nan_l; exact Hnan|].
      apply Hmin. rewrite <- Hf. apply filter_In. split; [exact Hy|].
      unfold not_nan. rewrite Hnan. reflexivity.
    + intros Hnan. destruct Hr as [Hin' Hnn]. rewrite (Hnan _ Hin') in Hnn. discriminate.
Qed.

Lemma wrap64_small z : - 2 ^ 63 <= z < 2 ^ 63 -> wrap64 z = z.
Proof.
  intros Hz. unfold wrap64.
  rewrite Z.mod_small; [ring|].
  change (2 ^ 64) with (2 ^ 63 + 2 ^ 63). generalize dependent (2 ^ 63). intros; lia.
Qed.

(** Without overflow the int64 sum is the sum. *)
Lemma int64_sum_exact vs :
  Forall (fun v => 0 <= v) vs -> Zsum vs < 2 ^ 63 -> int64_sum vs = Zsum vs.
Proof.
  intros Hpos Hsum. unfold int64_sum.
  assert (Hgen : forall acc, 0 <= acc -> acc + Zsum vs < 2 ^ 63 ->
            fold_left (fun a v => wrap64 (a + v)) vs acc = acc + Zsum vs).
  { clear Hsum. induction Hpos as [|v vs Hv Hvs IH]; intros acc Hacc Hlt; cbn [fold_left Zsum fold_right].
    - ring.
    - fold (Zsum vs) in *. change (Zsum (v :: vs)) with (v + Zsum vs) in Hlt.
      assert (Hnn : 0 <= Zsum vs).
      { clear -Hvs. induction Hvs as [|u us Hu _ IHu]; cbn [Zsum fold_right]; [reflexivity|].
        fold (Zsum us). lia. }
      assert (Hp : - 2 ^ 63 <= 0) by (apply Z.opp_nonpos_nonneg, Z.pow_nonneg; lia).
      rewrite wrap64_small by (generalize dependent (2 ^ 63); intros; lia).
      rewrite IH by (generalize dependent (2 ^ 63); intros; lia). ring. }
  rewrite Hgen by (generalize dependent (2 ^ 63); intros; lia). ring.
Qed.

(** ** The Metrics Calculator *)

Lemma sorted_first_last (ts : list Z) t0 tn :
  Sorted Z.le ts -> head ts = Some t0 -> last ts = Some tn ->
  forall t, In t ts -> t0 <= t <= tn.
Proof.
  intros Hsorted. apply Sorted_StronglySorted in Hsorted; [|intros x y z; apply Z.le_trans].
  revert t0. induction Hsorted as [|a l Hl IH Ha]; intros t0 Hhead Hlast t Hin; [destruct Hin|].
  cbn [head] in Hhead. inversion Hhead; subst t0; clear Hhead.
  destruct l as [|b l].
  - cbn in Hlast. inversion Hlast; subst. destruct Hin as [<-|[]]. lia.
  - change (last (a :: b :: l)) with (last (b :: l)) in Hlast.
    assert (Hb : b <= tn /\ forall u, In u (b :: l) -> u <= tn).
    { split; [apply (IH b eq_refl Hlast b); left; reflexivity|].
      intros u Hu. apply (IH b eq_refl Hlast u Hu). }
    rewrite List.Forall_forall in Ha.
    destruct Hin as [<-|Hin].
    + split; [lia|]. pose proof (Ha b (or_introl eq_refl)). lia.
    + split; [apply Ha, Hin|apply Hb, Hin].
Qed.

Lemma iloc_last_float {A} (f : A -> float) (xs : list A) x :
  last xs = Some x -> iloc_last (FloatCol (map f xs)) = Ok (SFloat (f x)).
Proof.
  intros Hlast. unfold iloc_last. cbn [col_len]. rewrite length_map.
  rewrite last_lookup in Hlast.
  destruct (length xs) as [|n] eqn:Hlen.
  - destruct xs; [discriminate|discriminate].
  - cbn [pred] in Hlast. cbn [col_at]. rewrite list_lookup_fmap, Hlast. reflexivity.
Qed.

Lemma iloc_first_float {A} (f : A -> float) (xs : list A) x :
  head xs = Some x -> iloc_first (FloatCol (map f xs)) = Ok (SFloat (f x)).
Proof.
  intros Hhead. destruct xs as [|y xs]; inversion Hhead; subst. reflexivity.
Qed.

Section Metrics.
Context (ext : Externals).

(** C2 (as the code has it): on a non-empty normalized series the
    Metrics Calculator returns, without touching anything: the Close of
    the last row; that Close minus the Close of the first row; that
    difference divided by the first Close, times 100, all in binary64;
    the maximum of the High column and the minimum of the Low column,
    NaN values skipped (a value of the column that is a number and that
    no value of the column exceeds, resp. undercuts; NaN only when the
    whole column is NaN); and the 64-bit sum of the Volume column, which
    is the exact sum when the volumes are non-negative and stay below
    2^63.  The rows of a series being in chronological order, the first
    and last rows are the chronologically first and last.  For closes
    [100,102,101,105,107] this gives last_close = 107, change = 7 and
    pct_change = 7.000000000000001, the binary64 value next above 7
    (7/100 is not a binary64 number, and 100 times its rounding is
    not 7). *)
Theorem calculate_metrics_on_series w data df bars :
  heap w !! data = Some df ->
  normalized_series df bars ->
  bars <> [] ->
  exists first final high low,
    head bars = Some first /\ last bars = Some final /\
    let change := (bar_close final - bar_close first)%float in
    let pct_change := (change / bar_close first * 100)%float in
    calculate_metrics ext data w =
      (Ok (SFloat (bar_close final), SFloat change, pct_change,
           SFloat high, SFloat low, SInt (int64_sum (map bar_volume bars))), w) /\
    ((exists b, In b bars /\ is_nan (bar_high b) = false) ->
       is_nan high = false /\
       (exists b, In b bars /\ bar_high b = high) /\
       forall b, In b bars -> (high <? bar_high b)%float = false) /\
    ((forall b, In b bars -> is_nan (bar_high b) = true) -> is_nan high = true) /\
    ((exists b, In b bars /\ is_nan (bar_low b) = false) ->
       is_nan low = false /\
       (exists b, In b bars /\ bar_low b = low) /\
       forall b, In b bars -> (bar_low b <? low)%float = false) /\
    ((forall b, In b bars -> is_nan (bar_low b) = true) -> is_nan low = true) /\
    (Forall (fun b => 0 <= bar_volume b) bars ->
       Zsum (map bar_volume bars) < 2 ^ 63 ->
       int64_sum (map bar_volume bars) = Zsum (map bar_volume bars)) /\
    (chronological (map bar_time bars) ->
       forall b, In b bars -> bar_time first <= bar_time b <= bar_time final) /\
    (map bar_close bars = [100; 102; 101; 105; 107]%float ->
       bar_close final = 107%float /\ change = 7%float /\
       pct_change = 0x1.c000000000001p+2%float /\ pct_change <> 7%float).
Proof.
  intros Hdf (Hrows & Htime & Hopen & Hhigh & Hlow & Hclose & Hvolume) Hne.
  destruct (head bars) as [first|] eqn:Hhead; [|destruct bars; [congruence|discriminate]].
  destruct (last bars) as [final|] eqn:Hlast;
    [|apply last_None in Hlast; congruence].
  destruct (series_max_spec (map bar_high bars)) as (high & Hmax & Hmax_spec & Hmax_nan).
  destruct (series_min_spec (map bar_low bars)) as (low & Hmin & Hmin_spec & Hmin_nan).
  exists first, final, high, low.
  split; [reflexivity|]. split; [reflexivity|]. cbv zeta.
  split; [|split; [|split; [|split; [|split; [|split; [|split]]]]]].
  - unfold calculate_metrics.
    rewrite (bind_ok _ _ _ _ _ (getitem_ok _ _ _ _ _ Hdf Hclose)).
    unfold bind at 1. unfold lift at 1. rewrite (iloc_last_float _ _ _ Hlast).
    rewrite (bind_ok _ _ _ _ _ (getitem_ok _ _ _ _ _ Hdf Hclose)).
    unfold bind at 1. unfold lift at 1. rewrite (iloc_first_float _ _ _ Hhead).
    unfold bind at 1. unfold lift at 1. cbn [py_sub].
    unfold bind at 1. unfold lift at 1. cbn [py_truediv].
    rewrite (bind_ok _ _ _ _ _ (getitem_ok _ _ _ _ _ Hdf Hhigh)).
    rewrite (bind_ok _ _ _ _ _ (getitem_ok _ _ _ _ _ Hdf Hlow)).
    rewrite (bind_ok _ _ _ _ _ (getitem_ok _ _ _ _ _ Hdf Hvolume)).
    unfold bind at 1. unfold lift at 1. cbn [series_sum].
    rewrite Hmax, Hmin. reflexivity.
  - intros (b & Hb & Hnan).
    destruct Hmax_spec as (Hin & Hnum & Hle).
    { exists (bar_high b). split; [apply in_map; exact Hb|exact Hnan]. }
    split; [exact Hnum|]. split.
    + apply in_map_iff in Hin as (b' & Hb' & Hin). eauto.
    + intros b' Hb'. apply Hle, in_map, Hb'.
  - intros Hall. rewrite Hmax_nan; [reflexivity|].
    intros y Hy. apply in_map_iff in Hy as (b & <- & Hb). apply Hall, Hb.
  - intros (b & Hb & Hnan).
    destruct Hmin_spec as (Hin & Hnum & Hle).
    { exists (bar_low b). split; [apply in_map; exact Hb|exact Hnan]. }
    split; [exact Hnum|]. split.
    + apply in_map_iff in Hin as (b' & Hb' & Hin). eauto.
    + intros b' Hb'. apply Hle, in_map, Hb'.
  - intros Hall. rewrite Hmin_nan; [reflexivity|].
    intros y Hy. apply in_map_iff in Hy as (b & <- & Hb). apply Hall, Hb.
  - intros Hpos Hsum. apply int64_sum_exact; [|exact Hsum].
    apply Forall_fmap. exact Hpos.
  - intros Hsorted b Hb.
    apply (sorted_first_last (map bar_time bars)).
    + exact Hsorted.
    + destruct bars; inversion Hhead; reflexivity.
    + rewrite last_lookup in Hlast.
      rewrite last_lookup, length_map, list_lookup_fmap, Hlast. reflexivity.
    + apply in_map, Hb.
  - intros Hcloses.
    assert (Hf : bar_close first = 100%float).
    { destruct bars as [|b0 bars']; inversion Hhead; subst.
      inversion Hcloses. reflexivity. }
    assert (Hl : bar_close final = 107%float).
    { assert (H : last (map bar_close bars) = Some (bar_close final)).
      { rewrite last_lookup in Hlast.
      rewrite last_lookup, length_map, list_lookup_fmap, Hlast. reflexivity. }
      rewrite Hcloses in H. inversion H. reflexivity. }
    rewrite Hf, Hl.
    split; [reflexivity|]. split; [vm_compute; reflexivity|].
    split; [vm_compute; reflexivity|].
    intros H. apply (f_equal Prim2SF) in H. vm_compute in H. discriminate H.
Qed.

End Metrics.

(** ** The render pass *)

Section RenderPass.
Context (ext : Externals).

(** So when the primary ticker's content is there and the comparison
    fetch fails, the pass goes on to the side panel and the About box. *)
Lemma render_pass_comparison_failure sel w w0 c w1 data w2 w3 :
  chart_parameters w = (Ok tt, w0) ->
  auto_refresh ext w0 = (Ok c, w1) ->
  main_content ext sel w1 = (Ok data, w2) ->
  fetch_stock_data ext (compare_ticker sel) (time_period sel) (interval sel) w2 = (Ok None, w3) ->
  render_pass ext sel w = bind (real_time_prices ext) (fun _ => about) w3.
Proof.
  intros Hhead Hrefresh Hmain Hfetch. unfold render_pass.
  unfold bind at 1. rewrite Hhead.
  unfold bind at 1. rewrite Hrefresh.
  unfold bind at 1. rewrite Hmain.
  unfold bind at 1. rewrite (comparison_chart_no_data _ _ _ _ _ Hfetch).
  reflexivity.
Qed.

(** With the primary ticker missing, a comparison ticker that does have
    data makes the comparison chart subscript None. *)
Lemma comparison_chart_none sel w r w1 w2 :
  fetch_stock_data ext (compare_ticker sel) (time_period sel) (interval sel) w
    = (Ok (Some r), w1) ->
  process_data r w1 = (Ok r, w2) ->
  comparison_chart ext sel None w =
    (Raise (TypeError "'NoneType' object is not subscriptable"), w2).
Proof.
  intros Hfetch Hproc. unfold comparison_chart.
  unfold bind at 1. rewrite Hfetch.
  unfold bind at 1. rewrite Hproc. reflexivity.
Qed.

Lemma fetch_some_ui ticker period interval w r w' :
  fetch_stock_data ext ticker period interval w = (Ok (Some r), w') -> ui w' = ui w.
Proof.
  destruct (fetch_cases ext ticker period interval w)
    as [(e & H)|[(req & e & Hresp & H)|[(req & df & Hresp & Hempty & H)
                                       |(req & df & Hresp & Hempty & H)]]];
    rewrite H; intros Heq; inversion Heq; subst; reflexivity.
Qed.

(** C1 (where the code departs from it): when the primary
    ticker's fetch comes back empty-handed and the comparison ticker's
    fetch succeeds, the comparison chart subscripts the missing primary
    data, and the TypeError ends the render pass there: the provider is
    never asked for a watchlist symbol, and nothing is put on the page
    after the Fetcher's message about the primary ticker: no comparison
    chart, no side panel of real-time prices, no About box. *)
Theorem render_pass_aborts_when_primary_fails sel w w0 c w1 w2 r w3 w4 :
  chart_parameters w = (Ok tt, w0) ->
  auto_refresh ext w0 = (Ok c, w1) ->
  fetch_stock_data ext (ticker sel) (time_period sel) (interval sel) w1 = (Ok None, w2) ->
  fetch_stock_data ext (compare_ticker sel) (time_period sel) (interval sel) w2
    = (Ok (Some r), w3) ->
  process_data r w3 = (Ok r, w4) ->
  render_pass ext sel w =
    (Raise (TypeError "'NoneType' object is not subscriptable"), w4) /\
  ui w4 = ui w2 /\
  requests w4 = requests w3.
Proof.
  intros Hhead Hrefresh Hmain Hcompare Hproc. split; [|split].
  - unfold render_pass.
    unfold bind at 1. rewrite Hhead.
    unfold bind at 1. rewrite Hrefresh.
    unfold bind at 1. rewrite (main_content_no_data _ _ _ _ Hmain).
    unfold bind at 1. rewrite (comparison_chart_none _ _ _ _ _ Hcompare Hproc).
    reflexivity.
  - apply process_data_ok_inv in Hproc as (_ & name & tz & vs & cols & label & _ & ->).
    cbn [set_heap ui]. eapply fetch_some_ui. eassumption.
  - apply process_data_ok_inv in Hproc as (_ & name & tz & vs & cols & label & _ & ->).
    reflexivity.
Qed.

End RenderPass.

(** * The properties at work on the sample data *)

(** ** Fetcher *)

Lemma fetch_request_by_period_witness :
  let e := sample_ext "DELISTED" "BROKEN" in
  (604800000000 <= datetime_now e 0 <= 315537897599999999 /\
   requests (snd (fetch_stock_data e "AAPL" "1wk" "1h" empty_world))
   = [] ++ [ReqRange "AAPL" (63839802900000000 - 604800000000) 63839802900000000 "1h"] /\
   63839802900000000 - 604800000000 = 63839802900000000 - 7 * (24 * 3600 * 1000000)) /\
  requests (snd (fetch_stock_data e "AAPL" "1d" "1m" empty_world))
  = [] ++ [ReqPeriod "AAPL" "1d" "1m"] /\
  ("max" <> "1wk" /\
   requests (snd (fetch_stock_data e "AAPL" "max" "1d" empty_world))
   = [] ++ [ReqPeriod "AAPL" "max" "1d"]).
Proof.
  intros e.
  assert (Hrange : 604800000000 <= datetime_now e 0 <= 315537897599999999)
    by (vm_compute; split; discriminate).
  split; [split; [exact Hrange|]|split; [|split; [discriminate|]]].
  - exact (proj1 (fetch_request_by_period e "AAPL" "1wk" "1h" empty_world) eq_refl Hrange).
  - exact (proj1 (proj2 (fetch_request_by_period e "AAPL" "1d" "1m" empty_world)) eq_refl).
  - refine (proj2 (proj2 (fetch_request_by_period e "AAPL" "max" "1d" empty_world)) _).
    discriminate.
Defined.

(** The week of the sample clock: the range asked of the provider starts
    at 2023-12-26 14:35 and ends at 2024-01-02 14:35. *)
Example fetch_one_week_range :
  requests (snd (fetch_stock_data (sample_ext "DELISTED" "BROKEN") "AAPL" "1wk" "1h"
                   empty_world))
  = [ReqRange "AAPL" 63839198100000000 63839802900000000 "1h"].
Proof. vm_compute. reflexivity. Qed.

(** Scenario 2 of the spec with the primary ticker as the one without
    data: an empty answer for "AAPL" gives a warning and None, the main
    content area is skipped, and the comparison chart for "MSFT", which
    has data, raises. *)
Lemma fetch_never_raises_witness :
  let e := sample_ext "AAPL" "BROKEN" in
  let sel := sample_selection "AAPL" "MSFT" in
  yf_download e 0 (ReqPeriod "AAPL" "1d" "1m") = RespFrame empty_frame /\
  df_empty empty_frame = true /\
  exists w',
    fetch_stock_data e "AAPL" "1d" "1m" empty_world = (Ok None, w') /\
    ui w' = [StWarning "No data found for AAPL. It may be delisted or there is no price data available."] /\
    main_content e sel empty_world = (Ok None, w') /\
    exists w3,
      bind (main_content e sel) (comparison_chart e sel) empty_world
      = (Raise (TypeError "'NoneType' object is not subscriptable"), w3).
Proof.
  intros e sel. split; [reflexivity|]. split; [reflexivity|].
  destruct (fetch_never_raises e "AAPL" "1d" "1m" empty_world)
    as (r & w' & Hrun & Hempty & _ & _ & Hnone).
  assert (Hw' : w' = snd (fetch_stock_data e "AAPL" "1d" "1m" empty_world))
    by (rewrite Hrun; reflexivity).
  assert (Hreq : requests w' = requests empty_world ++ [ReqPeriod "AAPL" "1d" "1m"])
    by (rewrite Hw'; vm_compute; reflexivity).
  destruct (Hempty _ empty_frame Hreq eq_refl eq_refl) as [Hr Hui].
  destruct (Hnone Hr) as (Hmain & _ & _ & Hpage).
  exists w'. split; [rewrite <- Hr; exact Hrun|]. split; [exact Hui|].
  split; [exact (Hmain sel eq_refl eq_refl eq_refl)|].
  exists (snd (process_data 1 (snd (fetch_stock_data e "MSFT" "1d" "1m" w')))).
  apply (Hpage sel 1%nat (snd (fetch_stock_data e "MSFT" "1d" "1m" w')) _
           eq_refl eq_refl eq_refl).
  - rewrite Hw'. vm_compute. reflexivity.
  - rewrite Hw'. vm_compute. reflexivity.
Defined.

Lemma fetch_result_never_empty_witness :
  let e := sample_ext "DELISTED" "BROKEN" in
  fetch_stock_data e "AAPL" "1d" "1m" empty_world
  = (Ok (Some 0%nat), snd (fetch_stock_data e "AAPL" "1d" "1m" empty_world)) /\
  exists df,
    heap (snd (fetch_stock_data e "AAPL" "1d" "1m" empty_world)) !! 0%nat = Some df /\
    df_empty df = false /\ (0 < nrows df)%nat.
Proof.
  intros e.
  assert (Hrun : fetch_stock_data e "AAPL" "1d" "1m" empty_world
                 = (Ok (Some 0%nat), snd (fetch_stock_data e "AAPL" "1d" "1m" empty_world)))
    by (vm_compute; reflexivity).
  split; [exact Hrun|].
  exact (proj1 (fetch_result_never_empty e) _ _ _ _ _ _ Hrun).
Defined.

(** ** Countdown *)

Lemma countdown_is_refresh_interval_witness :
  let e := sample_ext "DELISTED" "BROKEN" in
  (abs (time_time e 1 - time_time e 0) <? 1)%float = true /\
  exists w',
    auto_refresh e empty_world = (Ok refresh_interval, w') /\
    ui w' = ui empty_world ++ [StAutorefresh 20000 "datarefresh";
                               StWrite Sidebar "Auto-refresh in 20 seconds"].
Proof.
  intros e.
  assert (Hclose : (abs (time_time e 1 - time_time e 0) <? 1)%float = true)
    by (vm_compute; reflexivity).
  split; [exact Hclose|].
  exact (countdown_is_refresh_interval e empty_world Hclose).
Defined.

(** C9, as stated, fails: with two equal clock readings the countdown is
    20, not 0, and "Auto-refresh in 20 seconds" is what the sidebar shows. *)
Lemma countdown_is_not_zero :
  let e := sample_ext_with steady_clock "DELISTED" "BROKEN" in
  time_time e 0 = time_time e 1 /\
  fst (auto_refresh e empty_world) = Ok 20 /\
  fst (auto_refresh e empty_world) <> Ok 0 /\
  ui (snd (auto_refresh e empty_world))
  = [StAutorefresh 20000 "datarefresh"; StWrite Sidebar "Auto-refresh in 20 seconds"].
Proof.
  intros e. split; [reflexivity|].
  assert (H : auto_refresh e empty_world
              = (Ok 20, mkWorld ∅ 0 [StAutorefresh 20000 "datarefresh";
                                     StWrite Sidebar "Auto-refresh in 20 seconds"] [] 2))
    by (vm_compute; reflexivity).
  rewrite H. split; [reflexivity|]. split; [discriminate|reflexivity].
Qed.

(** ** Normalizer *)

Lemma normalized_world_frame : heap normalized_world !! 0%nat = Some normalized_frame.
Proof. vm_compute. reflexivity. Qed.

Lemma process_data_sample : process_data 0 sample_world = (Ok 0%nat, normalized_world).
Proof. vm_compute. reflexivity. Qed.

Lemma process_data_twice_raises_witness :
  process_data 0 sample_world = (Ok 0%nat, normalized_world) /\
  process_data 0 normalized_world =
    (Raise (AttributeError "'RangeIndex' object has no attribute 'tzinfo'"), normalized_world) /\
  (forall name vs,
      tz_convert "US/Eastern" (DatetimeIndex name (Some "US/Eastern") vs)
      = Ok (DatetimeIndex name (Some "US/Eastern") vs)).
Proof.
  assert (Hrun : process_data 0 sample_world = (Ok 0%nat, normalized_world))
    by (vm_compute; reflexivity).
  split; [exact Hrun|].
  exact (process_data_twice_raises sample_world 0 0 normalized_world Hrun).
Defined.

(** C4, as stated, fails: the second application does not return the
    normalized series, it raises. *)
Lemma normalizer_not_idempotent :
  process_data 0 sample_world = (Ok 0%nat, normalized_world) /\
  process_data 0 normalized_world <> (Ok 0%nat, normalized_world) /\
  fst (process_data 0 normalized_world)
  = Raise (AttributeError "'RangeIndex' object has no attribute 'tzinfo'").
Proof.
  split; [apply process_data_sample|].
  assert (H : process_data 0 normalized_world =
    (Raise (AttributeError "'RangeIndex' object has no attribute 'tzinfo'"), normalized_world))
    by (vm_compute; reflexivity).
  rewrite H. split; [discriminate|reflexivity].
Qed.

(** Nor does it help to keep the timestamps as the index next to the
    explicit column: then the column is in the way of [reset_index]. *)
Example process_data_materialized_frame :
  fst (process_data 0 (snd (alloc materialized_frame empty_world)))
  = Raise (ValueError "cannot insert Datetime, already exists").
Proof. vm_compute. reflexivity. Qed.

Lemma sample_frame_is_provider_series : provider_series sample_frame sample_bars.
Proof.
  exists "Datetime", None, sample_columns.
  split; [reflexivity|]. split; [right; reflexivity|]. split; [discriminate|].
  split; [repeat split|]. repeat constructor.
Qed.

Lemma process_data_keeps_order_sets_zone_witness :
  let utc_frame :=
    mkDF (DatetimeIndex (Some "Datetime") (Some "UTC") sample_times) sample_columns in
  heap sample_world !! 0%nat = Some sample_frame /\
  provider_series sample_frame sample_bars /\
  chronological (map bar_time sample_bars) /\
  index_tzinfo (df_index sample_frame) = Ok None /\
  tz_localize_UTC (df_index sample_frame) = Ok (df_index utc_frame) /\
  exists w' df' out,
    process_data 0 sample_world = (Ok 0%nat, w') /\
    heap w' !! 0%nat = Some df' /\
    nrows df' = nrows sample_frame /\
    nrows df' = length sample_bars /\
    timestamp_column df' = Some (Some "US/Eastern", out) /\
    out = map bar_time sample_bars /\
    chronological out /\
    df_getitem df' "Datetime" = Ok (DatetimeCol (Some "US/Eastern") out) /\
    index_tzinfo (df_index utc_frame) = Ok (Some "UTC") /\
    process_data 0 (set_heap sample_world (<[0%nat := utc_frame]> (heap sample_world)))
    = (Ok 0%nat, w').
Proof.
  intros utc_frame.
  assert (Hdf : heap sample_world !! 0%nat = Some sample_frame) by (vm_compute; reflexivity).
  assert (Hsorted : chronological (map bar_time sample_bars))
    by (unfold chronological; cbn [map sample_bars bar_time];
        repeat (constructor; try (intros H; discriminate H))).
  assert (Hnaive : index_tzinfo (df_index sample_frame) = Ok None) by reflexivity.
  assert (Hutc : tz_localize_UTC (df_index sample_frame) = Ok (df_index utc_frame))
    by reflexivity.
  split; [exact Hdf|]. split; [exact sample_frame_is_provider_series|].
  split; [exact Hsorted|]. split; [exact Hnaive|]. split; [exact Hutc|].
  destruct (process_data_keeps_order_sets_zone sample_world 0 sample_frame sample_bars
              Hdf sample_frame_is_provider_series Hsorted)
    as (w' & df' & out & Hrun & Hheap & Hrows & Hlen & Hcol & Hout & Hord & Hget & Hzone).
  exists w', df', out.
  repeat (split; [assumption|]).
  exact (Hzone (df_index utc_frame) Hnaive Hutc).
Defined.

(** The order is the provider's: the Normalizer does not sort, so bars
    handed over latest first, which the data model rules out, come out
    latest first. *)
Lemma normalizer_does_not_sort :
  let w := snd (alloc unsorted_frame empty_world) in
  nrows unsorted_frame <> 0%nat /\
  exists w' df out,
    process_data 0 w = (Ok 0%nat, w') /\
    heap w' !! 0%nat = Some df /\
    timestamp_column df = Some (Some "US/Eastern", out) /\
    ~ chronological out.
Proof.
  intros w. split; [discriminate|].
  exists (snd (process_data 0 w)).
  exists (mkDF (RangeIndex 2)
           (("Datetime", DatetimeCol (Some "US/Eastern")
                           [1704205860000000000; 1704205800000000000])
              :: df_columns unsorted_frame)).
  exists [1704205860000000000; 1704205800000000000].
  split; [vm_compute; reflexivity|]. split; [vm_compute; reflexivity|].
  split; [reflexivity|].
  unfold chronological. intros Hsorted.
  inversion Hsorted as [|a l _ Hhd]; subst.
  inversion Hhd as [|b l' Hle]; subst.
  apply Hle. reflexivity.
Qed.

Lemma process_data_mutates_only_its_argument_witness :
  process_data 0 sample_world = (Ok 0%nat, normalized_world) /\
  (forall l, l <> 0%nat -> heap normalized_world !! l = heap sample_world !! l) /\
  next_loc normalized_world = next_loc sample_world /\
  ui normalized_world = ui sample_world /\
  requests normalized_world = requests sample_world /\
  clock_reads normalized_world = clock_reads sample_world /\
  (forall r, Ok 0%nat = Ok r ->
     r = 0%nat /\ heap normalized_world !! 0%nat <> heap sample_world !! 0%nat).
Proof.
  assert (Hrun : process_data 0 sample_world = (Ok 0%nat, normalized_world))
    by (vm_compute; reflexivity).
  split; [exact Hrun|].
  exact (process_data_mutates_only_its_argument sample_world 0 _ _ Hrun).
Defined.

(** C6, as stated, fails: the caller's frame is not what it was before
    the call. *)
Lemma normalizer_modifies_its_input :
  heap sample_world !! 0%nat = Some sample_frame /\
  fst (process_data 0 sample_world) = Ok 0%nat /\
  heap (snd (process_data 0 sample_world)) !! 0%nat = Some normalized_frame /\
  normalized_frame <> sample_frame.
Proof.
  split; [vm_compute; reflexivity|]. split; [vm_compute; reflexivity|].
  split; [vm_compute; reflexivity|]. discriminate.
Qed.

(** ** Enricher *)

Lemma enricher_appends_indicator_columns_witness :
  let e := tracing_ext in
  let close := FloatCol [100; 102; 101; 105; 107]%float in
  let added :=
    [ ("SMA_20", FloatCol (reindex 5 (sma_indicator e close 20)));
      ("EMA_20", FloatCol (reindex 5 (ema_indicator e close 20)));
      ("RSI", FloatCol (reindex 5 (rsi e close 14)));
      ("MACD", FloatCol (reindex 5 (macd e close 26 12)));
      ("MACD_Signal", FloatCol (reindex 5 (macd_signal e close 26 12 9))) ] in
  let df' := mkDF (RangeIndex 5) (df_columns normalized_frame ++ added) in
  heap normalized_world !! 0%nat = Some normalized_frame /\
  lookup_col "Close" (df_columns normalized_frame) = Some close /\
  Forall (fun name => has_col name (df_columns normalized_frame) = false)
         ["SMA_20"; "EMA_20"; "RSI"; "MACD"; "MACD_Signal"] /\
  bind (add_technical_indicators e 0) (add_more_indicators e) normalized_world
    = (Ok 0%nat, set_heap normalized_world (<[0%nat := df']> (heap normalized_world))) /\
  nrows df' = nrows normalized_frame /\
  take (length (df_columns normalized_frame)) (df_columns df') = df_columns normalized_frame /\
  drop (length (df_columns normalized_frame)) (df_columns df') = added /\
  Forall (fun c => col_len c.2 = nrows normalized_frame) added /\
  (forall name vs,
      In (name, vs) (indicator_series e close) ->
      exists out,
        lookup_col name (df_columns df') = Some (FloatCol out) /\
        aligned_to (nrows normalized_frame) vs out /\
        (length vs = nrows normalized_frame -> out = vs)).
Proof.
  intros e close added df'.
  assert (Hdf : heap normalized_world !! 0%nat = Some normalized_frame)
    by (vm_compute; reflexivity).
  assert (Hclose : lookup_col "Close" (df_columns normalized_frame) = Some close)
    by reflexivity.
  assert (Hfresh : Forall (fun name => has_col name (df_columns normalized_frame) = false)
                          ["SMA_20"; "EMA_20"; "RSI"; "MACD"; "MACD_Signal"])
    by (repeat constructor).
  split; [exact Hdf|]. split; [exact Hclose|]. split; [exact Hfresh|].
  exact (enricher_appends_indicator_columns e normalized_world 0 normalized_frame close
           Hdf Hclose Hfresh).
Defined.

(** The library's values in the frame: with indicator functions that
    return the closes plus a number made of their window arguments, the
    five stored columns are the closes plus 20, 40, 42, 2612 and 261209,
    which shows the Close column, the windows 20, 20, 14, (26, 12) and
    (26, 12, 9), and every value the library returned. *)
Example enricher_stores_library_values :
  exists w' df',
    bind (add_technical_indicators tracing_ext 0) (add_more_indicators tracing_ext)
         normalized_world = (Ok 0%nat, w') /\
    heap w' !! 0%nat = Some df' /\
    lookup_col "Close" (df_columns df') = Some (FloatCol [100; 102; 101; 105; 107]%float) /\
    lookup_col "SMA_20" (df_columns df') = Some (FloatCol [120; 122; 121; 125; 127]%float) /\
    lookup_col "EMA_20" (df_columns df') = Some (FloatCol [140; 142; 141; 145; 147]%float) /\
    lookup_col "RSI" (df_columns df') = Some (FloatCol [142; 144; 143; 147; 149]%float) /\
    lookup_col "MACD" (df_columns df')
    = Some (FloatCol [2712; 2714; 2713; 2717; 2719]%float) /\
    lookup_col "MACD_Signal" (df_columns df')
    = Some (FloatCol [261309; 261311; 261310; 261314; 261316]%float).
Proof.
  eexists. eexists. split; [vm_compute; reflexivity|].
  split; [vm_compute; reflexivity|]. repeat split.
Qed.

(** ** Metrics *)

Lemma sample_is_normalized_series : normalized_series normalized_frame sample_bars.
Proof. repeat split. Qed.

Lemma calculate_metrics_on_series_witness :
  let e := sample_ext "DELISTED" "BROKEN" in
  heap normalized_world !! 0%nat = Some normalized_frame /\
  normalized_series normalized_frame sample_bars /\
  sample_bars <> [] /\
  exists first final high low,
    head sample_bars = Some first /\ last sample_bars = Some final /\
    let change := (bar_close final - bar_close first)%float in
    let pct_change := (change / bar_close first * 100)%float in
    calculate_metrics e 0 normalized_world =
      (Ok (SFloat (bar_close final), SFloat change, pct_change,
           SFloat high, SFloat low, SInt (int64_sum (map bar_volume sample_bars))),
       normalized_world) /\
    ((exists b, In b sample_bars /\ is_nan (bar_high b) = false) ->
       is_nan high = false /\
       (exists b, In b sample_bars /\ bar_high b = high) /\
       forall b, In b sample_bars -> (high <? bar_high b)%float = false) /\
    ((forall b, In b sample_bars -> is_nan (bar_high b) = true) -> is_nan high = true) /\
    ((exists b, In b sample_bars /\ is_nan (bar_low b) = false) ->
       is_nan low = false /\
       (exists b, In b sample_bars /\ bar_low b = low) /\
       forall b, In b sample_bars -> (bar_low b <? low)%float = false) /\
    ((forall b, In b sample_bars -> is_nan (bar_low b) = true) -> is_nan low = true) /\
    (Forall (fun b => 0 <= bar_volume b) sample_bars ->
       Zsum (map bar_volume sample_bars) < 2 ^ 63 ->
       int64_sum (map bar_volume sample_bars) = Zsum (map bar_volume sample_bars)) /\
    (chronological (map bar_time sample_bars) ->
       forall b, In b sample_bars -> bar_time first <= bar_time b <= bar_time final) /\
    (map bar_close sample_bars = [100; 102; 101; 105; 107]%float ->
       bar_close final = 107%float /\ change = 7%float /\
       pct_change = 0x1.c000000000001p+2%float /\ pct_change <> 7%float).
Proof.
  intros e.
  assert (Hdf : heap normalized_world !! 0%nat = Some normalized_frame)
    by (vm_compute; reflexivity).
  assert (Hseries : normalized_series normalized_frame sample_bars) by (repeat split).
  assert (Hne : sample_bars <> []) by discriminate.
  split; [exact Hdf|]. split; [exact Hseries|]. split; [exact Hne|].
  exact (calculate_metrics_on_series e normalized_world 0 normalized_frame sample_bars
           Hdf Hseries Hne).
Defined.

(** C2, as stated, fails in two places.  In its example, for closes
    [100,102,101,105,107], the Metrics Calculator returns last_close =
    107 and change = 7, but pct_change is 7.000000000000001, not 7.0;
    high, low and volume are the largest High, the smallest Low and the
    total Volume.  And the volume is not always the sum of the Volume
    column: on a chronological series of two bars with a volume of 2^62
    each, the volume returned is -2^63, where the sum is 2^63. *)
Lemma metrics_claim_fails :
  let e := sample_ext "DELISTED" "BROKEN" in
  (lookup_col "Close" (df_columns normalized_frame)
   = Some (FloatCol [100; 102; 101; 105; 107]%float) /\
   exists pct_change,
     calculate_metrics e 0 normalized_world =
       (Ok (SFloat 107, SFloat 7, pct_change, SFloat 108, SFloat 99, SInt 6600),
        normalized_world) /\
     pct_change = 0x1.c000000000001p+2%float /\
     pct_change <> 7%float /\
     (7 <? pct_change)%float = true) /\
  (normalized_series heavy_volume_frame heavy_bars /\
   chronological (map bar_time heavy_bars) /\
   Forall (fun b => 0 <= bar_volume b) heavy_bars /\
   Zsum (map bar_volume heavy_bars) = 9223372036854775808 /\
   exists volume,
     calculate_metrics e 0 heavy_volume_world =
       (Ok (SFloat 2, SFloat 1, 100%float, SFloat 3, SFloat 1, SInt volume),
        heavy_volume_world) /\
     volume = -9223372036854775808 /\
     volume <> Zsum (map bar_volume heavy_bars)).
Proof.
  intros e. split.
  - split; [reflexivity|].
    exists 0x1.c000000000001p+2%float.
    split; [vm_compute; reflexivity|]. split; [reflexivity|].
    split; [|vm_compute; reflexivity].
    intros H. apply (f_equal Prim2SF) in H. vm_compute in H. discriminate H.
  - split; [repeat split|].
    split; [unfold chronological; cbn [map heavy_bars bar_time];
            repeat (constructor; try (intros H; discriminate H))|].
    split; [repeat constructor; discriminate|].
    split; [vm_compute; reflexivity|].
    exists (-9223372036854775808).
    split; [vm_compute; reflexivity|]. split; [reflexivity|].
    vm_compute. discriminate.
Qed.

(** NaN is skipped by the two reductions: a High column that starts with
    a NaN has the other value as its maximum. *)
Example high_skips_nan :
  series_max (FloatCol [nan; 2]%float) = SFloat 2 /\
  series_min (FloatCol [nan; 2]%float) = SFloat 2.
Proof. split; vm_compute; reflexivity. Qed.

(** The first and last rows are taken by position: on the two bars that
    were delivered latest first, last_close is the Close of the earlier
    bar and change is negative. *)
Example last_row_is_positional :
  let e := sample_ext "DELISTED" "BROKEN" in
  let w := snd (process_data 0 (snd (alloc unsorted_frame empty_world))) in
  calculate_metrics e 0 w
  = (Ok (SFloat 100, SFloat (-2), (-0x1.f5f5f5f5f5f5fp+0)%float,
         SFloat 103, SFloat 99, SInt 2500), w).
Proof. vm_compute. reflexivity. Qed.

(** ** Render pass *)

Lemma render_pass_aborts_when_primary_fails_witness :
  let e := sample_ext "AAPL" "BROKEN" in
  let sel := sample_selection "AAPL" "MSFT" in
  let w0 := snd (chart_parameters empty_world) in
  let w1 := snd (auto_refresh e w0) in
  let w2 := snd (fetch_stock_data e "AAPL" "1d" "1m" w1) in
  let w3 := snd (fetch_stock_data e "MSFT" "1d" "1m" w2) in
  let w4 := snd (process_data 1 w3) in
  chart_parameters empty_world = (Ok tt, w0) /\
  auto_refresh e w0 = (Ok 20, w1) /\
  fetch_stock_data e (ticker sel) (time_period sel) (interval sel) w1 = (Ok None, w2) /\
  fetch_stock_data e (compare_ticker sel) (time_period sel) (interval sel) w2
    = (Ok (Some 1%nat), w3) /\
  process_data 1 w3 = (Ok 1%nat, w4) /\
  render_pass e sel empty_world =
    (Raise (TypeError "'NoneType' object is not subscriptable"), w4) /\
  ui w4 = ui w2 /\
  requests w4 = requests w3.
Proof.
  intros e sel w0 w1 w2 w3 w4.
  assert (H0 : chart_parameters empty_world = (Ok tt, w0)) by (vm_compute; reflexivity).
  assert (H1 : auto_refresh e w0 = (Ok 20, w1)) by (vm_compute; reflexivity).
  assert (H2 : fetch_stock_data e (ticker sel) (time_period sel) (interval sel) w1
               = (Ok None, w2)) by (vm_compute; reflexivity).
  assert (H3 : fetch_stock_data e (compare_ticker sel) (time_period sel) (interval sel) w2
               = (Ok (Some 1%nat), w3)) by (vm_compute; reflexivity).
  assert (H4 : process_data 1 w3 = (Ok 1%nat, w4)) by (vm_compute; reflexivity).
  repeat (split; [assumption|]).
  exact (render_pass_aborts_when_primary_fails e sel empty_world w0 20 w1 w2 1 w3 w4
           H0 H1 H2 H3 H4).
Defined.

(** The same pass, spelled out: after the sidebar controls and the
    countdown the page holds the warning about the primary ticker and
    nothing else; the provider was asked for the two selected tickers and
    for no watchlist symbol. *)
Example render_pass_primary_no_data :
  let r := render_pass (sample_ext "AAPL" "BROKEN") (sample_selection "AAPL" "MSFT") empty_world in
  fst r = Raise (TypeError "'NoneType' object is not subscriptable") /\
  drop 12 (ui (snd r))
  = [StWarning "No data found for AAPL. It may be delisted or there is no price data available."] /\
  requests (snd r) = [ReqPeriod "AAPL" "1d" "1m"; ReqPeriod "MSFT" "1d" "1m"].
Proof. vm_compute. repeat split. Qed.

(** The same with a provider that raises for the primary ticker. *)
Example render_pass_primary_error :
  let r := render_pass (sample_ext "DELISTED" "AAPL") (sample_selection "AAPL" "MSFT") empty_world in
  fst r = Raise (TypeError "'NoneType' object is not subscriptable") /\
  drop 12 (ui (snd r)) = [StError "Error fetching data for AAPL: Connection timed out"] /\
  requests (snd r) = [ReqPeriod "AAPL" "1d" "1m"; ReqPeriod "MSFT" "1d" "1m"].
Proof. vm_compute. repeat split. Qed.

(** Scenario 3 of the spec, the other way round: the comparison ticker
    fails, the primary ticker's content is complete, the comparison chart
    is absent, and the pass runs to its end: sidebar controls and
    countdown (12 widgets), main content (15), the error message, the side
    panel header with a readout for each of the 12 symbols that have data
    and the error message for the one that has not, and the About box. *)
Example render_pass_comparison_error :
  let r := render_pass (sample_ext "DELISTED" "MSFT") (sample_selection "AAPL" "MSFT") empty_world in
  fst r = Ok tt /\
  length (ui (snd r)) = 44%nat /\
  ui (snd r) !! 27%nat = Some (StError "Error fetching data for MSFT: Connection timed out") /\
  ui (snd r) !! 28%nat = Some (StHeader Sidebar "Real-Time Stock Prices") /\
  length (requests (snd r)) = 15%nat.
Proof. vm_compute. repeat split. Qed.

(** * Further properties of the script *)

(** ** What a fetch touches *)

Lemma add_ui_nil w : add_ui w [] = w.
Proof. destruct w. unfold add_ui. cbn. rewrite app_nil_r. reflexivity. Qed.

Lemma add_ui_app w a b : add_ui (add_ui w a) b = add_ui w (a ++ b).
Proof. unfold add_ui. cbn. rewrite app_assoc. reflexivity. Qed.

(** X1: a call of the Fetcher reads the clock once, asks the provider at
    most once, shows at most one message, and leaves every frame that is
    already in the store as it is; a frame it hands out is a new object,
    stored at the first free reference, and comes with no message. *)
Theorem fetch_stock_data_effects (ext : Externals) (tkr period itv : string) (w : World) :
  exists r w',
    fetch_stock_data ext tkr period itv w = (Ok r, w') /\
    clock_reads w' = S (clock_reads w) /\
    (requests w' = requests w \/ exists req, requests w' = requests w ++ [req]) /\
    (ui w' = ui w \/ exists msg, ui w' = ui w ++ [msg]) /\
    (forall l, l <> next_loc w -> heap w' !! l = heap w !! l) /\
    (forall data, r = Some data ->
       data = next_loc w /\ next_loc w' = S data /\ ui w' = ui w /\
       exists req, requests w' = requests w ++ [req]) /\
    (r = None -> exists msg, ui w' = ui w ++ [msg]).
Proof.
  destruct (fetch_cases ext tkr period itv w)
    as [(e & H)|[(req & e & Hresp & H)|[(req & df & Hresp & Hempty & H)
                                       |(req & df & Hresp & Hempty & H)]]];
    rewrite H; eexists; eexists; (split; [reflexivity|]);
    cbn [heap next_loc ui requests clock_reads];
    (split; [reflexivity|]).
  - split; [left; reflexivity|]. split; [right; eauto|].
    split; [reflexivity|]. split; [discriminate|]. eauto.
  - split; [right; eauto|]. split; [right; eauto|].
    split; [reflexivity|]. split; [discriminate|]. eauto.
  - split; [right; eauto|]. split; [right; eauto|].
    split; [intros l Hl; apply lookup_insert_ne; congruence|].
    split; [discriminate|]. eauto.
  - split; [right; eauto|]. split; [left; reflexivity|].
    split; [intros l Hl; apply lookup_insert_ne; congruence|].
    split; [|discriminate].
    intros data Hd. inversion Hd; subst. eauto.
Qed.

(** ** More on the Normalizer *)

(** X2: when a column already carries the label the index would get,
    [process_data] raises ValueError at [reset_index], after it has
    replaced the index by its US/Eastern conversion: the caller's frame is
    left half-normalized (zone converted, timestamps still the index).
    Calling again fails in the same way and changes nothing more. *)
Theorem process_data_label_clash w data name tz vs cols :
  heap w !! data = Some (mkDF (DatetimeIndex name tz vs) cols) ->
  has_col (index_label name cols) cols = true ->
  exists w',
    process_data data w =
      (Raise (ValueError ("cannot insert " +:+ index_label name cols +:+ ", already exists")),
       w') /\
    heap w' !! data = Some (mkDF (DatetimeIndex name (Some "US/Eastern") vs) cols) /\
    (forall l, l <> data -> heap w' !! l = heap w !! l) /\
    process_data data w' =
      (Raise (ValueError ("cannot insert " +:+ index_label name cols +:+ ", already exists")),
       w').
Proof.
  intros Hdf Hclash.
  rewrite (process_data_run _ _ _ _ _ _ Hdf). cbv zeta. rewrite Hclash.
  eexists. split; [reflexivity|].
  assert (Hnew : heap (set_heap w (<[data:=mkDF (DatetimeIndex name (Some "US/Eastern") vs) cols]>
                                     (heap w))) !! data
                 = Some (mkDF (DatetimeIndex name (Some "US/Eastern") vs) cols))
    by apply lookup_insert_eq.
  split; [exact Hnew|]. split.
  - intros l Hl. cbn [heap set_heap]. apply lookup_insert_ne. congruence.
  - rewrite (process_data_run _ _ _ _ _ _ Hnew). cbv zeta. rewrite Hclash.
    rewrite set_heap_twice. cbn [heap set_heap]. rewrite insert_insert_eq. reflexivity.
Qed.

(** X3: the Normalizer does not touch the data columns.  On a frame
    indexed by timestamps, with no column in the way of the index label
    and none called "Date", the result has the same number of rows and its
    columns are the timestamp column followed by the columns it had,
    unchanged and in the same order; the timestamp column is called
    "Datetime" when the index was called "Date", and keeps the index label
    otherwise. *)
Theorem process_data_keeps_columns w data name tz vs cols :
  heap w !! data = Some (mkDF (DatetimeIndex name tz vs) cols) ->
  has_col (index_label name cols) cols = false ->
  has_col "Date" cols = false ->
  exists w' label,
    process_data data w = (Ok data, w') /\
    heap w' !! data
    = Some (mkDF (RangeIndex (length vs))
                 ((label, DatetimeCol (Some "US/Eastern") vs) :: cols)) /\
    label = (if String.eqb (index_label name cols) "Date" then "Datetime"
             else index_label name cols) /\
    (forall n, n <> label -> lookup_col n ((label, DatetimeCol (Some "US/Eastern") vs) :: cols)
                             = lookup_col n cols).
Proof.
  intros Hdf Hfree Hdate.
  rewrite (process_data_run _ _ _ _ _ _ Hdf). cbv zeta. rewrite Hfree.
  eexists. eexists. split; [reflexivity|].
  split; [|split; [reflexivity|]].
  - cbn [heap set_heap]. rewrite lookup_insert_eq. unfold df_rename.
    cbn [df_index df_columns map]. rewrite (rename_absent _ _ _ Hdate). reflexivity.
  - intros n Hn. cbn [lookup_col].
    destruct (String.eqb _ n) eqn:Heq; [|reflexivity].
    apply String.eqb_eq in Heq. congruence.
Qed.

Lemma process_data_label_clash_witness :
  heap materialized_world !! 0%nat
  = Some (mkDF (DatetimeIndex (Some "Datetime") (Some "US/Eastern") sample_times)
               (("Datetime", DatetimeCol (Some "US/Eastern") sample_times) :: sample_columns)) /\
  exists w',
    process_data 0 materialized_world
    = (Raise (ValueError "cannot insert Datetime, already exists"), w') /\
    heap w' !! 0%nat = Some materialized_frame /\
    (forall l, l <> 0%nat -> heap w' !! l = heap materialized_world !! l) /\
    process_data 0 w' = (Raise (ValueError "cannot insert Datetime, already exists"), w').
Proof.
  split; [vm_compute; reflexivity|].
  apply (process_data_label_clash materialized_world 0%nat
           (Some "Datetime") (Some "US/Eastern") sample_times
           (("Datetime", DatetimeCol (Some "US/Eastern") sample_times) :: sample_columns));
    vm_compute; reflexivity.
Defined.

Lemma process_data_keeps_columns_witness :
  heap sample_world !! 0%nat
  = Some (mkDF (DatetimeIndex (Some "Datetime") None sample_times) sample_columns) /\
  exists w' label,
    process_data 0 sample_world = (Ok 0%nat, w') /\
    heap w' !! 0%nat
    = Some (mkDF (RangeIndex (length sample_times))
                 ((label, DatetimeCol (Some "US/Eastern") sample_times) :: sample_columns)) /\
    label = "Datetime" /\
    (forall n, n <> label ->
       lookup_col n ((label, DatetimeCol (Some "US/Eastern") sample_times) :: sample_columns)
       = lookup_col n sample_columns).
Proof.
  split; [vm_compute; reflexivity|].
  apply (process_data_keeps_columns sample_world 0%nat (Some "Datetime") None
           sample_times sample_columns); vm_compute; reflexivity.
Defined.

(** ** More on the Metrics Calculator *)

Lemma read_only_bind {A B} (m : M A) (k : A -> M B) :
  read_only m -> (forall a, read_only (k a)) -> read_only (bind m k).
Proof.
  intros Hm Hk w. unfold bind. specialize (Hm w).
  destruct (m w) as [[a|e] w1]; cbn [snd] in Hm; subst w1; [apply Hk|reflexivity].
Qed.

Lemma read_only_lift {A} (r : Result A) : read_only (lift r).
Proof. intros w. reflexivity. Qed.

Lemma read_only_ret {A} (a : A) : read_only (ret a).
Proof. intros w. reflexivity. Qed.

Lemma read_only_subscript data name : read_only (subscript data name).
Proof.
  destruct data as [r|]; [|intros w; reflexivity].
  apply read_only_bind; [|intros df; apply read_only_lift].
  intros w. unfold load. destruct (heap w !! r); reflexivity.
Qed.

Lemma read_only_getitem data name : read_only (getitem data name).
Proof. apply read_only_subscript. Qed.

(** Division by a zero, in binary64. *)
Lemma is_zero_Prim2SF (x : float) :
  is_zero x = true -> exists s, Prim2SF x = S754_zero s.
Proof.
  unfold is_zero. rewrite FloatAxioms.eqb_spec.
  replace (Prim2SF PrimFloat.zero) with (S754_zero false) by (vm_compute; reflexivity).
  unfold SFeqb, SFcompare.
  destruct (Prim2SF x) as [s|s| |s m e]; [eauto| | |];
    try destruct s; discriminate.
Qed.

Lemma is_infinity_Prim2SF (x : float) s :
  Prim2SF x = S754_infinity s -> is_infinity x = true.
Proof.
  intros Hx. unfold is_infinity.
  rewrite FloatAxioms.eqb_spec, FloatAxioms.abs_spec, Hx.
  replace (Prim2SF PrimFloat.infinity) with (S754_infinity false) by (vm_compute; reflexivity).
  reflexivity.
Qed.

Lemma percent_of_zero_base (x y : float) :
  is_zero y = true ->
  let pct := (x / y * 100)%float in
  is_finite pct = false /\
  (is_zero x = true -> is_nan pct = true) /\
  (is_nan x = false -> is_zero x = false -> is_infinity pct = true).
Proof.
  intros Hy pct. apply is_zero_Prim2SF in Hy as [sy Hy].
  assert (Hpct : Prim2SF pct
                 = SFmul prec emax (SFdiv prec emax (Prim2SF x) (S754_zero sy))
                         (S754_finite false 7036874417766400 (-46))).
  { subst pct. rewrite FloatAxioms.mul_spec, FloatAxioms.div_spec, Hy.
    replace (Prim2SF 100) with (S754_finite false 7036874417766400 (-46))
      by (vm_compute; reflexivity).
    reflexivity. }
  assert (Hcases : (Prim2SF x = S754_nan \/ exists s, Prim2SF x = S754_zero s) /\
                   Prim2SF pct = S754_nan
                   \/ (Prim2SF x <> S754_nan /\ forall s, Prim2SF x <> S754_zero s) /\
                      exists s, Prim2SF pct = S754_infinity s).
  { rewrite Hpct. unfold SFdiv, SFmul.
    destruct (Prim2SF x) as [s|s| |s m e].
    - left. eauto.
    - right. split; [split; [discriminate|intros ?; discriminate]|eauto].
    - left. eauto.
    - right. split; [split; [discriminate|intros ?; discriminate]|eauto]. }
  clearbody pct. clear Hpct.
  unfold is_finite.
  destruct Hcases as [[Hx Hnan]|[[Hx1 Hx2] [s Hinf]]].
  - apply is_nan_Prim2SF in Hnan. rewrite Hnan. split; [reflexivity|].
    split; [reflexivity|].
    intros Hxn Hxz. exfalso. destruct Hx as [Hx|[s Hx]].
    + apply is_nan_Prim2SF in Hx. congruence.
    + unfold is_zero in Hxz. rewrite FloatAxioms.eqb_spec, Hx in Hxz.
      replace (Prim2SF PrimFloat.zero) with (S754_zero false) in Hxz by (vm_compute; reflexivity).
      discriminate.
  - rewrite (is_infinity_Prim2SF _ _ Hinf). rewrite orb_true_r.
    split; [reflexivity|]. split; [|reflexivity].
    intros Hxz. apply is_zero_Prim2SF in Hxz as [sx Hxz]. exfalso. exact (Hx2 _ Hxz).
Qed.

Section MetricsMore.
Context (ext : Externals).

(** X4: [calculate_metrics] only reads.  Whatever the frame holds and
    whether the call returns or raises, the store, the page, the request
    log and the clock are the same after the call as before it. *)
Theorem calculate_metrics_read_only data : read_only (calculate_metrics ext data).
Proof.
  unfold calculate_metrics.
  repeat (apply read_only_bind;
          [first [apply read_only_getitem | apply read_only_lift]|intros ?]).
  apply read_only_ret.
Qed.

(** The Metrics Calculator on a frame whose Close column holds floats. *)
Lemma calculate_metrics_run w data df cs first final h l v :
  heap w !! data = Some df ->
  lookup_col "Close" (df_columns df) = Some (FloatCol cs) ->
  head cs = Some first -> last cs = Some final ->
  lookup_col "High" (df_columns df) = Some h ->
  lookup_col "Low" (df_columns df) = Some l ->
  lookup_col "Volume" (df_columns df) = Some v ->
  calculate_metrics ext data w =
    match series_sum (np_sum ext) v with
    | Ok volume =>
        (Ok (SFloat final, SFloat (final - first)%float,
             ((final - first) / first * 100)%float,
             series_max h, series_min l, volume), w)
    | Raise e => (Raise e, w)
    end.
Proof.
  intros Hdf Hclose Hhead Hlast Hhigh Hlow Hvolume.
  pose proof (iloc_last_float id cs final Hlast) as Hl.
  pose proof (iloc_first_float id cs first Hhead) as Hf.
  rewrite map_id in Hl, Hf. unfold id in Hl, Hf.
  unfold calculate_metrics.
  rewrite (bind_ok _ _ _ _ _ (getitem_ok _ _ _ _ _ Hdf Hclose)).
  unfold bind at 1. unfold lift at 1. rewrite Hl.
  rewrite (bind_ok _ _ _ _ _ (getitem_ok _ _ _ _ _ Hdf Hclose)).
  unfold bind at 1. unfold lift at 1. rewrite Hf.
  unfold bind at 1. unfold lift at 1. cbn [py_sub].
  unfold bind at 1. unfold lift at 1. cbn [py_truediv].
  rewrite (bind_ok _ _ _ _ _ (getitem_ok _ _ _ _ _ Hdf Hhigh)).
  rewrite (bind_ok _ _ _ _ _ (getitem_ok _ _ _ _ _ Hdf Hlow)).
  rewrite (bind_ok _ _ _ _ _ (getitem_ok _ _ _ _ _ Hdf Hvolume)).
  unfold bind at 1. unfold lift at 1.
  destruct (series_sum (np_sum ext) v); reflexivity.
Qed.

Lemma getitem_missing w data df name :
  heap w !! data = Some df ->
  lookup_col name (df_columns df) = None ->
  getitem data name w = (Raise (KeyError name), w).
Proof.
  intros Hdf Hc. unfold getitem, subscript.
  rewrite (bind_ok _ _ _ _ _ (load_ok _ _ _ Hdf)).
  unfold lift, df_getitem. rewrite Hc. reflexivity.
Qed.

(** X5: how [calculate_metrics] fails.  Without a Close column it raises
    KeyError 'Close'; with a Close column of no rows it raises IndexError
    (positional access out of bounds), before it looks at any other
    column.  With float closes present, the first of High, Low and Volume
    that is missing is reported as a KeyError, in that order, and a
    Volume column of timestamps is a TypeError from [sum]. *)
Theorem calculate_metrics_failures w data df :
  heap w !! data = Some df ->
  let cols := df_columns df in
  let outcome := fst (calculate_metrics ext data w) in
  (lookup_col "Close" cols = None -> outcome = Raise (KeyError "Close")) /\
  (forall c, lookup_col "Close" cols = Some c -> col_len c = 0%nat ->
     outcome = Raise out_of_bounds) /\
  (forall cs, lookup_col "Close" cols = Some (FloatCol cs) -> cs <> [] ->
     (lookup_col "High" cols = None -> outcome = Raise (KeyError "High")) /\
     (lookup_col "High" cols <> None -> lookup_col "Low" cols = None ->
        outcome = Raise (KeyError "Low")) /\
     (lookup_col "High" cols <> None -> lookup_col "Low" cols <> None ->
        lookup_col "Volume" cols = None -> outcome = Raise (KeyError "Volume")) /\
     (lookup_col "High" cols <> None -> lookup_col "Low" cols <> None ->
        forall tz ts, lookup_col "Volume" cols = Some (DatetimeCol tz ts) ->
        outcome = Raise (TypeError
          "'DatetimeArray' with dtype datetime64[ns] does not support reduction 'sum'"))).
Proof.
  intros Hdf cols outcome. subst cols outcome. split; [|split].
  - intros Hclose. unfold calculate_metrics.
    unfold bind at 1. rewrite (getitem_missing _ _ _ _ Hdf Hclose). reflexivity.
  - intros c Hclose Hlen. unfold calculate_metrics.
    rewrite (bind_ok _ _ _ _ _ (getitem_ok _ _ _ _ _ Hdf Hclose)).
    unfold bind at 1. unfold lift at 1. unfold iloc_last. rewrite Hlen. reflexivity.
  - intros cs Hclose Hne.
    destruct (head cs) as [first|] eqn:Hhead; [|destruct cs; [congruence|discriminate]].
    destruct (last cs) as [final|] eqn:Hlast; [|apply last_None in Hlast; congruence].
    pose proof (iloc_last_float id cs final Hlast) as Hl.
    pose proof (iloc_first_float id cs first Hhead) as Hf.
    rewrite map_id in Hl, Hf. unfold id in Hl, Hf.
    assert (Hprefix :
      calculate_metrics ext data w =
      bind (getitem data "High") (fun h =>
        bind (getitem data "Low") (fun l =>
          bind (getitem data "Volume") (fun v =>
            bind (lift (series_sum (np_sum ext) v)) (fun volume =>
              ret (SFloat final, SFloat (final - first)%float,
                   ((final - first) / first * 100)%float,
                   series_max h, series_min l, volume))))) w).
    { unfold calculate_metrics.
      rewrite (bind_ok _ _ _ _ _ (getitem_ok _ _ _ _ _ Hdf Hclose)).
      unfold bind at 1. unfold lift at 1. rewrite Hl.
      rewrite (bind_ok _ _ _ _ _ (getitem_ok _ _ _ _ _ Hdf Hclose)).
      unfold bind at 1. unfold lift at 1. rewrite Hf.
      unfold bind at 1. unfold lift at 1. cbn [py_sub].
      unfold bind at 1. unfold lift at 1. cbn [py_truediv]. reflexivity. }
    rewrite Hprefix. clear Hprefix.
    split; [|split; [|split]].
    + intros Hhigh. unfold bind at 1.
      rewrite (getitem_missing _ _ _ _ Hdf Hhigh). reflexivity.
    + intros Hhigh Hlow.
      destruct (lookup_col "High" (df_columns df)) as [h|] eqn:Hh; [|congruence].
      rewrite (bind_ok _ _ _ _ _ (getitem_ok _ _ _ _ _ Hdf Hh)).
      unfold bind at 1. rewrite (getitem_missing _ _ _ _ Hdf Hlow). reflexivity.
    + intros Hhigh Hlow Hvol.
      destruct (lookup_col "High" (df_columns df)) as [h|] eqn:Hh; [|congruence].
      destruct (lookup_col "Low" (df_columns df)) as [l|] eqn:Hlo; [|congruence].
      rewrite (bind_ok _ _ _ _ _ (getitem_ok _ _ _ _ _ Hdf Hh)).
      rewrite (bind_ok _ _ _ _ _ (getitem_ok _ _ _ _ _ Hdf Hlo)).
      unfold bind at 1. rewrite (getitem_missing _ _ _ _ Hdf Hvol). reflexivity.
    + intros Hhigh Hlow tz ts Hvol.
      destruct (lookup_col "High" (df_columns df)) as [h|] eqn:Hh; [|congruence].
      destruct (lookup_col "Low" (df_columns df)) as [l|] eqn:Hlo; [|congruence].
      rewrite (bind_ok _ _ _ _ _ (getitem_ok _ _ _ _ _ Hdf Hh)).
      rewrite (bind_ok _ _ _ _ _ (getitem_ok _ _ _ _ _ Hdf Hlo)).
      rewrite (bind_ok _ _ _ _ _ (getitem_ok _ _ _ _ _ Hdf Hvol)).
      reflexivity.
Qed.

(** X6: a first close of zero raises nothing.  The division is done in
    binary64, so the percentage is not a finite number: NaN when the
    change from the first close is itself zero or NaN, an infinity
    otherwise.  The other five metrics are computed as usual. *)
Theorem calculate_metrics_zero_first_close w data df cs first final h l vs :
  heap w !! data = Some df ->
  lookup_col "Close" (df_columns df) = Some (FloatCol cs) ->
  head cs = Some first -> last cs = Some final ->
  lookup_col "High" (df_columns df) = Some h ->
  lookup_col "Low" (df_columns df) = Some l ->
  lookup_col "Volume" (df_columns df) = Some (IntCol vs) ->
  is_zero first = true ->
  exists pct_change,
    calculate_metrics ext data w =
      (Ok (SFloat final, SFloat (final - first)%float, pct_change,
           series_max h, series_min l, SInt (int64_sum vs)), w) /\
    is_finite pct_change = false /\
    (is_zero (final - first) = true -> is_nan pct_change = true) /\
    (is_nan (final - first) = false -> is_zero (final - first) = false ->
       is_infinity pct_change = true).
Proof.
  intros Hdf Hclose Hhead Hlast Hhigh Hlow Hvolume Hzero.
  exists ((final - first) / first * 100)%float. split.
  - rewrite (calculate_metrics_run _ _ _ _ _ _ _ _ _ Hdf Hclose Hhead Hlast Hhigh Hlow Hvolume).
    reflexivity.
  - exact (percent_of_zero_base (final - first) first Hzero).
Qed.

End MetricsMore.

Lemma calculate_metrics_failures_witness :
  heap empty_frame_world !! 0%nat = Some empty_frame /\
  fst (calculate_metrics (sample_ext "DELISTED" "BROKEN") 0 empty_frame_world)
  = Raise out_of_bounds.
Proof.
  assert (Hdf : heap empty_frame_world !! 0%nat = Some empty_frame)
    by (vm_compute; reflexivity).
  split; [exact Hdf|].
  apply (proj1 (proj2 (calculate_metrics_failures (sample_ext "DELISTED" "BROKEN")
                         empty_frame_world 0%nat empty_frame Hdf)) (FloatCol []));
    reflexivity.
Defined.

Lemma calculate_metrics_zero_first_close_witness :
  heap zero_open_world !! 0%nat = Some zero_open_frame /\
  is_zero 0 = true /\
  exists pct_change,
    calculate_metrics (sample_ext "DELISTED" "BROKEN") 0 zero_open_world =
      (Ok (SFloat 0.5, SFloat (0.5 - 0)%float, pct_change,
           series_max (FloatCol [0.25; 0.75]%float),
           series_min (FloatCol [0; 0.5]%float), SInt (int64_sum [10; 20])),
       zero_open_world) /\
    is_finite pct_change = false /\
    (is_zero (0.5 - 0) = true -> is_nan pct_change = true) /\
    (is_nan (0.5 - 0) = false -> is_zero (0.5 - 0) = false ->
       is_infinity pct_change = true).
Proof.
  assert (Hdf : heap zero_open_world !! 0%nat = Some zero_open_frame)
    by (vm_compute; reflexivity).
  split; [exact Hdf|]. split; [vm_compute; reflexivity|].
  apply (calculate_metrics_zero_first_close (sample_ext "DELISTED" "BROKEN")
           zero_open_world 0%nat zero_open_frame [0; 0.5]%float 0%float 0.5%float
           (FloatCol [0.25; 0.75]%float) (FloatCol [0; 0.5]%float) [10; 20] Hdf);
    vm_compute; reflexivity.
Defined.

(** ** More on the Indicator Enricher *)

Lemma lookup_replace_col n' n c cols :
  lookup_col n' (replace_col n c cols) =
  match lookup_col n' cols with
  | Some c' => Some (if String.eqb n' n then c else c')
  | None => None
  end.
Proof.
  induction cols as [|[m c'] cols IH]; [reflexivity|].
  cbn [replace_col lookup_col].
  destruct (String.eqb m n') eqn:Hm; [|exact IH].
  apply String.eqb_eq in Hm. subst m. reflexivity.
Qed.

Lemma names_replace_col n c cols : map fst (replace_col n c cols) = map fst cols.
Proof.
  induction cols as [|[m c'] cols IH]; [reflexivity|].
  cbn [replace_col map fst]. rewrite IH. reflexivity.
Qed.

Lemma nrows_setitem df name vs : nrows (df_setitem df name vs) = nrows df.
Proof. reflexivity. Qed.

(** Reading a column after [df[n] = vs]. *)
Lemma lookup_setitem df n vs n' :
  lookup_col n' (df_columns (df_setitem df n vs)) =
  if String.eqb n' n then Some (FloatCol (reindex (nrows df) vs))
  else lookup_col n' (df_columns df).
Proof.
  unfold df_setitem. cbn [df_columns].
  destruct (has_col n (df_columns df)) eqn:Hhas.
  - rewrite lookup_replace_col.
    destruct (String.eqb n' n) eqn:Hn.
    + apply String.eqb_eq in Hn. subst n'. unfold has_col in Hhas.
      destruct (lookup_col n (df_columns df)); [reflexivity|discriminate].
    + destruct (lookup_col n' (df_columns df)); reflexivity.
  - rewrite lookup_col_app. cbn [lookup_col]. rewrite String.eqb_sym.
    destruct (String.eqb n' n) eqn:Hn.
    + apply String.eqb_eq in Hn. subst n'. apply has_col_lookup in Hhas.
      rewrite Hhas. reflexivity.
    + destruct (lookup_col n' (df_columns df)); reflexivity.
Qed.

Lemma has_col_setitem df n vs n' :
  has_col n' (df_columns (df_setitem df n vs)) = String.eqb n' n || has_col n' (df_columns df).
Proof.
  unfold has_col at 1. rewrite lookup_setitem.
  destruct (String.eqb n' n); reflexivity.
Qed.

Lemma names_setitem df n vs :
  map fst (df_columns (df_setitem df n vs)) =
  map fst (df_columns df) ++ (if has_col n (df_columns df) then [] else [n]).
Proof.
  unfold df_setitem. cbn [df_columns].
  destruct (has_col n (df_columns df)).
  - rewrite names_replace_col, app_nil_r. reflexivity.
  - rewrite map_app. reflexivity.
Qed.

Lemma assign_all_cons df n vs l :
  assign_all df ((n, vs) :: l) = assign_all (df_setitem df n vs) l.
Proof. reflexivity. Qed.

Lemma index_assign_all l df : df_index (assign_all df l) = df_index df.
Proof.
  revert df. induction l as [|[n vs] l IH]; intros df; [reflexivity|].
  rewrite assign_all_cons.
  rewrite IH. reflexivity.
Qed.

Lemma nrows_assign_all l df : nrows (assign_all df l) = nrows df.
Proof. unfold nrows. rewrite index_assign_all. reflexivity. Qed.

Lemma lookup_assign_all_other l df n' :
  ~ In n' (map fst l) ->
  lookup_col n' (df_columns (assign_all df l)) = lookup_col n' (df_columns df).
Proof.
  revert df. induction l as [|[n vs] l IH]; intros df Hnot; [reflexivity|].
  rewrite assign_all_cons.
  cbn [map fst In] in Hnot.
  rewrite IH by tauto. cbn [fst snd]. rewrite lookup_setitem.
  destruct (String.eqb n' n) eqn:Hn; [|reflexivity].
  apply String.eqb_eq in Hn. subst n'. tauto.
Qed.

Lemma lookup_assign_all l df n vs :
  NoDup (map fst l) -> In (n, vs) l ->
  lookup_col n (df_columns (assign_all df l)) = Some (FloatCol (reindex (nrows df) vs)).
Proof.
  revert df. induction l as [|[m us] l IH]; intros df Hnodup Hin; [destruct Hin|].
  rewrite assign_all_cons.
  cbn [map fst] in Hnodup. apply NoDup_cons in Hnodup as [Hm Hnodup].
  destruct Hin as [Heq|Hin].
  - inversion Heq; subst m us.
    rewrite lookup_assign_all_other by (intros H; apply Hm, list_elem_of_In, H).
    cbn [fst snd]. rewrite lookup_setitem, String.eqb_refl. reflexivity.
  - rewrite (IH _ Hnodup Hin), nrows_setitem. reflexivity.
Qed.

Lemma names_assign_all l df :
  NoDup (map fst l) ->
  map fst (df_columns (assign_all df l)) =
  map fst (df_columns df)
    ++ List.filter (fun n => negb (has_col n (df_columns df))) (map fst l).
Proof.
  revert df. induction l as [|[m us] l IH]; intros df Hnodup.
  - cbn. rewrite app_nil_r. reflexivity.
  - rewrite assign_all_cons.
    cbn [map fst] in Hnodup. apply NoDup_cons in Hnodup as [Hm Hnodup].
    rewrite (IH _ Hnodup). cbn [fst snd map List.filter].
    rewrite names_setitem, <- app_assoc. f_equal.
    assert (Hfilter :
      List.filter (fun n => negb (has_col n (df_columns (df_setitem df m us)))) (map fst l)
      = List.filter (fun n => negb (has_col n (df_columns df))) (map fst l)).
    { apply List.filter_ext_in. intros n Hn. rewrite has_col_setitem.
      destruct (String.eqb n m) eqn:Hnm; [|reflexivity].
      apply String.eqb_eq in Hnm. subst n. exfalso. apply Hm, list_elem_of_In, Hn. }
    rewrite Hfilter. destruct (has_col m (df_columns df)); reflexivity.
Qed.

(** Assigning to a label whose columns all hold the assigned series
    already changes nothing. *)
Lemma replace_col_same n c cols : all_named n c cols -> replace_col n c cols = cols.
Proof.
  unfold all_named. induction 1 as [|[m c'] cols Hhd _ IH]; [reflexivity|].
  cbn [replace_col]. rewrite IH. cbn [fst snd] in Hhd.
  destruct (String.eqb m n); [rewrite Hhd by reflexivity|]; reflexivity.
Qed.

Lemma all_named_absent n c cols : has_col n cols = false -> all_named n c cols.
Proof.
  unfold all_named, has_col. induction cols as [|[m c'] cols IH]; [constructor|].
  cbn [lookup_col]. destruct (String.eqb m n) eqn:Hm; [discriminate|].
  intros H. constructor; [cbn [fst]; congruence|apply IH, H].
Qed.

Lemma all_named_replace n c m c' cols :
  (String.eqb n m = true -> c = c') ->
  all_named n c cols -> all_named n c (replace_col m c' cols).
Proof.
  unfold all_named. intros Hsame. induction 1 as [|[k c''] cols Hhd _ IH]; [constructor|].
  cbn [replace_col]. constructor; [|exact IH].
  cbn [fst snd] in *. intros Hk. specialize (Hhd Hk).
  apply String.eqb_eq in Hk. subst k.
  destruct (String.eqb n m) eqn:Hnm; [symmetry; apply Hsame; reflexivity|exact Hhd].
Qed.

Lemma all_named_setitem_same df n vs :
  all_named n (FloatCol (reindex (nrows df) vs)) (df_columns (df_setitem df n vs)).
Proof.
  unfold df_setitem. cbn [df_columns].
  destruct (has_col n (df_columns df)) eqn:Hhas.
  - clear Hhas. unfold all_named. generalize (FloatCol (reindex (nrows df) vs)). intros c.
    induction (df_columns df) as [|[m c'] cols IH]; [constructor|].
    cbn [replace_col]. constructor; [|exact IH].
    cbn [fst snd]. intros ->. reflexivity.
  - apply Forall_app. split; [apply all_named_absent, Hhas|].
    constructor; [reflexivity|constructor].
Qed.

Lemma all_named_setitem_other df n c m vs :
  String.eqb n m = false ->
  all_named n c (df_columns df) -> all_named n c (df_columns (df_setitem df m vs)).
Proof.
  intros Hnm Hall. unfold df_setitem. cbn [df_columns].
  destruct (has_col m (df_columns df)).
  - apply all_named_replace; [congruence|exact Hall].
  - apply Forall_app. split; [exact Hall|].
    constructor; [|constructor]. cbn [fst snd]. rewrite String.eqb_sym. congruence.
Qed.

Lemma setitem_same df n vs :
  has_col n (df_columns df) = true ->
  all_named n (FloatCol (reindex (nrows df) vs)) (df_columns df) ->
  df_setitem df n vs = df.
Proof.
  intros Hhas Hall. unfold df_setitem. rewrite Hhas, (replace_col_same _ _ _ Hall).
  destruct df; reflexivity.
Qed.

Lemma all_named_assign_all l df n vs :
  NoDup (map fst l) -> In (n, vs) l ->
  all_named n (FloatCol (reindex (nrows df) vs)) (df_columns (assign_all df l)).
Proof.
  revert df. induction l as [|[m us] l IH]; intros df Hnodup Hin; [destruct Hin|].
  rewrite assign_all_cons.
  cbn [map fst] in Hnodup. apply NoDup_cons in Hnodup as [Hm Hnodup].
  destruct Hin as [Heq|Hin].
  - inversion Heq; subst m us. cbn [fst snd]. clear IH Heq.
    pose proof (all_named_setitem_same df n vs) as Hstart.
    revert Hstart. generalize (df_setitem df n vs). generalize (FloatCol (reindex (nrows df) vs)).
    intros c. induction l as [|[k ws] l IH]; intros d Hd; [exact Hd|].
    rewrite assign_all_cons.
    cbn [map fst] in Hm, Hnodup. apply NoDup_cons in Hnodup as [_ Hnodup].
    apply IH; [intros H; apply Hm; right; exact H|exact Hnodup|].
    apply all_named_setitem_other; [|exact Hd].
    apply String.eqb_neq. intros ->. apply Hm. left.
  - rewrite <- (nrows_setitem df m us). apply (IH _ Hnodup Hin).
Qed.

Lemma lookup_setitem_ne df n vs n' :
  String.eqb n' n = false ->
  lookup_col n' (df_columns (df_setitem df n vs)) = lookup_col n' (df_columns df).
Proof. intros H. rewrite lookup_setitem, H. reflexivity. Qed.

Lemma indicator_series_names ext close :
  map fst (indicator_series ext close) = indicator_names.
Proof. reflexivity. Qed.

Lemma indicator_names_NoDup : NoDup indicator_names.
Proof.
  unfold indicator_names.
  repeat (apply NoDup_cons_2;
          [rewrite ?elem_of_cons, elem_of_nil; intros H;
           repeat (destruct H as [H|H]; [discriminate H|]); exact H|]).
  apply NoDup_nil_2.
Qed.

Lemma indicator_columns_series ext n close :
  indicator_columns ext n close
  = map (fun p => (p.1, FloatCol (reindex n p.2))) (indicator_series ext close).
Proof. reflexivity. Qed.

(** State-blind computations compose. *)
Lemma state_blind_bind {A B} (m : M A) (k : A -> M B) :
  state_blind m -> (forall a, state_blind (k a)) -> state_blind (bind m k).
Proof.
  intros Hm Hk w1 w2. unfold bind. specialize (Hm w1 w2).
  destruct (m w1) as [[a1|e1] w1'], (m w2) as [[a2|e2] w2']; cbn [fst] in Hm;
    try discriminate; inversion Hm; subst; [apply Hk|reflexivity].
Qed.

Lemma state_blind_lift {A} (r : Result A) : state_blind (lift r).
Proof. intros w1 w2. reflexivity. Qed.

Lemma state_blind_ret {A} (a : A) : state_blind (ret a).
Proof. intros w1 w2. reflexivity. Qed.

Lemma getitem_run w data df name :
  heap w !! data = Some df ->
  getitem data name w = lift (df_getitem df name) w.
Proof.
  intros Hdf. unfold getitem, subscript.
  rewrite (bind_ok _ _ _ _ _ (load_ok _ _ _ Hdf)). reflexivity.
Qed.

Lemma bind_cong_at {A B} (m1 m2 : M A) (k1 k2 : A -> M B) w :
  m1 w = m2 w -> snd (m2 w) = w -> (forall a, k1 a w = k2 a w) ->
  bind m1 k1 w = bind m2 k2 w.
Proof.
  intros Hm Hro Hk. unfold bind. rewrite Hm.
  destruct (m2 w) as [[a|e] w']; cbn [snd] in Hro; subst w'; [apply Hk|reflexivity].
Qed.

Section EnricherMore.
Context (ext : Externals).

(** One [data[name] = f(data['Close'])] statement. *)
Lemma assign_step_stored w h data df close name vs (k : M nat) :
  lookup_col "Close" (df_columns df) = Some close ->
  bind (getitem data "Close") (fun c => bind (setitem data name (vs c)) (fun _ => k))
       (set_heap w (<[data := df]> h)) =
  k (set_heap w (<[data := df_setitem df name (vs close)]> h)).
Proof.
  intros Hclose.
  assert (Hdf : heap (set_heap w (<[data := df]> h)) !! data = Some df)
    by apply lookup_insert_eq.
  rewrite (bind_ok _ _ _ _ _ (getitem_ok _ _ _ _ _ Hdf Hclose)).
  rewrite (bind_ok _ _ _ _ _ (setitem_run _ _ _ _ _ Hdf)).
  rewrite set_heap_twice. cbn [heap set_heap]. rewrite insert_insert_eq. reflexivity.
Qed.

(** The Enricher on any frame that has a Close column. *)
Lemma enricher_run w data df close :
  heap w !! data = Some df ->
  lookup_col "Close" (df_columns df) = Some close ->
  enrich ext data w
  = (Ok data, set_heap w (<[data := assign_all df (indicator_series ext close)]> (heap w))).
Proof.
  intros Hdf Hclose. unfold enrich, add_technical_indicators, add_more_indicators.
  unfold bind at 1.
  rewrite <- (set_heap_id w) at 1. rewrite <- (insert_id _ _ _ Hdf) at 1.
  rewrite (assign_step_stored w _ data df close "SMA_20"
             (fun c => sma_indicator ext c 20) _ Hclose).
  rewrite (assign_step_stored w _ data _ close "EMA_20" (fun c => ema_indicator ext c 20))
    by (rewrite !lookup_setitem_ne by reflexivity; exact Hclose).
  unfold ret at 1.
  rewrite (assign_step_stored w _ data _ close "RSI" (fun c => rsi ext c 14))
    by (rewrite !lookup_setitem_ne by reflexivity; exact Hclose).
  rewrite (assign_step_stored w _ data _ close "MACD"
             (fun c => macd ext c macd_window_slow macd_window_fast))
    by (rewrite !lookup_setitem_ne by reflexivity; exact Hclose).
  rewrite (assign_step_stored w _ data _ close "MACD_Signal"
             (fun c => macd_signal ext c macd_window_slow macd_window_fast macd_window_sign))
    by (rewrite !lookup_setitem_ne by reflexivity; exact Hclose).
  reflexivity.
Qed.

(** X7: the Enricher on any frame with a Close column, whatever else the
    frame holds (indicator columns of an earlier pass included).  It
    returns the same object; the index is unchanged; each of SMA_20,
    EMA_20, RSI, MACD and MACD_Signal then reads as the library's series
    for the Close column, aligned to the rows: row i of the column holds
    the library's value for row i (NaN where the library gave none), and
    a library series with one value per row is stored as it is; every
    column under another label reads as before; and the labels are the
    former ones, in their order, followed by those indicator labels that
    were not there. *)
Theorem enricher_on_any_frame w data df close :
  heap w !! data = Some df ->
  lookup_col "Close" (df_columns df) = Some close ->
  exists df',
    enrich ext data w = (Ok data, set_heap w (<[data := df']> (heap w))) /\
    df_index df' = df_index df /\
    (forall name series, In (name, series) (indicator_columns ext (nrows df) close) ->
       lookup_col name (df_columns df') = Some series) /\
    (forall name vs, In (name, vs) (indicator_series ext close) ->
       exists out,
         lookup_col name (df_columns df') = Some (FloatCol out) /\
         aligned_to (nrows df) vs out /\
         (length vs = nrows df -> out = vs)) /\
    (forall name, ~ In name indicator_names ->
       lookup_col name (df_columns df') = lookup_col name (df_columns df)) /\
    map fst (df_columns df')
    = map fst (df_columns df)
        ++ List.filter (fun n => negb (has_col n (df_columns df))) indicator_names.
Proof.
  intros Hdf Hclose. exists (assign_all df (indicator_series ext close)).
  pose proof indicator_names_NoDup as Hnodup.
  rewrite <- (indicator_series_names ext close) in Hnodup.
  split; [exact (enricher_run _ _ _ _ Hdf Hclose)|].
  split; [apply index_assign_all|]. split; [|split; [|split]].
  - intros name series Hin. rewrite indicator_columns_series in Hin.
    apply in_map_iff in Hin as ([n vs] & Heq & Hin). cbn [fst snd] in Heq.
    inversion Heq; subst name series.
    apply (lookup_assign_all _ _ _ _ Hnodup Hin).
  - intros name vs Hin. exists (reindex (nrows df) vs).
    split; [apply (lookup_assign_all _ _ _ _ Hnodup Hin)|].
    split; [apply reindex_aligned_to|apply reindex_aligned].
  - intros name Hname. apply lookup_assign_all_other.
    rewrite indicator_series_names. exact Hname.
  - rewrite (names_assign_all _ _ Hnodup), indicator_series_names. reflexivity.
Qed.

(** X8: enriching is idempotent.  A second pass of the Enricher over an
    enriched frame returns the same object and leaves the store, the
    page and everything else exactly as the first pass left them. *)
Theorem enricher_idempotent w data df close :
  heap w !! data = Some df ->
  lookup_col "Close" (df_columns df) = Some close ->
  exists w',
    enrich ext data w = (Ok data, w') /\
    enrich ext data w' = (Ok data, w').
Proof.
  intros Hdf Hclose.
  pose proof indicator_names_NoDup as Hnodup.
  rewrite <- (indicator_series_names ext close) in Hnodup.
  set (df' := assign_all df (indicator_series ext close)).
  exists (set_heap w (<[data := df']> (heap w))).
  split; [exact (enricher_run _ _ _ _ Hdf Hclose)|].
  assert (Hdf' : heap (set_heap w (<[data := df']> (heap w))) !! data = Some df')
    by apply lookup_insert_eq.
  assert (Hclose' : lookup_col "Close" (df_columns df') = Some close).
  { unfold df'. rewrite lookup_assign_all_other; [exact Hclose|].
    rewrite indicator_series_names. unfold indicator_names. cbn [In].
    intros H. repeat (destruct H as [H|H]; [discriminate H|]). exact H. }
  rewrite (enricher_run _ _ _ _ Hdf' Hclose').
  assert (Hfix : assign_all df' (indicator_series ext close) = df').
  { assert (Hstep : forall n vs, In (n, vs) (indicator_series ext close) ->
                                 df_setitem df' n vs = df').
    { intros n vs Hin. apply setitem_same.
      - unfold has_col. unfold df'. rewrite (lookup_assign_all _ _ _ _ Hnodup Hin).
        reflexivity.
      - unfold df'. rewrite nrows_assign_all.
        apply (all_named_assign_all _ _ _ _ Hnodup Hin). }
    revert Hstep. generalize (indicator_series ext close). intros l.
    induction l as [|[n vs] l IH]; intros Hstep; [reflexivity|].
    rewrite assign_all_cons, (Hstep n vs) by (left; reflexivity).
    apply IH. intros n' vs' Hin. apply Hstep. right. exact Hin. }
  rewrite Hfix, set_heap_twice. cbn [heap set_heap].
  rewrite insert_insert_eq. reflexivity.
Qed.

(** X9: without a Close column both Enricher functions raise KeyError
    'Close' at their first statement and leave the frame as it is. *)
Theorem enricher_needs_close w data df :
  heap w !! data = Some df ->
  lookup_col "Close" (df_columns df) = None ->
  add_technical_indicators ext data w = (Raise (KeyError "Close"), w) /\
  add_more_indicators ext data w = (Raise (KeyError "Close"), w) /\
  enrich ext data w = (Raise (KeyError "Close"), w).
Proof.
  intros Hdf Hclose.
  assert (Htech : add_technical_indicators ext data w = (Raise (KeyError "Close"), w)).
  { unfold add_technical_indicators. unfold bind at 1.
    rewrite (getitem_missing _ _ _ _ Hdf Hclose). reflexivity. }
  split; [exact Htech|]. split.
  - unfold add_more_indicators. unfold bind at 1.
    rewrite (getitem_missing _ _ _ _ Hdf Hclose). reflexivity.
  - unfold enrich. unfold bind at 1. rewrite Htech. reflexivity.
Qed.

(** The outcome of the Metrics Calculator is a function of what the four
    columns it names read as. *)
Lemma calculate_metrics_columns w1 w2 data df1 df2 :
  heap w1 !! data = Some df1 ->
  heap w2 !! data = Some df2 ->
  (forall n, In n ["Close"; "High"; "Low"; "Volume"] ->
     lookup_col n (df_columns df1) = lookup_col n (df_columns df2)) ->
  fst (calculate_metrics ext data w1) = fst (calculate_metrics ext data w2).
Proof.
  intros H1 H2 Hcols.
  assert (Hget : forall n, In n ["Close"; "High"; "Low"; "Volume"] ->
                           df_getitem df1 n = df_getitem df2 n).
  { intros n Hn. unfold df_getitem. rewrite (Hcols n Hn). reflexivity. }
  assert (Hform : forall w df, heap w !! data = Some df ->
    calculate_metrics ext data w =
    bind (lift (df_getitem df "Close")) (fun c =>
      bind (lift (iloc_last c)) (fun last_close =>
        bind (lift (df_getitem df "Close")) (fun c =>
          bind (lift (iloc_first c)) (fun prev_close =>
            bind (lift (py_sub last_close prev_close)) (fun change =>
              bind (lift (py_truediv change prev_close)) (fun q =>
                bind (lift (df_getitem df "High")) (fun h =>
                  bind (lift (df_getitem df "Low")) (fun l =>
                    bind (lift (df_getitem df "Volume")) (fun v =>
                      bind (lift (series_sum (np_sum ext) v)) (fun volume =>
                        ret (last_close, change, (q * 100)%float,
                             series_max h, series_min l, volume))))))))))) w).
  { intros w df Hdf. unfold calculate_metrics.
    repeat (apply bind_cong_at;
            [first [apply (getitem_run _ _ _ _ Hdf) | reflexivity]
            |reflexivity|intros ?]).
    reflexivity. }
  rewrite (Hform _ _ H1), (Hform _ _ H2).
  rewrite !Hget by (cbn [In]; tauto).
  repeat (apply state_blind_bind; [apply state_blind_lift|intros ?]).
  apply state_blind_ret.
Qed.

(** X10: enriching does not change the metrics.  On a frame with a Close
    column, [calculate_metrics] gives the same outcome after the Enricher
    has run as before: the same six values, or the same exception. *)
Theorem metrics_unchanged_by_enrichment w data df close :
  heap w !! data = Some df ->
  lookup_col "Close" (df_columns df) = Some close ->
  exists w',
    enrich ext data w = (Ok data, w') /\
    fst (calculate_metrics ext data w') = fst (calculate_metrics ext data w).
Proof.
  intros Hdf Hclose. eexists. split; [exact (enricher_run _ _ _ _ Hdf Hclose)|].
  apply (calculate_metrics_columns _ _ data (assign_all df (indicator_series ext close)) df);
    [apply lookup_insert_eq|exact Hdf|].
  intros n Hn. apply lookup_assign_all_other.
  rewrite indicator_series_names. unfold indicator_names. cbn [In] in *.
  intros H.
  repeat (destruct Hn as [<-|Hn];
          [repeat (destruct H as [H|H]; [discriminate H|]); exact H|]).
  exact Hn.
Qed.

End EnricherMore.

Lemma enricher_on_any_frame_witness :
  let e := tracing_ext in
  let df := enriched_frame (sample_ext "DELISTED" "BROKEN") sample_columns sample_bars in
  heap enriched_world !! 0%nat = Some df /\
  lookup_col "Close" (df_columns df) = Some sample_close /\
  exists df',
    enrich e 0 enriched_world
    = (Ok 0%nat, set_heap enriched_world (<[0%nat := df']> (heap enriched_world))) /\
    df_index df' = df_index df /\
    (forall name series,
       In (name, series) (indicator_columns e (nrows df) sample_close) ->
       lookup_col name (df_columns df') = Some series) /\
    (forall name vs, In (name, vs) (indicator_series e sample_close) ->
       exists out,
         lookup_col name (df_columns df') = Some (FloatCol out) /\
         aligned_to (nrows df) vs out /\
         (length vs = nrows df -> out = vs)) /\
    (forall name, ~ In name indicator_names ->
       lookup_col name (df_columns df') = lookup_col name (df_columns df)) /\
    map fst (df_columns df')
    = map fst (df_columns df)
        ++ List.filter (fun n => negb (has_col n (df_columns df))) indicator_names.
Proof.
  intros e df.
  assert (Hdf : heap enriched_world !! 0%nat = Some df) by (vm_compute; reflexivity).
  assert (Hclose : lookup_col "Close" (df_columns df) = Some sample_close)
    by (vm_compute; reflexivity).
  split; [exact Hdf|]. split; [exact Hclose|].
  exact (enricher_on_any_frame e enriched_world 0%nat df sample_close Hdf Hclose).
Defined.

(** The same at work: the frame of the witness holds five indicator
    columns of an earlier pass, all NaN; a pass with indicator functions
    that return the closes plus a number made of their window arguments
    overwrites them where they stand with the library's values, and
    leaves the Close column and the labels as they are. *)
Example enricher_overwrites_with_library_values :
  exists w' df',
    enrich tracing_ext 0 enriched_world = (Ok 0%nat, w') /\
    heap w' !! 0%nat = Some df' /\
    map fst (df_columns df')
    = ["Datetime"; "Open"; "High"; "Low"; "Close"; "Volume";
       "SMA_20"; "EMA_20"; "RSI"; "MACD"; "MACD_Signal"] /\
    lookup_col "Close" (df_columns df') = Some sample_close /\
    lookup_col "SMA_20" (df_columns df') = Some (FloatCol [120; 122; 121; 125; 127]%float) /\
    lookup_col "EMA_20" (df_columns df') = Some (FloatCol [140; 142; 141; 145; 147]%float) /\
    lookup_col "RSI" (df_columns df') = Some (FloatCol [142; 144; 143; 147; 149]%float) /\
    lookup_col "MACD" (df_columns df')
    = Some (FloatCol [2712; 2714; 2713; 2717; 2719]%float) /\
    lookup_col "MACD_Signal" (df_columns df')
    = Some (FloatCol [261309; 261311; 261310; 261314; 261316]%float).
Proof.
  eexists. eexists. split; [vm_compute; reflexivity|].
  split; [vm_compute; reflexivity|]. repeat split.
Qed.

Lemma enricher_idempotent_witness :
  heap sample_world !! 0%nat = Some sample_frame /\
  lookup_col "Close" (df_columns sample_frame) = Some sample_close /\
  exists w',
    enrich (sample_ext "DELISTED" "BROKEN") 0 sample_world = (Ok 0%nat, w') /\
    enrich (sample_ext "DELISTED" "BROKEN") 0 w' = (Ok 0%nat, w').
Proof.
  assert (Hdf : heap sample_world !! 0%nat = Some sample_frame) by (vm_compute; reflexivity).
  assert (Hclose : lookup_col "Close" (df_columns sample_frame) = Some sample_close)
    by reflexivity.
  split; [exact Hdf|]. split; [exact Hclose|].
  exact (enricher_idempotent (sample_ext "DELISTED" "BROKEN") sample_world 0%nat
           sample_frame sample_close Hdf Hclose).
Defined.

Lemma enricher_needs_close_witness :
  heap quotes_only_world !! 0%nat = Some quotes_only_frame /\
  lookup_col "Close" (df_columns quotes_only_frame) = None /\
  add_technical_indicators (sample_ext "DELISTED" "BROKEN") 0 quotes_only_world
  = (Raise (KeyError "Close"), quotes_only_world) /\
  add_more_indicators (sample_ext "DELISTED" "BROKEN") 0 quotes_only_world
  = (Raise (KeyError "Close"), quotes_only_world) /\
  enrich (sample_ext "DELISTED" "BROKEN") 0 quotes_only_world
  = (Raise (KeyError "Close"), quotes_only_world).
Proof.
  assert (Hdf : heap quotes_only_world !! 0%nat = Some quotes_only_frame)
    by (vm_compute; reflexivity).
  assert (Hclose : lookup_col "Close" (df_columns quotes_only_frame) = None) by reflexivity.
  split; [exact Hdf|]. split; [exact Hclose|].
  exact (enricher_needs_close (sample_ext "DELISTED" "BROKEN") quotes_only_world 0%nat
           quotes_only_frame Hdf Hclose).
Defined.

Lemma metrics_unchanged_by_enrichment_witness :
  heap sample_world !! 0%nat = Some sample_frame /\
  lookup_col "Close" (df_columns sample_frame) = Some sample_close /\
  exists w',
    enrich (sample_ext "DELISTED" "BROKEN") 0 sample_world = (Ok 0%nat, w') /\
    fst (calculate_metrics (sample_ext "DELISTED" "BROKEN") 0 w')
    = fst (calculate_metrics (sample_ext "DELISTED" "BROKEN") 0 sample_world).
Proof.
  assert (Hdf : heap sample_world !! 0%nat = Some sample_frame) by (vm_compute; reflexivity).
  assert (Hclose : lookup_col "Close" (df_columns sample_frame) = Some sample_close)
    by reflexivity.
  split; [exact Hdf|]. split; [exact Hclose|].
  exact (metrics_unchanged_by_enrichment (sample_ext "DELISTED" "BROKEN") sample_world 0%nat
           sample_frame sample_close Hdf Hclose).
Defined.

(** ** The indicator loop of the main content area *)

Lemma emit_run e w : emit e w = (Ok tt, add_ui w [e]).
Proof. reflexivity. Qed.

Lemma bind_emit {B} e (k : M B) w : bind (emit e) (fun _ => k) w = k (add_ui w [e]).
Proof. reflexivity. Qed.

Lemma heap_add_ui w l : heap (add_ui w l) = heap w.
Proof. reflexivity. Qed.

(** The loop on a frame that has the timestamp and indicator columns. *)
Lemma add_indicator_traces_run data df x sma ema rsi macd signal inds :
  lookup_col "Datetime" (df_columns df) = Some x ->
  lookup_col "SMA_20" (df_columns df) = Some sma ->
  lookup_col "EMA_20" (df_columns df) = Some ema ->
  lookup_col "RSI" (df_columns df) = Some rsi ->
  lookup_col "MACD" (df_columns df) = Some macd ->
  lookup_col "MACD_Signal" (df_columns df) = Some signal ->
  forall traces w,
    heap w !! data = Some df ->
    add_indicator_traces data inds traces w
    = (Ok (traces ++ overlay_traces x sma ema inds),
       add_ui w (sub_charts rsi macd signal inds)).
Proof.
  intros Hx Hsma Hema Hrsi Hmacd Hsignal.
  induction inds as [|indicator inds IH]; intros traces w Hdf.
  - cbn [add_indicator_traces overlay_traces sub_charts flat_map].
    rewrite app_nil_r, add_ui_nil. reflexivity.
  - cbn [add_indicator_traces overlay_traces sub_charts flat_map].
    fold (overlay_traces x sma ema inds). fold (sub_charts rsi macd signal inds).
    destruct (String.eqb indicator "SMA 20").
    { unfold bind at 1.
      rewrite (bind_ok _ _ _ _ _ (getitem_ok _ _ _ _ _ Hdf Hx)).
      rewrite (bind_ok _ _ _ _ _ (getitem_ok _ _ _ _ _ Hdf Hsma)).
      unfold ret at 1. rewrite (IH _ _ Hdf), <- app_assoc. reflexivity. }
    destruct (String.eqb indicator "EMA 20").
    { unfold bind at 1.
      rewrite (bind_ok _ _ _ _ _ (getitem_ok _ _ _ _ _ Hdf Hx)).
      rewrite (bind_ok _ _ _ _ _ (getitem_ok _ _ _ _ _ Hdf Hema)).
      unfold ret at 1. rewrite (IH _ _ Hdf), <- app_assoc. reflexivity. }
    destruct (String.eqb indicator "RSI").
    { unfold bind at 1. rewrite bind_emit.
      rewrite (bind_ok _ _ _ _ _
                 (getitem_ok (add_ui w [StSubheader MainArea "RSI Indicator"]) _ _ _ _ Hdf Hrsi)).
      rewrite bind_emit. unfold ret at 1. rewrite add_ui_app.
      rewrite (IH _ (add_ui w _) Hdf), add_ui_app. reflexivity. }
    destruct (String.eqb indicator "MACD").
    { unfold bind at 1. rewrite bind_emit.
      rewrite (bind_ok _ _ _ _ _
                 (load_ok data df (add_ui w [StSubheader MainArea "MACD Indicator"]) Hdf)).
      unfold bind at 1. unfold lift at 1. unfold df_select. cbn [select_cols].
      rewrite Hmacd, Hsignal. cbn [rbind].
      rewrite bind_emit. unfold ret at 1. cbn [df_columns]. rewrite add_ui_app.
      rewrite (IH _ (add_ui w _) Hdf), add_ui_app. reflexivity. }
    unfold bind at 1. unfold ret at 1.
    rewrite (IH _ _ Hdf). reflexivity.
Qed.

(** ** The main content area *)

Lemma bind_assoc {A B C} (m : M A) (f : A -> M B) (g : B -> M C) w :
  bind (bind m f) g w = bind m (fun x => bind (f x) g) w.
Proof. unfold bind. destruct (m w) as [[a|e] w']; reflexivity. Qed.

Lemma bind_getitem {B} w data df name c (k : Column -> M B) :
  heap w !! data = Some df ->
  lookup_col name (df_columns df) = Some c ->
  bind (getitem data name) k w = k c w.
Proof. intros Hdf Hc. apply bind_ok, (getitem_ok _ _ _ _ _ Hdf Hc). Qed.

Lemma bind_load {B} w data df (k : DataFrame -> M B) :
  heap w !! data = Some df -> bind (load data) k w = k df w.
Proof. intros Hdf. apply bind_ok, load_ok, Hdf. Qed.

Lemma bind_lift_ok {A B} (r : Result A) a (k : A -> M B) w :
  r = Ok a -> bind (lift r) k w = k a w.
Proof. intros ->. reflexivity. Qed.

(** Assignments to labels the frame does not have yet append their
    columns in the order of the assignments. *)
Lemma assign_all_fresh l df :
  NoDup (map fst l) ->
  Forall (fun n => has_col n (df_columns df) = false) (map fst l) ->
  assign_all df l
  = mkDF (df_index df)
         (df_columns df ++ map (fun p => (p.1, FloatCol (reindex (nrows df) p.2))) l).
Proof.
  revert df. induction l as [|[n vs] l IH]; intros df Hnodup Hfresh.
  - cbn. rewrite app_nil_r. destruct df; reflexivity.
  - rewrite assign_all_cons. cbn [map fst] in Hnodup, Hfresh.
    apply NoDup_cons in Hnodup as [Hn Hnodup].
    apply Forall_cons_1 in Hfresh as [Hfn Hfresh].
    rewrite (df_setitem_fresh _ _ _ Hfn).
    rewrite IH; [|exact Hnodup|].
    + cbn [df_index df_columns map fst snd nrows]. rewrite <- app_assoc. reflexivity.
    + cbn [df_columns]. apply List.Forall_forall. intros m Hm.
      rewrite has_col_app. rewrite List.Forall_forall in Hfresh.
      rewrite (Hfresh m Hm). cbn [orb]. unfold has_col. cbn [lookup_col].
      destruct (String.eqb n m) eqn:Hnm; [|reflexivity].
      apply String.eqb_eq in Hnm. subst m. exfalso. apply Hn, list_elem_of_In, Hm.
Qed.

Section MainContent.
Context (ext : Externals).

(** The frame the Enricher leaves for a normalized provider series. *)
Lemma enrich_provider w0 h data df bars :
  provider_series df bars ->
  enrich ext data
    (set_heap w0 (<[data := mkDF (RangeIndex (length bars))
                     (("Datetime", time_column bars) :: df_columns df)]> h))
  = (Ok data, set_heap w0 (<[data := enriched_frame ext (df_columns df) bars]> h)).
Proof.
  intros Hseries.
  destruct (provider_series_columns _ _ Hseries) as (_ & Hprices & Hfresh).
  destruct Hprices as (_ & _ & _ & Hclose & _).
  set (N := mkDF (RangeIndex (length bars)) (("Datetime", time_column bars) :: df_columns df)).
  assert (HN : heap (set_heap w0 (<[data := N]> h)) !! data = Some N) by apply lookup_insert_eq.
  assert (HcloseN : lookup_col "Close" (df_columns N) = Some (close_column bars)) by exact Hclose.
  rewrite (enricher_run ext _ _ _ _ HN HcloseN).
  rewrite set_heap_twice. cbn [heap set_heap]. rewrite insert_insert_eq.
  rewrite assign_all_fresh.
  - reflexivity.
  - rewrite indicator_series_names. apply indicator_names_NoDup.
  - rewrite indicator_series_names.
    apply Forall_cons_1 in Hfresh as [_ Hfresh].
    apply Forall_cons_1 in Hfresh as [_ Hfresh].
    apply List.Forall_forall. intros n Hn. rewrite List.Forall_forall in Hfresh.
    specialize (Hfresh n Hn). cbv beta in Hfresh.
    unfold has_col, N. cbn [df_columns lookup_col].
    destruct (String.eqb "Datetime" n) eqn:Hd.
    + apply String.eqb_eq in Hd. subst n. unfold indicator_names in Hn. cbn [In] in Hn.
      repeat (destruct Hn as [Hn|Hn]; [discriminate Hn|]). destruct Hn.
    + exact Hfresh.
Qed.

(** What the columns of the enriched frame read as. *)
Lemma enriched_frame_prices cols bars :
  price_columns cols bars ->
  let E := enriched_frame ext cols bars in
  lookup_col "Datetime" (df_columns E) = Some (time_column bars) /\
  lookup_col "Open" (df_columns E) = Some (open_column bars) /\
  lookup_col "High" (df_columns E) = Some (high_column bars) /\
  lookup_col "Low" (df_columns E) = Some (low_column bars) /\
  lookup_col "Close" (df_columns E) = Some (close_column bars) /\
  lookup_col "Volume" (df_columns E) = Some (volume_column bars).
Proof.
  intros (Hopen & Hhigh & Hlow & Hclose & Hvolume) E. subst E.
  unfold enriched_frame. cbn [df_columns].
  split; [reflexivity|].
  repeat split;
    (change (lookup_col ?n (("Datetime", ?c) :: ?rest)) with (lookup_col n rest);
     rewrite lookup_col_app);
    [rewrite Hopen|rewrite Hhigh|rewrite Hlow|rewrite Hclose|rewrite Hvolume]; reflexivity.
Qed.

Lemma enriched_frame_indicators cols bars :
  Forall (fun n => has_col n cols = false) indicator_names ->
  let E := enriched_frame ext cols bars in
  let close := close_column bars in
  lookup_col "SMA_20" (df_columns E) = Some (indicator_column bars (sma_indicator ext close 20)) /\
  lookup_col "EMA_20" (df_columns E) = Some (indicator_column bars (ema_indicator ext close 20)) /\
  lookup_col "RSI" (df_columns E) = Some (indicator_column bars (rsi ext close 14)) /\
  lookup_col "MACD" (df_columns E) = Some (indicator_column bars (macd ext close 26 12)) /\
  lookup_col "MACD_Signal" (df_columns E)
  = Some (indicator_column bars (macd_signal ext close 26 12 9)).
Proof.
  intros Hfresh E close. subst E close.
  unfold enriched_frame. cbn [df_columns].
  repeat (apply Forall_cons_1 in Hfresh as [?H Hfresh]).
  repeat match goal with H : has_col _ _ = false |- _ => apply has_col_lookup in H end.
  repeat split;
    (change (lookup_col ?n (("Datetime", ?c) :: ?rest)) with (lookup_col n rest);
     rewrite lookup_col_app);
    match goal with H : lookup_col ?n cols = None |- context [lookup_col ?n cols] =>
      rewrite H end; reflexivity.
Qed.

Lemma head_map {A B} (f : A -> B) (l : list A) x :
  head l = Some x -> head (map f l) = Some (f x).
Proof. destruct l; intros H; inversion H; reflexivity. Qed.

Lemma last_map {A B} (f : A -> B) (l : list A) x :
  last l = Some x -> last (map f l) = Some (f x).
Proof.
  intros H. change (map f l) with (f <$> l). rewrite fmap_last, H. reflexivity.
Qed.

Lemma enrich_then {B} data (k : nat -> M B) w :
  bind (add_technical_indicators ext data) (fun d => bind (add_more_indicators ext d) k) w
  = bind (enrich ext data) k w.
Proof. unfold enrich. rewrite bind_assoc. reflexivity. Qed.

Lemma bind_lift_Ok {A B} (a : A) (k : A -> M B) w : bind (lift (Ok a)) k w = k a w.
Proof. reflexivity. Qed.

Lemma bind_ret {A B} (a : A) (k : A -> M B) w : bind (ret a) k w = k a w.
Proof. reflexivity. Qed.

(** The main content area in one piece, for a fetch that brought a
    provider series. *)
Lemma main_content_run sel w data w1 df bars first final :
  fetch_stock_data ext (ticker sel) (time_period sel) (interval sel) w = (Ok (Some data), w1) ->
  heap w1 !! data = Some df ->
  provider_series df bars ->
  head bars = Some first -> last bars = Some final ->
  main_content ext sel w =
    match dict_get stock_names (ticker sel) with
    | Ok name =>
        (Ok (Some data),
         add_ui (set_heap w1 (<[data := enriched_frame ext (df_columns df) bars]> (heap w1)))
                (main_widgets ext sel name (df_columns df) bars first final))
    | Raise e =>
        (Raise e, set_heap w1 (<[data := enriched_frame ext (df_columns df) bars]> (heap w1)))
    end.
Proof.
  intros Hfetch Hdf Hseries Hhead Hlast.
  destruct (provider_series_columns _ _ Hseries) as (Hne & Hprices & Hfresh).
  apply Forall_cons_1 in Hfresh as [_ Hfresh].
  apply Forall_cons_1 in Hfresh as [_ Hfresh].
  destruct (enriched_frame_prices _ _ Hprices) as (Hx & Ho & Hh & Hl & Hc & Hv).
  destruct (enriched_frame_indicators _ bars Hfresh) as (Hsma & Hema & Hrsi & Hmacd & Hsig).
  unfold main_content.
  unfold bind at 1. rewrite Hfetch.
  unfold bind at 1. rewrite (process_data_provider _ _ _ _ Hdf Hseries).
  rewrite enrich_then.
  unfold bind at 1. rewrite (enrich_provider _ _ _ _ _ Hseries).
  set (E := enriched_frame ext (df_columns df) bars) in *.
  set (w2 := set_heap w1 (<[data := E]> (heap w1))).
  assert (HE : heap w2 !! data = Some E) by apply lookup_insert_eq.
  clearbody w2.
  unfold bind at 1.
  rewrite (calculate_metrics_run ext w2 data E _ _ _ _ _ _ HE Hc
             (head_map bar_close _ _ Hhead) (last_map bar_close _ _ Hlast) Hh Hl Hv).
  unfold volume_column. cbn [series_sum]. cbv beta iota.
  destruct (dict_get stock_names (ticker sel)) as [name|e]; [|reflexivity].
  rewrite bind_lift_Ok. rewrite !bind_emit, !add_ui_app.
  unfold main_widgets, price_figure, price_trace.
  assert (Htraces : forall (k : list Trace -> M (option nat)) w',
    heap w' !! data = Some E ->
    bind (if String.eqb (chart_type sel) "Candlestick" then
            bind (getitem data "Datetime") (fun x =>
              bind (getitem data "Open") (fun o =>
                bind (getitem data "High") (fun h =>
                  bind (getitem data "Low") (fun l =>
                    bind (getitem data "Close") (fun c =>
                      ret [Candlestick x o h l c])))))
          else
            bind (getitem data "Datetime") (fun x =>
              bind (getitem data "Close") (fun y =>
                ret [Scatter x y (Some "lines") (Some "Close Price")]))) k w'
    = k [if String.eqb (chart_type sel) "Candlestick" then
           Candlestick (time_column bars) (open_column bars) (high_column bars)
                       (low_column bars) (close_column bars)
         else Scatter (time_column bars) (close_column bars) (Some "lines")
                      (Some "Close Price")] w').
  { intros k w' Hw'. unfold bind at 1.
    destruct (String.eqb (chart_type sel) "Candlestick").
    - rewrite (bind_getitem _ _ _ _ _ _ Hw' Hx), (bind_getitem _ _ _ _ _ _ Hw' Ho),
        (bind_getitem _ _ _ _ _ _ Hw' Hh), (bind_getitem _ _ _ _ _ _ Hw' Hl),
        (bind_getitem _ _ _ _ _ _ Hw' Hc). reflexivity.
    - rewrite (bind_getitem _ _ _ _ _ _ Hw' Hx), (bind_getitem _ _ _ _ _ _ Hw' Hc).
      reflexivity. }
  rewrite Htraces by exact HE. clear Htraces.
  unfold bind at 1.
  rewrite (add_indicator_traces_run data E _ _ _ _ _ _ (indicators sel)
             Hx Hsma Hema Hrsi Hmacd Hsig) by exact HE.
  rewrite add_ui_app.
  rewrite bind_lift_Ok. rewrite !bind_emit, !add_ui_app.
  rewrite (bind_load (add_ui w2 _) _ _ _ HE).
  unfold df_select. cbn [select_cols]. rewrite Hx, Ho, Hh, Hl, Hc, Hv. cbn [rbind].
  rewrite bind_lift_Ok. rewrite !bind_emit, !add_ui_app.
  rewrite (bind_load (add_ui w2 _) _ _ _ HE).
  cbn [select_cols]. rewrite Hx, Hsma, Hema, Hrsi, Hmacd, Hsig. cbn [rbind].
  rewrite bind_lift_Ok. rewrite !bind_emit, !add_ui_app.
  rewrite (bind_load (add_ui w2 _) _ _ _ HE).
  rewrite !bind_emit, !add_ui_app.
  unfold ret. rewrite <- !app_assoc. reflexivity.
Qed.

End MainContent.

Lemma dict_get_missing d k : ~ In k (keys d) -> dict_get d k = Raise (KeyError k).
Proof.
  induction d as [|[k' v] d IH]; intros Hk; [reflexivity|].
  cbn [dict_get]. destruct (String.eqb k' k) eqn:Heq.
  - apply String.eqb_eq in Heq. subst k'. exfalso. apply Hk. left. reflexivity.
  - apply IH. intros Hin. apply Hk. right. exact Hin.
Qed.

Lemma dict_get_present d k : In k (keys d) -> exists v, dict_get d k = Ok v.
Proof.
  induction d as [|[k' v] d IH]; intros Hk; [destruct Hk|].
  cbn [dict_get]. destruct (String.eqb k' k) eqn:Heq; [eauto|].
  apply IH. destruct Hk as [Hk|Hk]; [|exact Hk].
  cbn [fst] in Hk. subst k'. rewrite String.eqb_refl in Heq. discriminate.
Qed.

Section Page.
Context (ext : Externals).

(** X11: the indicator loop on a frame that has the timestamp and the
    five indicator columns.  It never raises and does not touch the
    store.  The traces it was given stay in front; one Scatter overlay
    is added per selected "SMA 20" or "EMA 20", in the order of the
    selection; each selected "RSI" or "MACD" puts a subheader and a line
    chart on the page at once, hence above the price chart, which is
    shown only after the loop; any other name is skipped. *)
Theorem indicator_loop_on_enriched_frame w data df x sma ema rsi macd signal inds traces :
  heap w !! data = Some df ->
  lookup_col "Datetime" (df_columns df) = Some x ->
  lookup_col "SMA_20" (df_columns df) = Some sma ->
  lookup_col "EMA_20" (df_columns df) = Some ema ->
  lookup_col "RSI" (df_columns df) = Some rsi ->
  lookup_col "MACD" (df_columns df) = Some macd ->
  lookup_col "MACD_Signal" (df_columns df) = Some signal ->
  add_indicator_traces data inds traces w
  = (Ok (traces ++ overlay_traces x sma ema inds),
     add_ui w (sub_charts rsi macd signal inds)) /\
  (Forall (fun i => ~ In i ["SMA 20"; "EMA 20"; "RSI"; "MACD"]) inds ->
   add_indicator_traces data inds traces w = (Ok traces, w)).
Proof.
  intros Hdf Hx Hsma Hema Hrsi Hmacd Hsignal.
  pose proof (add_indicator_traces_run data df x sma ema rsi macd signal inds
                Hx Hsma Hema Hrsi Hmacd Hsignal traces w Hdf) as Hrun.
  split; [exact Hrun|].
  intros Hskip. rewrite Hrun.
  assert (Hnone : overlay_traces x sma ema inds = [] /\ sub_charts rsi macd signal inds = []).
  { clear Hrun. induction Hskip as [|i inds Hi _ IH]; [split; reflexivity|].
    destruct IH as [IH1 IH2].
    unfold overlay_traces, sub_charts in *. cbn [flat_map]. rewrite IH1, IH2.
    cbn [In] in Hi.
    destruct (String.eqb i "SMA 20") eqn:H1;
      [apply String.eqb_eq in H1; exfalso; apply Hi; auto|].
    destruct (String.eqb i "EMA 20") eqn:H2;
      [apply String.eqb_eq in H2; exfalso; apply Hi; auto|].
    destruct (String.eqb i "RSI") eqn:H3;
      [apply String.eqb_eq in H3; exfalso; apply Hi; auto|].
    destruct (String.eqb i "MACD") eqn:H4;
      [apply String.eqb_eq in H4; exfalso; apply Hi; auto|].
    split; reflexivity. }
  destruct Hnone as [-> ->]. rewrite app_nil_r, add_ui_nil. reflexivity.
Qed.

(** X12: the main content area on a provider series (lines 106-165).
    When the fetch brings a series of the provider's shape and the ticker
    is in the name table, the block never raises and returns the fetched
    object, which by then is the normalized series with the five
    indicator columns.  The page gets, in this order: the five metrics
    (last close, change and percentage against the first close, highest
    High, lowest Low, total Volume), the RSI and MACD charts of the
    selection, the price chart with the selected overlays, the table of
    the six price columns, the table of the indicator columns, and the
    download button, whose payload is the whole enriched frame.  No
    request is made and no clock is read after the fetch. *)
Theorem main_content_renders sel w data w1 df bars first final name :
  fetch_stock_data ext (ticker sel) (time_period sel) (interval sel) w = (Ok (Some data), w1) ->
  heap w1 !! data = Some df ->
  provider_series df bars ->
  head bars = Some first -> last bars = Some final ->
  dict_get stock_names (ticker sel) = Ok name ->
  exists w',
    main_content ext sel w = (Ok (Some data), w') /\
    ui w' = ui w ++ main_widgets ext sel name (df_columns df) bars first final /\
    heap w' = <[data := enriched_frame ext (df_columns df) bars]> (heap w1) /\
    requests w' = requests w1 /\ clock_reads w' = clock_reads w1 /\
    next_loc w' = next_loc w1.
Proof.
  intros Hfetch Hdf Hseries Hhead Hlast Hname.
  rewrite (main_content_run _ _ _ _ _ _ _ _ _ Hfetch Hdf Hseries Hhead Hlast), Hname.
  eexists. split; [reflexivity|].
  cbn [ui heap requests clock_reads next_loc add_ui set_heap].
  rewrite (fetch_some_ui _ _ _ _ _ _ _ Hfetch). repeat split.
Qed.

(** X13: a ticker that is not in the name table.  With data fetched for
    it, the main content area raises KeyError at the first metric (line
    114), before anything is put on the page; the fetched frame has been
    normalized and enriched by then. *)
Theorem main_content_unknown_ticker sel w data w1 df bars :
  fetch_stock_data ext (ticker sel) (time_period sel) (interval sel) w = (Ok (Some data), w1) ->
  heap w1 !! data = Some df ->
  provider_series df bars ->
  ~ In (ticker sel) (keys stock_names) ->
  exists w',
    main_content ext sel w = (Raise (KeyError (ticker sel)), w') /\
    ui w' = ui w /\
    heap w' !! data = Some (enriched_frame ext (df_columns df) bars).
Proof.
  intros Hfetch Hdf Hseries Hname.
  destruct (provider_series_columns _ _ Hseries) as (Hne & _).
  destruct (head bars) as [first|] eqn:Hhead; [|destruct bars; [congruence|discriminate]].
  destruct (last bars) as [final|] eqn:Hlast; [|apply last_None in Hlast; congruence].
  rewrite (main_content_run _ _ _ _ _ _ _ _ _ Hfetch Hdf Hseries Hhead Hlast).
  rewrite (dict_get_missing _ _ Hname).
  eexists. split; [reflexivity|].
  cbn [ui heap set_heap]. split; [exact (fetch_some_ui _ _ _ _ _ _ _ Hfetch)|].
  apply lookup_insert_eq.
Qed.

End Page.

Lemma indicator_loop_on_enriched_frame_witness :
  let e := sample_ext "DELISTED" "BROKEN" in
  let df := enriched_frame e sample_columns sample_bars in
  let x := time_column sample_bars in
  let sma := indicator_column sample_bars (sma_indicator e sample_close 20) in
  let ema := indicator_column sample_bars (ema_indicator e sample_close 20) in
  let rsi_col := indicator_column sample_bars (rsi e sample_close 14) in
  let macd_col := indicator_column sample_bars (macd e sample_close 26 12) in
  let signal := indicator_column sample_bars (macd_signal e sample_close 26 12 9) in
  let inds := ["SMA 20"; "RSI"; "Bollinger"] in
  heap enriched_world !! 0%nat = Some df /\
  lookup_col "Datetime" (df_columns df) = Some x /\
  lookup_col "SMA_20" (df_columns df) = Some sma /\
  lookup_col "EMA_20" (df_columns df) = Some ema /\
  lookup_col "RSI" (df_columns df) = Some rsi_col /\
  lookup_col "MACD" (df_columns df) = Some macd_col /\
  lookup_col "MACD_Signal" (df_columns df) = Some signal /\
  add_indicator_traces 0 inds [] enriched_world
  = (Ok ([] ++ overlay_traces x sma ema inds),
     add_ui enriched_world (sub_charts rsi_col macd_col signal inds)) /\
  (Forall (fun i => ~ In i ["SMA 20"; "EMA 20"; "RSI"; "MACD"]) inds ->
   add_indicator_traces 0 inds [] enriched_world = (Ok [], enriched_world)).
Proof.
  intros e df x sma ema rsi_col macd_col signal inds.
  assert (Hdf : heap enriched_world !! 0%nat = Some df) by (vm_compute; reflexivity).
  assert (Hx : lookup_col "Datetime" (df_columns df) = Some x) by (vm_compute; reflexivity).
  assert (Hsma : lookup_col "SMA_20" (df_columns df) = Some sma) by (vm_compute; reflexivity).
  assert (Hema : lookup_col "EMA_20" (df_columns df) = Some ema) by (vm_compute; reflexivity).
  assert (Hrsi : lookup_col "RSI" (df_columns df) = Some rsi_col) by (vm_compute; reflexivity).
  assert (Hmacd : lookup_col "MACD" (df_columns df) = Some macd_col)
    by (vm_compute; reflexivity).
  assert (Hsignal : lookup_col "MACD_Signal" (df_columns df) = Some signal)
    by (vm_compute; reflexivity).
  repeat (split; [assumption|]).
  exact (indicator_loop_on_enriched_frame enriched_world 0%nat df x sma ema rsi_col macd_col
           signal inds [] Hdf Hx Hsma Hema Hrsi Hmacd Hsignal).
Defined.

Lemma main_content_renders_witness :
  let e := sample_ext "DELISTED" "BROKEN" in
  let sel := sample_selection "AAPL" "GOOGL" in
  let w1 := snd (fetch_stock_data e "AAPL" "1d" "1m" empty_world) in
  let first := mkBar 1704205800000000000 99.5 101 99 100 1000 in
  let final := mkBar 1704206040000000000 105 108 104.5 107 2000 in
  fetch_stock_data e (ticker sel) (time_period sel) (interval sel) empty_world
  = (Ok (Some 0%nat), w1) /\
  heap w1 !! 0%nat = Some sample_frame /\
  provider_series sample_frame sample_bars /\
  head sample_bars = Some first /\ last sample_bars = Some final /\
  dict_get stock_names (ticker sel) = Ok "Apple Inc." /\
  exists w',
    main_content e sel empty_world = (Ok (Some 0%nat), w') /\
    ui w' = ui empty_world
            ++ main_widgets e sel "Apple Inc." (df_columns sample_frame) sample_bars
                 first final /\
    heap w' = <[0%nat := enriched_frame e (df_columns sample_frame) sample_bars]> (heap w1) /\
    requests w' = requests w1 /\ clock_reads w' = clock_reads w1 /\
    next_loc w' = next_loc w1.
Proof.
  intros e sel w1 first final.
  assert (Hfetch : fetch_stock_data e (ticker sel) (time_period sel) (interval sel) empty_world
                   = (Ok (Some 0%nat), w1)) by (vm_compute; reflexivity).
  assert (Hdf : heap w1 !! 0%nat = Some sample_frame) by (vm_compute; reflexivity).
  assert (Hhead : head sample_bars = Some first) by reflexivity.
  assert (Hlast : last sample_bars = Some final) by reflexivity.
  assert (Hname : dict_get stock_names (ticker sel) = Ok "Apple Inc.") by reflexivity.
  split; [exact Hfetch|]. split; [exact Hdf|].
  split; [exact sample_frame_is_provider_series|].
  split; [exact Hhead|]. split; [exact Hlast|]. split; [exact Hname|].
  exact (main_content_renders e sel empty_world 0%nat w1 sample_frame sample_bars first final
           "Apple Inc." Hfetch Hdf sample_frame_is_provider_series Hhead Hlast Hname).
Defined.

Lemma main_content_unknown_ticker_witness :
  let e := sample_ext "DELISTED" "BROKEN" in
  let sel := sample_selection "IBM" "GOOGL" in
  let w1 := snd (fetch_stock_data e "IBM" "1d" "1m" empty_world) in
  fetch_stock_data e (ticker sel) (time_period sel) (interval sel) empty_world
  = (Ok (Some 0%nat), w1) /\
  heap w1 !! 0%nat = Some sample_frame /\
  provider_series sample_frame sample_bars /\
  ~ In (ticker sel) (keys stock_names) /\
  exists w',
    main_content e sel empty_world = (Raise (KeyError (ticker sel)), w') /\
    ui w' = ui empty_world /\
    heap w' !! 0%nat = Some (enriched_frame e (df_columns sample_frame) sample_bars).
Proof.
  intros e sel w1.
  assert (Hfetch : fetch_stock_data e (ticker sel) (time_period sel) (interval sel) empty_world
                   = (Ok (Some 0%nat), w1)) by (vm_compute; reflexivity).
  assert (Hdf : heap w1 !! 0%nat = Some sample_frame) by (vm_compute; reflexivity).
  assert (Hname : ~ In (ticker sel) (keys stock_names)).
  { vm_compute. intros H. repeat (destruct H as [H|H]; [discriminate H|]). exact H. }
  split; [exact Hfetch|]. split; [exact Hdf|].
  split; [exact sample_frame_is_provider_series|]. split; [exact Hname|].
  exact (main_content_unknown_ticker e sel empty_world 0%nat w1 sample_frame sample_bars
           Hfetch Hdf sample_frame_is_provider_series Hname).
Defined.

(** ** The comparison chart and the side panel *)

Section Panels.
Context (ext : Externals).

(** A fetch that hands out a frame: where it is, and what else changed. *)
Lemma fetch_some_inv ticker period interval w r w' :
  fetch_stock_data ext ticker period interval w = (Ok (Some r), w') ->
  r = next_loc w /\
  exists req df,
    yf_download ext (length (requests w)) req = RespFrame df /\
    df_empty df = false /\
    w' = mkWorld (<[r := df]> (heap w)) (S r) (ui w) (requests w ++ [req])
                 (S (clock_reads w)).
Proof.
  destruct (fetch_cases ext ticker period interval w)
    as [(e & H)|[(req & e & Hresp & H)|[(req & df & Hresp & Hempty & H)
                                       |(req & df & Hresp & Hempty & H)]]];
    rewrite H; intros Heq; inversion Heq; subst; clear Heq.
  split; [reflexivity|]. exists req, df. auto.
Qed.

Lemma well_behaved_series n req df :
  well_behaved ext ->
  yf_download ext n req = RespFrame df -> df_empty df = false ->
  exists bars, provider_series df bars.
Proof.
  intros Hwb Hresp Hempty. specialize (Hwb n req). rewrite Hresp in Hwb.
  destruct Hwb as [Hwb|Hwb]; [congruence|exact Hwb].
Qed.

(** The comparison chart in one piece, for a comparison fetch that
    brought a provider series. *)
Lemma comparison_chart_run sel w data primary r w1 df bars x y :
  fetch_stock_data ext (compare_ticker sel) (time_period sel) (interval sel) w
  = (Ok (Some r), w1) ->
  heap w1 !! r = Some df ->
  provider_series df bars ->
  heap w1 !! data = Some primary -> data <> r ->
  lookup_col "Datetime" (df_columns primary) = Some x ->
  lookup_col "Close" (df_columns primary) = Some y ->
  let w2 := set_heap w1 (<[r := normalized_provider_frame (df_columns df) bars]> (heap w1)) in
  comparison_chart ext sel (Some data) w =
    match dict_get stock_names (ticker sel) with
    | Ok name =>
        match dict_get stock_names (compare_ticker sel) with
        | Ok compare_name =>
            (Ok tt, add_ui w2 [StPlotlyChart (comparison_figure sel name compare_name x y bars)])
        | Raise e => (Raise e, w2)
        end
    | Raise e => (Raise e, w2)
    end.
Proof.
  intros Hfetch Hdf Hseries Hprimary Hne Hx Hy w2.
  destruct (provider_series_columns _ _ Hseries) as (_ & Hprices & _).
  destruct Hprices as (_ & _ & _ & Hclose & _).
  unfold comparison_chart.
  unfold bind at 1. rewrite Hfetch.
  unfold bind at 1. rewrite (process_data_provider _ _ _ _ Hdf Hseries).
  fold (time_column bars). fold (normalized_provider_frame (df_columns df) bars). fold w2.
  assert (Hp2 : heap w2 !! data = Some primary).
  { unfold w2. cbn [heap set_heap]. rewrite lookup_insert_ne by congruence. exact Hprimary. }
  assert (Hr2 : heap w2 !! r = Some (normalized_provider_frame (df_columns df) bars))
    by apply lookup_insert_eq.
  clearbody w2.
  unfold subscript. fold (getitem data "Datetime"). fold (getitem data "Close").
  rewrite (bind_getitem _ _ _ _ _ _ Hp2 Hx), (bind_getitem _ _ _ _ _ _ Hp2 Hy).
  rewrite (bind_getitem _ _ _ "Datetime" (time_column bars) _ Hr2) by reflexivity.
  rewrite (bind_getitem _ _ _ "Close" (close_column bars) _ Hr2) by exact Hclose.
  destruct (dict_get stock_names (ticker sel)) as [name|e]; [|reflexivity].
  rewrite bind_lift_Ok.
  destruct (dict_get stock_names (compare_ticker sel)) as [compare_name|e]; [|reflexivity].
  rewrite bind_lift_Ok. reflexivity.
Qed.

(** X14: the comparison chart (lines 167-178).  With the primary data at
    hand and a provider series fetched for the comparison ticker, the
    block never raises: it normalizes the comparison series in place
    (it is not enriched), leaves the primary frame as it is, and shows
    one chart of two line traces, the primary closes first, each over
    its own timestamp column; the two series are not aligned with one
    another. *)
Theorem comparison_chart_renders sel w data primary r w1 df bars x y name compare_name :
  fetch_stock_data ext (compare_ticker sel) (time_period sel) (interval sel) w
  = (Ok (Some r), w1) ->
  heap w1 !! r = Some df ->
  provider_series df bars ->
  heap w1 !! data = Some primary -> data <> r ->
  lookup_col "Datetime" (df_columns primary) = Some x ->
  lookup_col "Close" (df_columns primary) = Some y ->
  dict_get stock_names (ticker sel) = Ok name ->
  dict_get stock_names (compare_ticker sel) = Ok compare_name ->
  exists w',
    comparison_chart ext sel (Some data) w = (Ok tt, w') /\
    ui w' = ui w ++ [StPlotlyChart (comparison_figure sel name compare_name x y bars)] /\
    heap w' !! r = Some (normalized_provider_frame (df_columns df) bars) /\
    (forall l, l <> r -> heap w' !! l = heap w1 !! l) /\
    requests w' = requests w1 /\ clock_reads w' = clock_reads w1.
Proof.
  intros Hfetch Hdf Hseries Hprimary Hne Hx Hy Hname Hcompare.
  rewrite (comparison_chart_run _ _ _ _ _ _ _ _ _ _ Hfetch Hdf Hseries Hprimary Hne Hx Hy).
  cbv zeta. rewrite Hname, Hcompare.
  eexists. split; [reflexivity|].
  cbn [ui heap requests clock_reads add_ui set_heap].
  rewrite (fetch_some_ui _ _ _ _ _ _ _ Hfetch).
  split; [reflexivity|]. split; [apply lookup_insert_eq|].
  split; [|split; reflexivity].
  intros l Hl. apply lookup_insert_ne. congruence.
Qed.

(** One readout of the side panel, for a provider series. *)
Lemma real_time_readout_run symbol r w df bars first final :
  heap w !! r = Some df ->
  provider_series df bars ->
  head bars = Some first -> last bars = Some final ->
  let w1 := set_heap w (<[r := normalized_provider_frame (df_columns df) bars]> (heap w)) in
  real_time_readout symbol r w =
    match dict_get stock_names symbol with
    | Ok name => (Ok tt, add_ui w1 [readout_widget name first final])
    | Raise e => (Raise e, w1)
    end.
Proof.
  intros Hdf Hseries Hhead Hlast w1.
  destruct (provider_series_columns _ _ Hseries) as (_ & Hprices & _).
  destruct Hprices as (Hopen & _ & _ & Hclose & _).
  unfold real_time_readout.
  unfold bind at 1. rewrite (process_data_provider _ _ _ _ Hdf Hseries).
  fold (time_column bars). fold (normalized_provider_frame (df_columns df) bars). fold w1.
  assert (Hr : heap w1 !! r = Some (normalized_provider_frame (df_columns df) bars))
    by apply lookup_insert_eq.
  clearbody w1.
  rewrite (bind_getitem _ _ _ "Close" (close_column bars) _ Hr) by exact Hclose.
  rewrite (bind_lift_ok _ _ _ _ (iloc_last_float bar_close bars final Hlast)).
  rewrite (bind_getitem _ _ _ "Open" (open_column bars) _ Hr) by exact Hopen.
  rewrite (bind_lift_ok _ _ _ _ (iloc_first_float bar_open bars first Hhead)).
  cbn [py_sub]. rewrite bind_lift_Ok.
  rewrite (bind_getitem _ _ _ "Open" (open_column bars) _ Hr) by exact Hopen.
  rewrite (bind_lift_ok _ _ _ _ (iloc_first_float bar_open bars first Hhead)).
  cbn [py_truediv]. rewrite bind_lift_Ok.
  destruct (dict_get stock_names symbol) as [name|e]; reflexivity.
Qed.

(** The Fetcher on the one-day period: the provider is asked exactly
    once, and its answer decides. *)
Lemma fetch_one_day symbol itv w :
  fetch_stock_data ext symbol "1d" itv w =
  let req := ReqPeriod symbol "1d" itv in
  let w1 := mkWorld (heap w) (next_loc w) (ui w) (requests w ++ [req]) (S (clock_reads w)) in
  match yf_download ext (length (requests w)) req with
  | RespRaise e => (Ok None, add_ui w1 [fetch_error symbol e])
  | RespFrame df =>
      let w2 := mkWorld (<[next_loc w := df]> (heap w)) (S (next_loc w)) (ui w)
                        (requests w ++ [req]) (S (clock_reads w)) in
      if df_empty df then (Ok None, add_ui w2 [no_data_warning symbol])
      else (Ok (Some (next_loc w)), w2)
  end.
Proof.
  rewrite fetch_stock_data_run. cbv zeta.
  change (String.eqb "1d" "1wk") with false. change (String.eqb "1d" "1d") with true.
  cbv iota. reflexivity.
Qed.

(** One entry of the watchlist (lines 183-189): it never raises, reads
    the clock once, asks the provider exactly once, and shows exactly one
    widget: the Fetcher's error or warning, or the readout. *)
Lemma real_time_entry_step symbol w :
  well_behaved ext ->
  In symbol (keys stock_names) ->
  exists w' widget,
    real_time_entry ext symbol w = (Ok tt, w') /\
    ui w' = ui w ++ [widget] /\
    entry_shows symbol
      (yf_download ext (length (requests w)) (ReqPeriod symbol "1d" "1m")) widget /\
    requests w' = requests w ++ [ReqPeriod symbol "1d" "1m"] /\
    clock_reads w' = S (clock_reads w) /\
    (forall l, l <> next_loc w -> heap w' !! l = heap w !! l).
Proof.
  intros Hwb Hsym.
  rewrite real_time_entry_check_redundant. unfold real_time_entry_unchecked.
  unfold bind at 1. rewrite fetch_one_day. cbv zeta. unfold entry_shows.
  destruct (yf_download ext (length (requests w)) (ReqPeriod symbol "1d" "1m"))
    as [df|e] eqn:Hresp.
  - destruct (df_empty df) eqn:Hempty.
    + eexists. eexists. split; [reflexivity|].
      cbn [ui heap requests clock_reads add_ui].
      repeat split. intros l Hl. apply lookup_insert_ne. congruence.
    + destruct (well_behaved_series _ _ _ Hwb Hresp Hempty) as [bars Hseries].
      destruct (provider_series_columns _ _ Hseries) as (Hne & _).
      destruct (head bars) as [first|] eqn:Hhead; [|destruct bars; [congruence|discriminate]].
      destruct (last bars) as [final|] eqn:Hlast; [|apply last_None in Hlast; congruence].
      destruct (dict_get_present _ _ Hsym) as [name Hname].
      rewrite (real_time_readout_run symbol (next_loc w) _ df bars first final);
        [|apply lookup_insert_eq|exact Hseries|exact Hhead|exact Hlast].
      cbv zeta. rewrite Hname.
      eexists. eexists. split; [reflexivity|].
      cbn [ui heap requests clock_reads add_ui set_heap].
      split; [reflexivity|]. split; [exists bars, first, final, name; auto|].
      split; [reflexivity|]. split; [reflexivity|].
      intros l Hl. rewrite !lookup_insert_ne by congruence. reflexivity.
  - eexists. eexists. split; [reflexivity|].
    cbn [ui heap requests clock_reads add_ui]. repeat split.
Qed.

(** The loop over a list of watchlist symbols. *)
Lemma watchlist_run syms :
  well_behaved ext ->
  Forall (fun s => In s (keys stock_names)) syms ->
  forall w,
  exists w' shown,
    for_each syms (real_time_entry ext) w = (Ok tt, w') /\
    ui w' = ui w ++ shown /\
    length shown = length syms /\
    (forall i symbol, syms !! i = Some symbol ->
       exists widget,
         shown !! i = Some widget /\
         entry_shows symbol
           (yf_download ext (length (requests w) + i) (ReqPeriod symbol "1d" "1m")) widget) /\
    requests w' = requests w ++ map (fun s => ReqPeriod s "1d" "1m") syms /\
    clock_reads w' = (clock_reads w + length syms)%nat.
Proof.
  intros Hwb. induction 1 as [|s syms Hs _ IH]; intros w.
  - exists w, []. cbn [for_each map length]. unfold ret.
    rewrite !app_nil_r, Nat.add_0_r. repeat split.
    intros i symbol Hi. discriminate Hi.
  - destruct (real_time_entry_step s w Hwb Hs)
      as (w1 & widget & Hrun & Hui & Hshows & Hreq & Hclock & _).
    destruct (IH w1) as (w' & shown & Hrest & Hui' & Hlen & Hall & Hreq' & Hclock').
    exists w', (widget :: shown).
    split; [cbn [for_each]; unfold bind at 1; rewrite Hrun; exact Hrest|].
    split; [rewrite Hui', Hui, <- app_assoc; reflexivity|].
    split; [cbn [length]; rewrite Hlen; reflexivity|].
    split; [|split].
    + intros [|i] symbol Hi.
      * cbn in Hi. inversion Hi; subst symbol. exists widget.
        rewrite Nat.add_0_r. split; [reflexivity|exact Hshows].
      * cbn in Hi. destruct (Hall i symbol Hi) as (wd & Hwd & Hsh).
        exists wd. split; [exact Hwd|].
        rewrite Hreq, length_app in Hsh. cbn [length] in Hsh.
        replace (length (requests w) + S i)%nat with (length (requests w) + 1 + i)%nat by lia.
        exact Hsh.
    + rewrite Hreq', Hreq, <- app_assoc. reflexivity.
    + rewrite Hclock', Hclock. cbn [length]. lia.
Qed.

(** The side panel runs to its end. *)
Lemma real_time_prices_ok :
  well_behaved ext ->
  forall w,
  exists w' shown,
    real_time_prices ext w = (Ok tt, w') /\
    ui w' = ui w ++ shown /\
    requests w' = requests w ++ map (fun s => ReqPeriod s "1d" "1m") (keys stock_names).
Proof.
  intros Hwb w.
  assert (Hkeys : Forall (fun s => In s (keys stock_names)) (keys stock_names))
    by (apply List.Forall_forall; auto).
  destruct (watchlist_run (keys stock_names) Hwb Hkeys
              (add_ui w [StHeader Sidebar "Real-Time Stock Prices"]))
    as (w' & shown & Hrun & Hui & _ & _ & Hreq & _).
  exists w', (StHeader Sidebar "Real-Time Stock Prices" :: shown).
  split; [unfold real_time_prices; rewrite bind_emit; exact Hrun|].
  split; [rewrite Hui; cbn [ui add_ui]; rewrite <- app_assoc; reflexivity|exact Hreq].
Qed.

(** X15: the side panel of real-time prices (lines 180-189), for a
    provider that answers with an exception, an empty frame or a series.
    The panel never raises, whatever happens to single symbols: after its
    header it shows exactly one widget per symbol of the name table, in
    the table's order, each of them the Fetcher's error or warning for
    that symbol, or the readout of its last close with the change against
    the first open of the day (not against the first close, which the
    main metrics use); it asks the provider once per symbol, in that
    order, for the one-day period at one-minute bars, thirteen requests
    in all, and takes one clock reading per symbol. *)
Theorem real_time_prices_completes w :
  well_behaved ext ->
  exists w' shown,
    real_time_prices ext w = (Ok tt, w') /\
    ui w' = ui w ++ StHeader Sidebar "Real-Time Stock Prices" :: shown /\
    length shown = 13%nat /\
    (forall i symbol, keys stock_names !! i = Some symbol ->
       exists widget,
         shown !! i = Some widget /\
         entry_shows symbol
           (yf_download ext (length (requests w) + i) (ReqPeriod symbol "1d" "1m")) widget) /\
    requests w' = requests w ++ map (fun s => ReqPeriod s "1d" "1m") (keys stock_names) /\
    clock_reads w' = (clock_reads w + 13)%nat.
Proof.
  intros Hwb.
  assert (Hkeys : Forall (fun s => In s (keys stock_names)) (keys stock_names))
    by (apply List.Forall_forall; auto).
  destruct (watchlist_run (keys stock_names) Hwb Hkeys
              (add_ui w [StHeader Sidebar "Real-Time Stock Prices"]))
    as (w' & shown & Hrun & Hui & Hlen & Hall & Hreq & Hclock).
  exists w', shown.
  split; [unfold real_time_prices; rewrite bind_emit; exact Hrun|].
  split; [rewrite Hui; cbn [ui add_ui]; rewrite <- app_assoc; reflexivity|].
  split; [rewrite Hlen; unfold keys; apply length_fmap|].
  split; [exact Hall|]. split; [exact Hreq|].
  rewrite Hclock. cbn [clock_reads add_ui]. unfold keys. rewrite length_fmap. reflexivity.
Qed.

End Panels.

Lemma sample_ext_well_behaved clock missing broken :
  well_behaved (sample_ext_with clock missing broken).
Proof.
  intros n req. cbn [yf_download sample_ext_with]. unfold sample_provider.
  destruct (String.eqb (request_ticker req) missing); [left; reflexivity|].
  destruct (String.eqb (request_ticker req) broken); [exact I|].
  right. exists sample_bars. exact sample_frame_is_provider_series.
Qed.

Lemma comparison_chart_renders_witness :
  let e := sample_ext "DELISTED" "BROKEN" in
  let sel := sample_selection "AAPL" "GOOGL" in
  let w := snd (main_content e sel empty_world) in
  let w1 := snd (fetch_stock_data e "GOOGL" "1d" "1m" w) in
  let primary := enriched_frame e sample_columns sample_bars in
  let x := time_column sample_bars in
  let y := close_column sample_bars in
  fetch_stock_data e (compare_ticker sel) (time_period sel) (interval sel) w
  = (Ok (Some 1%nat), w1) /\
  heap w1 !! 1%nat = Some sample_frame /\
  provider_series sample_frame sample_bars /\
  heap w1 !! 0%nat = Some primary /\ 0%nat <> 1%nat /\
  lookup_col "Datetime" (df_columns primary) = Some x /\
  lookup_col "Close" (df_columns primary) = Some y /\
  dict_get stock_names (ticker sel) = Ok "Apple Inc." /\
  dict_get stock_names (compare_ticker sel) = Ok "Alphabet Inc." /\
  exists w',
    comparison_chart e sel (Some 0%nat) w = (Ok tt, w') /\
    ui w' = ui w ++ [StPlotlyChart (comparison_figure sel "Apple Inc." "Alphabet Inc."
                                      x y sample_bars)] /\
    heap w' !! 1%nat = Some (normalized_provider_frame (df_columns sample_frame) sample_bars) /\
    (forall l, l <> 1%nat -> heap w' !! l = heap w1 !! l) /\
    requests w' = requests w1 /\ clock_reads w' = clock_reads w1.
Proof.
  intros e sel w w1 primary x y.
  assert (Hfetch : fetch_stock_data e (compare_ticker sel) (time_period sel) (interval sel) w
                   = (Ok (Some 1%nat), w1)) by (vm_compute; reflexivity).
  assert (Hdf : heap w1 !! 1%nat = Some sample_frame) by (vm_compute; reflexivity).
  assert (Hprimary : heap w1 !! 0%nat = Some primary) by (vm_compute; reflexivity).
  assert (Hne : 0%nat <> 1%nat) by discriminate.
  assert (Hx : lookup_col "Datetime" (df_columns primary) = Some x) by reflexivity.
  assert (Hy : lookup_col "Close" (df_columns primary) = Some y) by reflexivity.
  assert (Hname : dict_get stock_names (ticker sel) = Ok "Apple Inc.") by reflexivity.
  assert (Hcompare : dict_get stock_names (compare_ticker sel) = Ok "Alphabet Inc.")
    by reflexivity.
  split; [exact Hfetch|]. split; [exact Hdf|].
  split; [exact sample_frame_is_provider_series|].
  split; [exact Hprimary|]. split; [exact Hne|]. split; [exact Hx|]. split; [exact Hy|].
  split; [exact Hname|]. split; [exact Hcompare|].
  exact (comparison_chart_renders e sel w 0%nat primary 1%nat w1 sample_frame sample_bars
           x y "Apple Inc." "Alphabet Inc." Hfetch Hdf sample_frame_is_provider_series
           Hprimary Hne Hx Hy Hname Hcompare).
Defined.

Lemma real_time_prices_completes_witness :
  let e := sample_ext "NFLX" "INTC" in
  well_behaved e /\
  exists w' shown,
    real_time_prices e empty_world = (Ok tt, w') /\
    ui w' = ui empty_world ++ StHeader Sidebar "Real-Time Stock Prices" :: shown /\
    length shown = 13%nat /\
    (forall i symbol, keys stock_names !! i = Some symbol ->
       exists widget,
         shown !! i = Some widget /\
         entry_shows symbol
           (yf_download e (length (requests empty_world) + i) (ReqPeriod symbol "1d" "1m"))
           widget) /\
    requests w' = requests empty_world
                  ++ map (fun s => ReqPeriod s "1d" "1m") (keys stock_names) /\
    clock_reads w' = (clock_reads empty_world + 13)%nat.
Proof.
  intros e.
  assert (Hwb : well_behaved e) by apply sample_ext_well_behaved.
  split; [exact Hwb|].
  exact (real_time_prices_completes e empty_world Hwb).
Defined.

(** ** The whole pass *)

Lemma chart_parameters_ok w : chart_parameters w = (Ok tt, snd (chart_parameters w)).
Proof.
  assert (H : fst (chart_parameters w) = Ok tt) by (vm_compute; reflexivity).
  destruct (chart_parameters w) as [r w0]. cbn [fst] in H. subst r. reflexivity.
Qed.

Lemma about_run w : about w = (Ok tt, add_ui w about_widgets).
Proof.
  unfold about. rewrite bind_emit. rewrite emit_run, add_ui_app. reflexivity.
Qed.

Section WholePass.
Context (ext : Externals).

(** The main content area under a well-behaved provider: it hands on
    what the Fetcher returned, and where that is a frame, the frame is
    the enriched series. *)
Lemma main_content_total sel w :
  well_behaved ext ->
  In (ticker sel) (keys stock_names) ->
  exists primary wf w',
    fetch_stock_data ext (ticker sel) (time_period sel) (interval sel) w = (Ok primary, wf) /\
    main_content ext sel w = (Ok primary, w') /\
    next_loc w' = next_loc wf /\
    match primary with
    | None => w' = wf
    | Some data =>
        next_loc wf = S data /\
        exists cols bars,
          price_columns cols bars /\
          heap w' !! data = Some (enriched_frame ext cols bars)
    end.
Proof.
  intros Hwb Hticker.
  destruct (fetch_returns ext (ticker sel) (time_period sel) (interval sel) w)
    as (primary & wf & Hfetch).
  exists primary, wf.
  destruct primary as [data|].
  - destruct (fetch_some_inv _ _ _ _ _ _ _ Hfetch) as (Hdata & req & df & Hresp & Hempty & Hwf).
    destruct (well_behaved_series _ _ _ _ Hwb Hresp Hempty) as [bars Hseries].
    destruct (provider_series_columns _ _ Hseries) as (Hne & Hprices & _).
    destruct (head bars) as [first|] eqn:Hhead; [|destruct bars; [congruence|discriminate]].
    destruct (last bars) as [final|] eqn:Hlast; [|apply last_None in Hlast; congruence].
    destruct (dict_get_present _ _ Hticker) as [name Hname].
    assert (Hdf : heap wf !! data = Some df).
    { rewrite Hwf. cbn [heap]. apply lookup_insert_eq. }
    eexists. split; [exact Hfetch|].
    rewrite (main_content_run _ _ _ _ _ _ _ _ _ Hfetch Hdf Hseries Hhead Hlast), Hname.
    split; [reflexivity|]. split; [reflexivity|].
    split; [rewrite Hwf; reflexivity|].
    exists (df_columns df), bars. split; [exact Hprices|].
    cbn [heap add_ui set_heap]. apply lookup_insert_eq.
  - exists wf. split; [exact Hfetch|].
    split; [exact (main_content_no_data _ _ _ _ Hfetch)|]. split; reflexivity.
Qed.

(** The comparison chart after the main content area, under a
    well-behaved provider. *)
Lemma comparison_chart_total sel primary w :
  well_behaved ext ->
  In (ticker sel) (keys stock_names) ->
  In (compare_ticker sel) (keys stock_names) ->
  match primary with
  | None => True
  | Some data =>
      (data < next_loc w)%nat /\
      exists cols bars,
        price_columns cols bars /\ heap w !! data = Some (enriched_frame ext cols bars)
  end ->
  exists compare wf w',
    fetch_stock_data ext (compare_ticker sel) (time_period sel) (interval sel) w
    = (Ok compare, wf) /\
    comparison_chart ext sel primary w =
      (match primary, compare with
       | None, Some _ => Raise (TypeError "'NoneType' object is not subscriptable")
       | _, _ => Ok tt
       end, w') /\
    requests w' = requests wf /\
    exists shown, ui w' = ui w ++ shown.
Proof.
  intros Hwb Hticker Hcompare Hprimary.
  destruct (fetch_returns ext (compare_ticker sel) (time_period sel) (interval sel) w)
    as (compare & wf & Hfetch).
  exists compare, wf.
  destruct compare as [r|].
  - destruct (fetch_some_inv _ _ _ _ _ _ _ Hfetch) as (Hr & req & df & Hresp & Hempty & Hwf).
    destruct (well_behaved_series _ _ _ _ Hwb Hresp Hempty) as [bars Hseries].
    assert (Hdf : heap wf !! r = Some df).
    { rewrite Hwf. cbn [heap]. apply lookup_insert_eq. }
    destruct primary as [data|].
    + destruct Hprimary as (Hlt & cols & pbars & Hprices & Hframe).
      destruct (dict_get_present _ _ Hticker) as [name Hname].
      destruct (dict_get_present _ _ Hcompare) as [compare_name Hcname].
      destruct (enriched_frame_prices ext _ _ Hprices) as (Hx & _ & _ & _ & Hc & _).
      assert (Hne : data <> r) by lia.
      assert (Hp : heap wf !! data = Some (enriched_frame ext cols pbars)).
      { rewrite Hwf. cbn [heap]. rewrite lookup_insert_ne by congruence. exact Hframe. }
      eexists. split; [exact Hfetch|].
      rewrite (comparison_chart_run ext sel w data _ r wf df bars _ _
                 Hfetch Hdf Hseries Hp Hne Hx Hc).
      cbv zeta. rewrite Hname, Hcname.
      split; [reflexivity|]. split; [reflexivity|].
      eexists. cbn [ui add_ui set_heap].
      rewrite (fetch_some_ui _ _ _ _ _ _ _ Hfetch). reflexivity.
    + eexists. split; [exact Hfetch|].
      rewrite (comparison_chart_none ext sel w r wf _ Hfetch
                 (process_data_provider _ _ _ _ Hdf Hseries)).
      split; [reflexivity|]. split; [reflexivity|].
      exists []. cbn [ui set_heap].
      rewrite (fetch_some_ui _ _ _ _ _ _ _ Hfetch), app_nil_r. reflexivity.
  - exists wf. split; [exact Hfetch|].
    rewrite (comparison_chart_no_data _ _ _ _ _ Hfetch).
    split; [destruct primary; reflexivity|]. split; [reflexivity|].
    destruct (fetch_cases ext (compare_ticker sel) (time_period sel) (interval sel) w)
      as [(e & H)|[(req & e & Hresp & H)|[(req & df & Hresp & Hempty & H)
                                         |(req & df & Hresp & Hempty & H)]]];
      rewrite H in Hfetch; inversion Hfetch; subst; eexists; reflexivity.
Qed.

(** X16: what a render pass can come to.  With a provider that answers
    every request with an exception, an empty frame or a series, both
    selected tickers in the name table and a countdown that could be
    computed, the pass either runs to its end or ends in the TypeError of
    the comparison chart, and the latter exactly when the Fetcher
    returned nothing for the primary ticker and a frame for the
    comparison ticker.  No other exception leaves the script.  A pass
    that runs to its end asks the provider for every symbol of the name
    table after the two selected tickers and shows the About box last. *)
Theorem render_pass_outcomes sel w c w1 :
  well_behaved ext ->
  In (ticker sel) (keys stock_names) ->
  In (compare_ticker sel) (keys stock_names) ->
  auto_refresh ext (snd (chart_parameters w)) = (Ok c, w1) ->
  exists primary wp w2 compare w3 w',
    fetch_stock_data ext (ticker sel) (time_period sel) (interval sel) w1 = (Ok primary, wp) /\
    main_content ext sel w1 = (Ok primary, w2) /\
    fetch_stock_data ext (compare_ticker sel) (time_period sel) (interval sel) w2
    = (Ok compare, w3) /\
    render_pass ext sel w =
      (match primary, compare with
       | None, Some _ => Raise (TypeError "'NoneType' object is not subscriptable")
       | _, _ => Ok tt
       end, w') /\
    (primary <> None \/ compare = None ->
     requests w' = requests w3 ++ watchlist_requests /\
     exists page, ui w' = page ++ about_widgets).
Proof.
  intros Hwb Hticker Hcompare Hrefresh.
  destruct (main_content_total sel w1 Hwb Hticker)
    as (primary & wp & w2 & Hfetch & Hmain & Hnext & Hprimary).
  assert (Hready :
    match primary with
    | None => True
    | Some data =>
        (data < next_loc w2)%nat /\
        exists cols bars,
          price_columns cols bars /\ heap w2 !! data = Some (enriched_frame ext cols bars)
    end).
  { destruct primary as [data|]; [|exact I].
    destruct Hprimary as (Hwp & Hframe). split; [lia|exact Hframe]. }
  destruct (comparison_chart_total sel primary w2 Hwb Hticker Hcompare Hready)
    as (compare & w3 & w4 & Hcfetch & Hchart & Hreq & shown & Hshown).
  assert (Hpass : forall (k : M unit),
    render_pass ext sel w =
    match (match primary, compare with
           | None, Some _ => Raise (TypeError "'NoneType' object is not subscriptable")
           | _, _ => Ok tt
           end) with
    | Ok _ => bind (real_time_prices ext) (fun _ => about) w4
    | Raise e => (Raise e, w4)
    end).
  { intros _. unfold render_pass.
    unfold bind at 1. rewrite chart_parameters_ok.
    unfold bind at 1. rewrite Hrefresh.
    unfold bind at 1. rewrite Hmain.
    unfold bind at 1. rewrite Hchart.
    destruct primary, compare; reflexivity. }
  specialize (Hpass (ret tt)).
  destruct (real_time_prices_ok ext Hwb w4) as (w5 & panel & Hpanel & Hui5 & Hreq5).
  exists primary, wp, w2, compare, w3.
  assert (Hend : bind (real_time_prices ext) (fun _ => about) w4
                 = (Ok tt, add_ui w5 about_widgets)).
  { unfold bind at 1. rewrite Hpanel. apply about_run. }
  destruct primary as [data|], compare as [r|]; cbv iota in Hpass.
  - exists (add_ui w5 about_widgets). repeat (split; [assumption|]).
    rewrite Hpass, Hend. split; [reflexivity|]. intros _.
    cbn [requests ui add_ui]. rewrite Hreq5, Hreq. split; [reflexivity|]. eauto.
  - exists (add_ui w5 about_widgets). repeat (split; [assumption|]).
    rewrite Hpass, Hend. split; [reflexivity|]. intros _.
    cbn [requests ui add_ui]. rewrite Hreq5, Hreq. split; [reflexivity|]. eauto.
  - exists w4. repeat (split; [assumption|]).
    intros [H|H]; congruence.
  - exists (add_ui w5 about_widgets). repeat (split; [assumption|]).
    rewrite Hpass, Hend. split; [reflexivity|]. intros _.
    cbn [requests ui add_ui]. rewrite Hreq5, Hreq. split; [reflexivity|]. eauto.
Qed.

End WholePass.

Lemma render_pass_outcomes_witness :
  let e := sample_ext "DELISTED" "MSFT" in
  let sel := sample_selection "AAPL" "MSFT" in
  let w1 := snd (auto_refresh e (snd (chart_parameters empty_world))) in
  well_behaved e /\
  In (ticker sel) (keys stock_names) /\
  In (compare_ticker sel) (keys stock_names) /\
  auto_refresh e (snd (chart_parameters empty_world)) = (Ok 20, w1) /\
  exists primary wp w2 compare w3 w',
    fetch_stock_data e (ticker sel) (time_period sel) (interval sel) w1 = (Ok primary, wp) /\
    main_content e sel w1 = (Ok primary, w2) /\
    fetch_stock_data e (compare_ticker sel) (time_period sel) (interval sel) w2
    = (Ok compare, w3) /\
    render_pass e sel empty_world =
      (match primary, compare with
       | None, Some _ => Raise (TypeError "'NoneType' object is not subscriptable")
       | _, _ => Ok tt
       end, w') /\
    (primary <> None \/ compare = None ->
     requests w' = requests w3 ++ watchlist_requests /\
     exists page, ui w' = page ++ about_widgets).
Proof.
  intros e sel w1.
  assert (Hwb : well_behaved e) by apply sample_ext_well_behaved.
  assert (Hticker : In (ticker sel) (keys stock_names)) by (vm_compute; tauto).
  assert (Hcompare : In (compare_ticker sel) (keys stock_names)) by (vm_compute; tauto).
  assert (Hrefresh : auto_refresh e (snd (chart_parameters empty_world)) = (Ok 20, w1))
    by (vm_compute; reflexivity).
  split; [exact Hwb|]. split; [exact Hticker|]. split; [exact Hcompare|].
  split; [exact Hrefresh|].
  exact (render_pass_outcomes e sel empty_world 20 w1 Hwb Hticker Hcompare Hrefresh).
Defined.

(** ** Edge cases of the countdown and of the volume *)




(** int64 addition wraps around: the result differs from the sum by a
    multiple of 2^64 and lies in the int64 range. *)
Lemma wrap64_spec z :
  - 2 ^ 63 <= wrap64 z < 2 ^ 63 /\ exists k, wrap64 z = z + k * 2 ^ 64.
Proof.
  unfold wrap64.
  assert (HM : 0 < 2 ^ 64) by (apply Z.pow_pos_nonneg; lia).
  pose proof (Z.mod_pos_bound (z + 2 ^ 63) (2 ^ 64) HM) as Hbound.
  pose proof (Z.div_mod (z + 2 ^ 63) (2 ^ 64)) as Hdiv.
  assert (H2 : 2 ^ 64 = 2 ^ 63 + 2 ^ 63) by reflexivity.
  split.
  - revert Hbound H2. generalize ((z + 2 ^ 63) mod 2 ^ 64), (2 ^ 64), (2 ^ 63). intros; lia.
  - exists (- ((z + 2 ^ 63) / 2 ^ 64)).
    revert Hdiv HM. generalize ((z + 2 ^ 63) mod 2 ^ 64), ((z + 2 ^ 63) / 2 ^ 64), (2 ^ 64), (2 ^ 63).
    intros r q M H Hdiv HM. specialize (Hdiv ltac:(lia)). nia.
Qed.

Lemma int64_sum_spec vs :
  - 2 ^ 63 <= int64_sum vs < 2 ^ 63 /\ exists k, int64_sum vs = Zsum vs + k * 2 ^ 64.
Proof.
  unfold int64_sum.
  assert (H0 : - 2 ^ 63 <= 0 < 2 ^ 63).
  { assert (0 < 2 ^ 63) by (apply Z.pow_pos_nonneg; lia).
    generalize dependent (2 ^ 63). intros; lia. }
  assert (Hgen : forall acc,
    - 2 ^ 63 <= acc < 2 ^ 63 ->
    - 2 ^ 63 <= fold_left (fun a v => wrap64 (a + v)) vs acc < 2 ^ 63 /\
    exists k, fold_left (fun a v => wrap64 (a + v)) vs acc = acc + Zsum vs + k * 2 ^ 64).
  { clear H0. induction vs as [|v vs IH]; intros acc Hacc; cbn [fold_left].
    - split; [exact Hacc|]. exists 0. cbn [Zsum fold_right]. ring.
    - destruct (wrap64_spec (acc + v)) as [Hrange [k1 Hk1]].
      destruct (IH _ Hrange) as [Hr [k2 Hk2]].
      split; [exact Hr|]. exists (k1 + k2). rewrite Hk2, Hk1.
      change (Zsum (v :: vs)) with (v + Zsum vs). ring. }
  destruct (Hgen 0 H0) as [Hr [k Hk]]. split; [exact Hr|].
  exists k. rewrite Hk. ring.
Qed.

Section VolumeEdge.
Context (ext : Externals).

(** X18: the total volume is an int64 sum.  On a frame with float closes
    and an int64 Volume column [calculate_metrics] never raises on
    account of the volume: the reported value lies in the int64 range
    and differs from the true sum by a multiple of 2^64, and when the
    true sum of non-negative volumes reaches 2^63 (and stays below 2^64)
    the reported volume is that sum minus 2^64, a negative number. *)
Theorem calculate_metrics_volume_wraps w data df cs first final h l vs :
  heap w !! data = Some df ->
  lookup_col "Close" (df_columns df) = Some (FloatCol cs) ->
  head cs = Some first -> last cs = Some final ->
  lookup_col "High" (df_columns df) = Some h ->
  lookup_col "Low" (df_columns df) = Some l ->
  lookup_col "Volume" (df_columns df) = Some (IntCol vs) ->
  exists volume,
    calculate_metrics ext data w =
      (Ok (SFloat final, SFloat (final - first)%float,
           ((final - first) / first * 100)%float,
           series_max h, series_min l, SInt volume), w) /\
    - 2 ^ 63 <= volume < 2 ^ 63 /\
    (exists k, volume = Zsum vs + k * 2 ^ 64) /\
    (2 ^ 63 <= Zsum vs < 2 ^ 64 -> volume = Zsum vs - 2 ^ 64 /\ volume < 0).
Proof.
  intros Hdf Hclose Hhead Hlast Hhigh Hlow Hvolume.
  exists (int64_sum vs).
  split; [rewrite (calculate_metrics_run ext _ _ _ _ _ _ _ _ _ Hdf Hclose Hhead Hlast
                     Hhigh Hlow Hvolume); reflexivity|].
  destruct (int64_sum_spec vs) as [Hrange [k Hk]].
  split; [exact Hrange|]. split; [eauto|].
  intros Hsum. rewrite Hk in *.
  assert (H2 : 2 ^ 64 = 2 ^ 63 + 2 ^ 63) by reflexivity.
  assert (HM : 0 < 2 ^ 63) by (apply Z.pow_pos_nonneg; lia).
  revert Hrange Hsum H2 HM. generalize (Zsum vs), (2 ^ 64), (2 ^ 63).
  intros S M H Hrange Hsum H2 HM.
  assert (k = -1) by nia. subst k. lia.
Qed.

End VolumeEdge.

Lemma calculate_metrics_volume_wraps_witness :
  let e := sample_ext "DELISTED" "BROKEN" in
  let vs := [4611686018427387904; 4611686018427387904] in
  heap heavy_volume_world !! 0%nat = Some heavy_volume_frame /\
  lookup_col "Close" (df_columns heavy_volume_frame) = Some (FloatCol [1; 2]%float) /\
  head [1; 2]%float = Some 1%float /\ last [1; 2]%float = Some 2%float /\
  lookup_col "High" (df_columns heavy_volume_frame) = Some (FloatCol [2; 3]%float) /\
  lookup_col "Low" (df_columns heavy_volume_frame) = Some (FloatCol [1; 2]%float) /\
  lookup_col "Volume" (df_columns heavy_volume_frame) = Some (IntCol vs) /\
  exists volume,
    calculate_metrics e 0 heavy_volume_world =
      (Ok (SFloat 2, SFloat (2 - 1)%float, ((2 - 1) / 1 * 100)%float,
           series_max (FloatCol [2; 3]%float), series_min (FloatCol [1; 2]%float),
           SInt volume), heavy_volume_world) /\
    - 2 ^ 63 <= volume < 2 ^ 63 /\
    (exists k, volume = Zsum vs + k * 2 ^ 64) /\
    (2 ^ 63 <= Zsum vs < 2 ^ 64 -> volume = Zsum vs - 2 ^ 64 /\ volume < 0).
Proof.
  intros e vs.
  assert (Hdf : heap heavy_volume_world !! 0%nat = Some heavy_volume_frame)
    by (vm_compute; reflexivity).
  assert (Hclose : lookup_col "Close" (df_columns heavy_volume_frame)
                   = Some (FloatCol [1; 2]%float)) by reflexivity.
  assert (Hhead : head [1; 2]%float = Some 1%float) by reflexivity.
  assert (Hlast : last [1; 2]%float = Some 2%float) by reflexivity.
  assert (Hhigh : lookup_col "High" (df_columns heavy_volume_frame)
                  = Some (FloatCol [2; 3]%float)) by reflexivity.
  assert (Hlow : lookup_col "Low" (df_columns heavy_volume_frame)
                 = Some (FloatCol [1; 2]%float)) by reflexivity.
  assert (Hvolume : lookup_col "Volume" (df_columns heavy_volume_frame) = Some (IntCol vs))
    by reflexivity.
  repeat (split; [assumption|]).
  exact (calculate_metrics_volume_wraps e heavy_volume_world 0%nat heavy_volume_frame
           [1; 2]%float 1%float 2%float (FloatCol [2; 3]%float) (FloatCol [1; 2]%float) vs
           Hdf Hclose Hhead Hlast Hhigh Hlow Hvolume).
Defined.

(** The wrap-around at work: two volumes of 2^62 are reported as
    a total of -2^63. *)
Example volume_overflow_is_negative :
  calculate_metrics (sample_ext "DELISTED" "BROKEN") 0 heavy_volume_world
  = (Ok (SFloat 2, SFloat 1, 100%float, SFloat 3, SFloat 1,
         SInt (-9223372036854775808)), heavy_volume_world).
Proof. vm_compute. reflexivity. Qed.
